(** * On-call rotation scheduler: a shallow embedding of [oncall_scheduler.py]

    The development follows the pipeline of the script:
    date expressions ([parse_date_argument]), the date range
    ([calculate_date_range]), the per-layer enumeration of dates
    ([generate_dates_for_layer]), the rotation, aggregation and colouring
    done by [generate_oncall_calendar], and the axis bounds computed by
    [generate_visual_schedule].

    Conventions.
    - A [datetime] of the script always sits at midnight; it is represented
      by its proleptic Gregorian ordinal (what [datetime.toordinal] returns),
      and the conversions to and from (year, month, day) are those of
      CPython's [datetime] module.
    - A Python [str] is represented when all its code points are below
      256: it is the [string] of these code points.  The character classes
      below are the Python ones on that range.
    - The messages and the limits of the built-in functions are those of
      CPython 3.11 on Linux.
    - A Python call that may raise returns a [result]. *)

From Stdlib Require Import ZArith Lia List Bool Ascii String Floats Sorted Permutation.
From stdpp Require Import base option list gmap strings.

Local Open Scope string_scope.
Local Open Scope Z_scope.

(** ** Exceptions *)

Inductive exn : Type :=
| ValueError (msg : string)
| OverflowError (msg : string)
| ZeroDivisionError (msg : string)
| IndexError (msg : string)
| KeyError (msg : string).

Inductive result (A : Type) : Type :=
| Ok (a : A)
| Raise (e : exn).
Arguments Ok {A} a.
Arguments Raise {A} e.

Definition rbind {A B : Type} (r : result A) (k : A -> result B) : result B :=
  match r with
  | Ok a => k a
  | Raise e => Raise e
  end.

Notation "'let*' x ':=' r 'in' k" := (rbind r (fun x => k))
  (at level 10, x pattern, r at level 100, k at level 200).

(** ** Strings *)

Module Str.

Definition code (c : ascii) : Z := Z.of_N (N_of_ascii c).

(** White space, as [str.strip] and [int] see it: TAB, LF, VT, FF, CR, FS,
    GS, RS, US, the space, NEL (U+0085) and the no-break space (U+00A0). *)
Definition isspace (c : ascii) : bool :=
  let n := code c in
  ((9 <=? n) && (n <=? 13)) || ((28 <=? n) && (n <=? 32))
  || (n =? 133) || (n =? 160).

(** A decimal digit, as [\d] and [int] see it: below 256 these are the
    ASCII digits. *)
Definition isdigit (c : ascii) : bool :=
  let n := code c in (48 <=? n) && (n <=? 57).

(** The characters [str.lower] changes: [A-Z], and the capital letters
    U+00C0 to U+00DE but for the multiplication sign U+00D7. *)
Definition isupper (c : ascii) : bool :=
  let n := code c in
  ((65 <=? n) && (n <=? 90))
  || ((192 <=? n) && (n <=? 222) && negb (n =? 215)).

Definition lower_char (c : ascii) : ascii :=
  if isupper c then ascii_of_N (N_of_ascii c + 32) else c.

Fixpoint lower (s : string) : string :=
  match s with
  | EmptyString => EmptyString
  | String c s' => String (lower_char c) (lower s')
  end.

Fixpoint lstrip (s : string) : string :=
  match s with
  | EmptyString => EmptyString
  | String c s' => if isspace c then lstrip s' else s
  end.

Fixpoint rstrip (s : string) : string :=
  match s with
  | EmptyString => EmptyString
  | String c s' =>
      match rstrip s' with
      | EmptyString => if isspace c then EmptyString else String c EmptyString
      | r => String c r
      end
  end.

Definition strip (s : string) : string := rstrip (lstrip s).

(** The longest prefix of characters satisfying [p], and the rest. *)
Fixpoint span (p : ascii -> bool) (s : string) : string * string :=
  match s with
  | EmptyString => (EmptyString, EmptyString)
  | String c s' =>
      if p c then let (a, b) := span p s' in (String c a, b)
      else (EmptyString, s)
  end.

Definition digit_val (c : ascii) : Z := code c - 48.

(** [int(s)] for a string of decimal digits. *)
Definition int_of_digits (s : string) : Z :=
  fold_left (fun acc c => 10 * acc + digit_val c) (list_ascii_of_string s) 0.

Definition digit_char (d : Z) : ascii := ascii_of_N (Z.to_N (48 + d)).

(** Decimal numeral of a natural number, most significant digit first. *)
Fixpoint digits_fuel (fuel : nat) (n : Z) (acc : string) : string :=
  match fuel with
  | O => acc
  | S f =>
      let acc' := String (digit_char (n mod 10)) acc in
      if n / 10 =? 0 then acc' else digits_fuel f (n / 10) acc'
  end.

Definition of_nonneg (n : Z) : string :=
  digits_fuel (S (Z.to_nat (Z.log2 n))) n EmptyString.

(** [str(n)] for an integer. *)
Definition of_int (n : Z) : string :=
  if n <? 0 then String "-" (of_nonneg (- n)) else of_nonneg n.

Fixpoint zeros (k : nat) : string :=
  match k with
  | O => EmptyString
  | S k' => String "0" (zeros k')
  end.

(** [f"{n:0wd}"] for a non-negative [n]. *)
Definition zfill (w : nat) (n : Z) : string :=
  let s := of_nonneg n in
  zeros (w - String.length s) ++ s.


(** Comparison of two strings, character by character, by code. *)
Fixpoint ltb (a b : string) : bool :=
  match a, b with
  | EmptyString, EmptyString => false
  | EmptyString, String _ _ => true
  | String _ _, EmptyString => false
  | String x a', String y b' =>
      if code x <? code y then true
      else if code y <? code x then false
      else ltb a' b'
  end.

(** [s.split(sep)] for a non-empty [sep]: [skip] counts the characters of
    a separator just found that are still to be passed over. *)
Fixpoint split_go (sep s : string) (skip : nat) (cur : string) : list string :=
  match s with
  | EmptyString => [cur]
  | String c s' =>
      match skip with
      | S k => split_go sep s' k cur
      | O =>
          if String.prefix sep s
          then cur :: split_go sep s' (String.length sep - 1) EmptyString
          else split_go sep s' 0 (cur ++ String c EmptyString)
      end
  end.

Definition split (sep s : string) : list string := split_go sep s 0 EmptyString.

(** The digits of an integer literal: single underscores may separate
    digits. *)
Fixpoint int_body (s : string) (acc : Z) (after_digit : bool) : option Z :=
  match s with
  | EmptyString => if after_digit then Some acc else None
  | String c r =>
      if isdigit c then int_body r (10 * acc + digit_val c) true
      else if Ascii.eqb c "_" && after_digit then int_body r acc false
      else None
  end.

(** [repr(s)]: the quote is the double one when [s] holds a single quote
    and no double quote; the quote and the backslash are escaped, TAB, LF
    and CR are written [\t], [\n] and [\r], every other character that is
    not printable as [\xNN]. *)
Definition hex_digit (d : Z) : ascii :=
  if d <? 10 then ascii_of_N (Z.to_N (48 + d)) else ascii_of_N (Z.to_N (87 + d)).

Definition isprintable (c : ascii) : bool :=
  let n := code c in
  ((32 <=? n) && (n <? 127)) || ((161 <=? n) && negb (n =? 173)).

Definition has_char (c : ascii) (s : string) : bool :=
  existsb (Ascii.eqb c) (list_ascii_of_string s).

Definition backslash : ascii := ascii_of_nat 92.
Definition squote : ascii := ascii_of_nat 39.
Definition dquote : ascii := ascii_of_nat 34.

Fixpoint repr_body (quote : ascii) (s : string) : string :=
  match s with
  | EmptyString => EmptyString
  | String c r =>
      let n := code c in
      let rest := repr_body quote r in
      if Ascii.eqb c quote || Ascii.eqb c backslash then String backslash (String c rest)
      else if n =? 9 then String backslash (String "t" rest)
      else if n =? 10 then String backslash (String "n" rest)
      else if n =? 13 then String backslash (String "r" rest)
      else if isprintable c then String c rest
      else String backslash
             (String "x" (String (hex_digit (n / 16)) (String (hex_digit (n mod 16)) rest)))
  end.

Definition repr (s : string) : string :=
  let quote := if has_char squote s && negb (has_char dquote s) then dquote else squote in
  String quote (repr_body quote s ++ String quote EmptyString).

(** The number of decimal digits [int] converts at most. *)
Definition MAX_STR_DIGITS : Z := 4300.

Definition count_digits (s : string) : Z :=
  Z.of_nat (List.length (List.filter isdigit (list_ascii_of_string s))).

Definition digit_limit_message (digits : Z) : string :=
  "Exceeds the limit (4300 digits) for integer string conversion: value has "
  ++ of_int digits ++ " digits; use sys.set_int_max_str_digits() to increase the limit".

(** What [int] reads after the sign: the longest run of digits and
    underscores, which must be well formed (else the literal is invalid),
    must not hold too many digits, and must be all that is left. *)
Definition int_unsigned (bad : exn) (r : string) : result Z :=
  let (run, rest) := span (fun c => isdigit c || Ascii.eqb c "_") r in
  match int_body run 0 false with
  | None => Raise bad
  | Some n =>
      if MAX_STR_DIGITS <? count_digits run
      then Raise (ValueError (digit_limit_message (count_digits run)))
      else match rest with
           | EmptyString => Ok n
           | _ => Raise bad
           end
  end.

(** [int(s)]: surrounding white space, an optional sign, the digits. *)
Definition py_int (s : string) : result Z :=
  let bad :=
    ValueError ("invalid literal for int() with base 10: "
                ++ String.substring 0 200 (repr s)) in
  match strip s with
  | String "-"%char r => let* n := int_unsigned bad r in Ok (- n)
  | String "+"%char r => int_unsigned bad r
  | r => int_unsigned bad r
  end.

End Str.

(** ** Dates: the [datetime] module

    [_ymd2ord], [_ord2ymd] and the tables are those of CPython's
    [datetime.py]; [MINYEAR = 1], [MAXYEAR = 9999]. *)

Module Date.

Definition datetime : Type := Z.

Definition MINYEAR : Z := 1.
Definition MAXYEAR : Z := 9999.
Definition MAXORDINAL : Z := 3652059.

Definition is_leap (year : Z) : bool :=
  (year mod 4 =? 0) && (negb (year mod 100 =? 0) || (year mod 400 =? 0)).

Definition DAYS_IN_MONTH : list Z :=
  [-1; 31; 28; 31; 30; 31; 30; 31; 31; 30; 31; 30; 31].

Definition DAYS_BEFORE_MONTH : list Z :=
  [-1; 0; 31; 59; 90; 120; 151; 181; 212; 243; 273; 304; 334].

Definition tab (t : list Z) (i : Z) : Z := nth (Z.to_nat i) t 0.

Definition days_before_year (year : Z) : Z :=
  let y := year - 1 in y * 365 + y / 4 - y / 100 + y / 400.

Definition days_in_month (year month : Z) : Z :=
  if (month =? 2) && is_leap year then 29 else tab DAYS_IN_MONTH month.

Definition days_before_month (year month : Z) : Z :=
  tab DAYS_BEFORE_MONTH month + (if (2 <? month) && is_leap year then 1 else 0).

Definition ymd2ord (year month day : Z) : Z :=
  days_before_year year + days_before_month year month + day.

Definition DI400Y : Z := 146097.
Definition DI100Y : Z := 36524.
Definition DI4Y : Z := 1461.

Definition ord2ymd (n0 : Z) : Z * Z * Z :=
  let n := n0 - 1 in
  let n400 := n / DI400Y in
  let n := n mod DI400Y in
  let year := n400 * 400 + 1 in
  let n100 := n / DI100Y in
  let n := n mod DI100Y in
  let n4 := n / DI4Y in
  let n := n mod DI4Y in
  let n1 := n / 365 in
  let n := n mod 365 in
  let year := year + n100 * 100 + n4 * 4 + n1 in
  if (n1 =? 4) || (n100 =? 4) then (year - 1, 12, 31)
  else
    let leapyear := (n1 =? 3) && (negb (n4 =? 24) || (n100 =? 3)) in
    let month := Z.shiftr (n + 50) 5 in
    let preceding :=
      tab DAYS_BEFORE_MONTH month + (if (2 <? month) && leapyear then 1 else 0) in
    if n <? preceding then
      let month := month - 1 in
      let preceding :=
        preceding - (tab DAYS_IN_MONTH month + (if (month =? 2) && leapyear then 1 else 0)) in
      (year, month, n - preceding + 1)
    else (year, month, n - preceding + 1).

(** [datetime(year, month, day)]: the constructor checks its fields. *)
Definition make (year month day : Z) : result datetime :=
  if negb ((MINYEAR <=? year) && (year <=? MAXYEAR)) then
    Raise (ValueError ("year " ++ Str.of_int year ++ " is out of range"))
  else if negb ((1 <=? month) && (month <=? 12)) then
    Raise (ValueError "month must be in 1..12")
  else if negb ((1 <=? day) && (day <=? days_in_month year month)) then
    Raise (ValueError "day is out of range for month")
  else Ok (ymd2ord year month day).

Definition year (d : datetime) : Z := fst (fst (ord2ymd d)).
Definition month (d : datetime) : Z := snd (fst (ord2ymd d)).
Definition day (d : datetime) : Z := snd (ord2ymd d).

(** [d.weekday()]: Monday is 0. *)
Definition weekday (d : datetime) : Z := (d + 6) mod 7.

(** [timedelta(days=n)] and [timedelta(weeks=n)], as a number of days: the
    number must fit a C int, and then be 999999999 at most in magnitude. *)
Definition timedelta_days (n : Z) : result Z :=
  if Z.abs n <=? 999999999 then Ok n
  else if (-2147483648 <=? n) && (n <=? 2147483647) then
    Raise (OverflowError ("days=" ++ Str.of_int n ++ "; must have magnitude <= 999999999"))
  else Raise (OverflowError "Python int too large to convert to C int").

Definition timedelta_weeks (n : Z) : result Z := timedelta_days (7 * n).

(** [d + delta] for a delta of whole days. *)
Definition add_days (d : datetime) (delta : Z) : result datetime :=
  let o := d + delta in
  if (0 <? o) && (o <=? MAXORDINAL) then Ok o
  else Raise (OverflowError "date value out of range").

(** [d.replace(year=y, month=m, day=dd)]: the year is read as a C long,
    then as a C int, before the fields are checked. *)
Definition replace_ymd (y m dd : Z) : result datetime :=
  if negb ((- 2 ^ 63 <=? y) && (y <? 2 ^ 63)) then
    Raise (OverflowError "Python int too large to convert to C long")
  else if 2147483647 <? y then
    Raise (OverflowError "signed integer is greater than maximum")
  else if y <? -2147483648 then
    Raise (OverflowError "signed integer is less than minimum")
  else make y m dd.

(** [d + relativedelta(years=ys, months=ms)] of [dateutil]: the
    constructor folds whole dozens of months into years (keeping the sign
    of [ms]), the sum moves year and month and clamps the day to the
    length of the month reached; [replace] then checks the year. *)
Definition add_relativedelta (d : datetime) (ys ms : Z) : result datetime :=
  let s := Z.sgn ms in
  let ys := ys + (Z.abs ms / 12) * s in
  let ms := (Z.abs ms mod 12) * s in
  let y := year d + ys in
  let m := month d + ms in
  let '(y, m) :=
    if 12 <? m then (y + 1, m - 12)
    else if m <? 1 then (y - 1, m + 12)
    else (y, m) in
  let dd := Z.min (days_in_month y m) (day d) in
  replace_ymd y m dd.

(** [d.strftime('%Y-%m-%d')]: the C library writes the year without
    padding, the month and the day with two digits. *)
Definition strftime_ymd (d : datetime) : string :=
  Str.of_int (year d) ++ "-" ++ Str.zfill 2 (month d) ++ "-" ++ Str.zfill 2 (day d).

End Date.

(** ** Date expressions: [parse_date_argument] *)

Definition is_unit (c : ascii) : bool :=
  match c with
  | "d"%char | "w"%char | "m"%char | "y"%char => true
  | _ => false
  end.

(** Where [$] matches: at the end of the string, or before a final newline. *)
Definition at_dollar (s : string) : bool :=
  match s with
  | EmptyString => true
  | String c EmptyString => Str.code c =? 10
  | _ => false
  end.

(** [re.match(r'^\+(\d+)([dwmy])?$', s)]: the two groups of the match.
    Below 256 the decimal digits that [\d] matches are the ASCII ones. *)
Definition relative_match (s : string) : option (string * option ascii) :=
  match s with
  | String "+"%char rest =>
      let (ds, tl) := Str.span Str.isdigit rest in
      match ds with
      | EmptyString => None
      | _ =>
          match tl with
          | String u tl' =>
              if is_unit u && at_dollar tl' then Some (ds, Some u)
              else if at_dollar tl then Some (ds, None)
              else None
          | EmptyString => Some (ds, None)
          end
      end
  | _ => None
  end.

(** One character in the range [lo..hi] of digits, as its value. *)
Definition digit_in (lo hi : Z) (s : string) : option (Z * string) :=
  match s with
  | String c r =>
      let v := Str.digit_val c in
      if Str.isdigit c && (lo <=? v) && (v <=? hi) then Some (v, r) else None
  | EmptyString => None
  end.

(** Two characters: a digit in [a..b], then a digit in [c..d]. *)
Definition two_digits (a b c d : Z) (s : string) : option (Z * string) :=
  match digit_in a b s with
  | Some (x, r) =>
      match digit_in c d r with
      | Some (y, r') => Some (10 * x + y, r')
      | None => None
      end
  | None => None
  end.

Definition alts {A : Type} (l : list (option A)) : list A := omap id l.

(** The directive [%m] of [strptime]: [1[0-2]|0[1-9]|[1-9]], every
    alternative that matches at the head of [s], in order. *)
Definition month_alts (s : string) : list (Z * string) :=
  alts [two_digits 1 1 0 2 s; two_digits 0 0 1 9 s; digit_in 1 9 s].

(** The directive [%d]: [3[0-1]|[1-2]\d|0[1-9]|[1-9]| [1-9]]. *)
Definition day_alts (s : string) : list (Z * string) :=
  alts [two_digits 3 3 0 1 s; two_digits 1 2 0 9 s; two_digits 0 0 1 9 s;
        digit_in 1 9 s;
        match s with
        | String " "%char r => digit_in 1 9 r
        | _ => None
        end].

(** The directive [%Y]: four digits. *)
Definition year_digits (s : string) : option (Z * string) :=
  match two_digits 0 9 0 9 s with
  | Some (hi, r) =>
      match two_digits 0 9 0 9 r with
      | Some (lo, r') => Some (100 * hi + lo, r')
      | None => None
      end
  | None => None
  end.

(** The rest of the pattern after [%m]: a dash, then [%d]. *)
Definition dash_day (s : string) : option (Z * string) :=
  match s with
  | String "-"%char r => head (day_alts r)
  | _ => None
  end.

(** The first alternative of [%m] after which the rest of the pattern
    matches, as the backtracking matcher finds it. *)
Fixpoint first_month (l : list (Z * string)) : option (Z * Z * string) :=
  match l with
  | [] => None
  | (m, r) :: l' =>
      match dash_day r with
      | Some (d, r') => Some (m, d, r')
      | None => first_month l'
      end
  end.

(** [datetime.strptime(s, '%Y-%m-%d')]. *)
Definition strptime_ymd (s : string) : result Date.datetime :=
  let no_match :=
    Raise (ValueError ("time data " ++ Str.repr s
                       ++ " does not match format '%Y-%m-%d'")) in
  match year_digits s with
  | Some (y, String "-"%char r) =>
      match first_month (month_alts r) with
      | Some (m, d, EmptyString) => Date.make y m d
      | Some (_, _, rest) => Raise (ValueError ("unconverted data remains: " ++ rest))
      | None => no_match
      end
  | _ => no_match
  end.

Definition invalid_date_message (date_str : string) : string :=
  "Invalid date format '" ++ date_str ++ "'. " ++
  "Use YYYY-MM-DD (e.g., 2026-01-20) or relative format " ++
  "(e.g., +2d, +3w, +2m, +1y, or today)".

(** [now] is what [datetime.now()] gives, cut to midnight. *)
Definition parse_date_argument (now : Date.datetime) (date_str : string)
    (reference_date : option Date.datetime) : result Date.datetime :=
  let reference_date := default now reference_date in
  let date_str := Str.lower (Str.strip date_str) in
  if String.eqb date_str "today" then Ok reference_date
  else
    match relative_match date_str with
    | Some (g1, g2) =>
        let* amount := Str.py_int g1 in
        let unit := default "d"%char g2 in
        if Ascii.eqb unit "d" then
          let* delta := Date.timedelta_days amount in
          Date.add_days reference_date delta
        else if Ascii.eqb unit "w" then
          let* delta := Date.timedelta_weeks amount in
          Date.add_days reference_date delta
        else if Ascii.eqb unit "m" then
          Date.add_relativedelta reference_date 0 amount
        else
          Date.add_relativedelta reference_date amount 0
    | None =>
        match strptime_ymd date_str with
        | Ok d => Ok d
        | Raise (ValueError _) => Raise (ValueError (invalid_date_message date_str))
        | Raise e => Raise e
        end
    end.

(** ** Configuration

    The mapping loaded from YAML, with a field for every key the script
    reads.  An optional key is an [option]; [dummy] defaults to [False]. *)

Record day_window : Type := {
  w_start : option string;
  w_end : option string;
  w_dummy : bool
}.

Definition empty_window : day_window :=
  {| w_start := None; w_end := None; w_dummy := false |}.

Record layer_config : Type := {
  name : option string;
  rotation_team : list string;
  dummy : bool;
  time_windows : option (gmap string day_window);
  time_window : option day_window;
  days : list string
}.

Record schedule_config : Type := {
  sc_name : option string;
  sc_description : option string;
  sc_start_date : option string;
  sc_duration_months : option Z;
  layers : list (string * layer_config)
}.

(** ** The date range: [calculate_date_range] *)

Definition calculate_date_range (now : Date.datetime) (cfg : schedule_config)
    (start_date_override end_date_override : option Date.datetime)
  : result (Date.datetime * Date.datetime) :=
  let* start_date :=
    match start_date_override with
    | Some d => Ok d
    | None =>
        match sc_start_date cfg with
        | Some (String c s) => strptime_ymd (String c s)
        | _ => Ok now
        end
    end in
  let* end_date :=
    match end_date_override with
    | Some d => Ok d
    | None => Date.add_relativedelta start_date 0 (default 3 (sc_duration_months cfg))
    end in
  Ok (start_date, end_date).

(** ** Dates of a layer: [generate_dates_for_layer] *)

Definition day_map : gmap string Z :=
  list_to_map [("monday", 0); ("tuesday", 1); ("wednesday", 2); ("thursday", 3);
               ("friday", 4); ("saturday", 5); ("sunday", 6)].

(** One key of the comprehension below: recorded under its weekday number
    when its lower-cased form is a weekday name. *)
Definition active_step (m : gmap Z string) (day : string) : gmap Z string :=
  match day_map !! Str.lower day with
  | Some i => <[i := Str.lower day]> m
  | None => m
  end.

(** [{day_map[day.lower()]: day.lower() for day in keys if day.lower() in day_map}] *)
Definition active_of_keys (keys : list string) : gmap Z string :=
  foldl active_step ∅ keys.

Definition active_weekdays (layer : layer_config) : gmap Z string :=
  match time_windows layer with
  | Some tw => active_of_keys (map_to_list tw).*1
  | None => active_of_keys (days layer)
  end.

(** The [while current_date < end_date] loop; [fuel] bounds the number of
    iterations. *)
Fixpoint dates_loop (fuel : nat) (active : gmap Z string)
    (current_date end_date : Date.datetime) : list (Date.datetime * string) :=
  match fuel with
  | O => []
  | S fuel' =>
      if current_date <? end_date then
        let rest := dates_loop fuel' active (current_date + 1) end_date in
        match active !! Date.weekday current_date with
        | Some day_name => (current_date, day_name) :: rest
        | None => rest
        end
      else []
  end.

Definition generate_dates_for_layer (layer : layer_config)
    (start_date end_date : Date.datetime) : list (Date.datetime * string) :=
  dates_loop (Z.to_nat (end_date - start_date)) (active_weekdays layer)
    start_date end_date.

(** ** Rotation, aggregation and colours: [generate_oncall_calendar] *)

(** The tuple [(date, layer_name, time_window, person, layer_idx)]. *)
Record shift : Type := {
  sh_date : Date.datetime;
  sh_layer_name : string;
  sh_time_window : string;
  sh_person : string;
  sh_layer_idx : nat
}.

(** [a % b] on non-negative integers. *)
Definition py_mod (a b : nat) : result nat :=
  match b with
  | O => Raise (ZeroDivisionError "integer modulo by zero")
  | S _ => Ok (a mod b)%nat
  end.

(** [l[i]] for a non-negative index. *)
Definition py_index {A : Type} (l : list A) (i : nat) : result A :=
  match l !! i with
  | Some x => Ok x
  | None => Raise (IndexError "list index out of range")
  end.

(** [f"{start_time} - {end_time}"] *)
Definition window_text (start_time end_time : string) : string :=
  start_time ++ " - " ++ end_time.

(** The times and the dummy flag the loop body reads for [day_name]. *)
Definition day_times (tws : gmap string day_window) (old_time_window : day_window)
    (day_name : string) : string * string * bool :=
  match tws !! day_name with
  | Some day_window =>
      (default "N/A" (w_start day_window), default "N/A" (w_end day_window),
       w_dummy day_window)
  | None =>
      (default "N/A" (w_start old_time_window), default "N/A" (w_end old_time_window),
       false)
  end.

(** The loop [for date_idx, (shift_date, day_name) in enumerate(dates)],
    with its counter and the list it appends to. *)
Fixpoint assign_loop (layer_name : string) (rotation_team : list string)
    (is_dummy_layer : bool) (tws : gmap string day_window)
    (old_time_window : day_window) (layer_idx : nat)
    (date_idx : nat) (dates : list (Date.datetime * string))
    (layer_shifts : list shift) : result (list shift) :=
  match dates with
  | [] => Ok layer_shifts
  | (shift_date, day_name) :: dates' =>
      let* k := py_mod date_idx (length rotation_team) in
      let* person := py_index rotation_team k in
      let '(start_time, end_time, is_dummy_day) :=
        day_times tws old_time_window day_name in
      let layer_shifts :=
        if negb is_dummy_layer && negb is_dummy_day then
          (layer_shifts ++
             [ {| sh_date := shift_date; sh_layer_name := layer_name;
                  sh_time_window := window_text start_time end_time;
                  sh_person := person; sh_layer_idx := layer_idx |} ])%list
        else layer_shifts in
      assign_loop layer_name rotation_team is_dummy_layer tws old_time_window
        layer_idx (S date_idx) dates' layer_shifts
  end.

(** One iteration of [for layer_idx, (layer_id, layer_config) in ...]. *)
Definition process_layer (start_date end_date : Date.datetime) (layer_idx : nat)
    (layer_id : string) (layer : layer_config) (layer_shifts : list shift)
  : result (list shift) :=
  let layer_name := default layer_id (name layer) in
  let rotation_team := rotation_team layer in
  let is_dummy_layer := dummy layer in
  match rotation_team with
  | [] => Ok layer_shifts
  | _ =>
      let tws := default ∅ (time_windows layer) in
      let old_time_window := default empty_window (time_window layer) in
      let dates := generate_dates_for_layer layer start_date end_date in
      assign_loop layer_name rotation_team is_dummy_layer tws old_time_window
        layer_idx 0 dates layer_shifts
  end.

Fixpoint layers_loop (start_date end_date : Date.datetime) (layer_idx : nat)
    (layers_config : list (string * layer_config)) (layer_shifts : list shift)
  : result (list shift) :=
  match layers_config with
  | [] => Ok layer_shifts
  | (layer_id, layer) :: rest =>
      let* layer_shifts :=
        process_layer start_date end_date layer_idx layer_id layer layer_shifts in
      layers_loop start_date end_date (S layer_idx) rest layer_shifts
  end.

(** [list.sort(key=...)] is a stable sort that compares keys with [<] only.
    The stable insertion below yields the same list as any stable sort
    whenever [lt] is a strict weak order. *)
Section StableSort.
Context {A K : Type} (key : A -> K) (lt : K -> K -> bool).

Fixpoint insert_stable (x : A) (l : list A) : list A :=
  match l with
  | [] => [x]
  | y :: l' =>
      if lt (key y) (key x) then y :: insert_stable x l' else x :: y :: l'
  end.

Definition list_sort (l : list A) : list A := foldr insert_stable [] l.
End StableSort.

(** The key [(x[0], x[2])] and the order of such tuples. *)
Definition shift_key (x : shift) : Date.datetime * string :=
  (sh_date x, sh_time_window x).

Definition key_lt (a b : Date.datetime * string) : bool :=
  if a.1 =? b.1 then Str.ltb a.2 b.2 else a.1 <? b.1.

Definition sort_shifts (layer_shifts : list shift) : list shift :=
  list_sort shift_key key_lt layer_shifts.

Definition colors : list string :=
  ["E8F5E9"; "E3F2FD"; "FFF3E0"; "FCE4EC"; "F3E5F5";
   "E0F2F1"; "FFF9C4"; "FFE0B2"; "F8BBD0"; "D1C4E9";
   "C8E6C9"; "BBDEFB"; "FFE0B2"; "F8BBD0"; "E1BEE7"].

(** The part of the row loop that fills [person_colors]. *)
Fixpoint color_loop (layer_shifts : list shift) (person_colors : gmap string string)
    (color_idx : nat) : result (gmap string string * nat) :=
  match layer_shifts with
  | [] => Ok (person_colors, color_idx)
  | sh :: rest =>
      match person_colors !! sh_person sh with
      | Some _ => color_loop rest person_colors color_idx
      | None =>
          let* k := py_mod color_idx (length colors) in
          let* c := py_index colors k in
          color_loop rest (<[sh_person sh := c]> person_colors) (S color_idx)
      end
  end.

Record calendar : Type := {
  cal_shifts : list shift;
  cal_person_colors : gmap string string;
  cal_start_date : Date.datetime;
  cal_end_date : Date.datetime;
  cal_schedule_name : string
}.

(** The schedule computed by [generate_oncall_calendar] from a loaded
    configuration: what it returns.  The workbook it writes on the way
    holds one row per shift of [cal_shifts]. *)
Definition generate_oncall_calendar (now : Date.datetime) (cfg : schedule_config)
    (start_date_override end_date_override : option Date.datetime) : result calendar :=
  let schedule_name := default "On-Call Schedule" (sc_name cfg) in
  let* (start_date, end_date) :=
    calculate_date_range now cfg start_date_override end_date_override in
  match layers cfg with
  | [] => Raise (ValueError "No layers defined in configuration file")
  | layers_config =>
      let* layer_shifts := layers_loop start_date end_date 0 layers_config [] in
      let layer_shifts := sort_shifts layer_shifts in
      let* (person_colors, _) := color_loop layer_shifts ∅ 0 in
      Ok {| cal_shifts := layer_shifts; cal_person_colors := person_colors;
            cal_start_date := start_date; cal_end_date := end_date;
            cal_schedule_name := schedule_name |}
  end.

(** ** A small schedule, run through the pipeline *)

Definition window (s e : string) : day_window :=
  {| w_start := Some s; w_end := Some e; w_dummy := false |}.

Definition layer_A : layer_config :=
  {| name := Some "Layer A"; rotation_team := ["Alice"; "Bob"]; dummy := false;
     time_windows := Some {[ "monday" := window "08:00" "10:30" ]};
     time_window := None; days := [] |}.

Definition layer_B : layer_config :=
  {| name := Some "Layer B"; rotation_team := ["Carol"]; dummy := false;
     time_windows := Some {[ "tuesday" := window "08:00" "10:30" ]};
     time_window := None; days := [] |}.

Definition two_layers : schedule_config :=
  {| sc_name := None; sc_description := None;
     sc_start_date := Some "2026-01-05"; sc_duration_months := None;
     layers := [("a", layer_A); ("b", layer_B)] |}.

Definition layer_nobody : layer_config :=
  {| name := Some "Layer A"; rotation_team := []; dummy := false;
     time_windows := Some {[ "monday" := window "08:00" "10:30" ]};
     time_window := None; days := [] |}.



(** ** Axis bounds of the timeline: [generate_visual_schedule]

    Times become binary64 floats, as in Python. *)

Module Flt.

(** [float(n)] for an integer: rounded to nearest even; too large an
    integer raises. *)
Definition of_int (n : Z) : result float :=
  let f := SF2Prim (binary_normalize prec emax n 0 false) in
  if PrimFloat.is_infinity f
  then Raise (OverflowError "int too large to convert to float")
  else Ok f.

(** [int(x)] for a float: truncation towards zero. *)
Definition to_int (x : float) : result Z :=
  match Prim2SF x with
  | S754_zero _ => Ok 0
  | S754_finite s m e =>
      let a := if 0 <=? e then Z.pos m * 2 ^ e else Z.pos m / 2 ^ (- e) in
      Ok (if s then - a else a)
  | S754_infinity _ => Raise (OverflowError "cannot convert float infinity to integer")
  | S754_nan => Raise (ValueError "cannot convert float NaN to integer")
  end.

(** [min(l)] and [max(l)]: the first smallest and the first largest. *)
Definition py_min (l : list float) : result float :=
  match l with
  | [] => Raise (ValueError "min() arg is an empty sequence")
  | x :: r => Ok (foldl (fun cur item => if PrimFloat.ltb item cur then item else cur) x r)
  end.

Definition py_max (l : list float) : result float :=
  match l with
  | [] => Raise (ValueError "max() arg is an empty sequence")
  | x :: r => Ok (foldl (fun cur item => if PrimFloat.ltb cur item then item else cur) x r)
  end.

End Flt.

(** [hours + minutes / 60.0] *)
Definition hour_value (hours minutes : Z) : result float :=
  let* fm := Flt.of_int minutes in
  let q := PrimFloat.div fm 60%float in
  let* fh := Flt.of_int hours in
  Ok (PrimFloat.add fh q).

(** [hours, minutes = map(int, time_str.split(':'))], then the value. *)
Definition time_to_y (time_str : string) : result float :=
  match Str.split ":" time_str with
  | [] => Raise (ValueError "not enough values to unpack (expected 2, got 0)")
  | [a] =>
      let* _ := Str.py_int a in
      Raise (ValueError "not enough values to unpack (expected 2, got 1)")
  | [a; b] =>
      let* hours := Str.py_int a in
      let* minutes := Str.py_int b in
      hour_value hours minutes
  | a :: b :: c :: _ =>
      let* _ := Str.py_int a in
      let* _ := Str.py_int b in
      let* _ := Str.py_int c in
      Raise (ValueError "too many values to unpack (expected 2)")
  end.

(** The dictionary stored for a shift in [shifts_by_date]. *)
Record vshift : Type := {
  v_layer : string;
  v_start : string;
  v_end : string;
  v_person : string;
  v_date : Date.datetime
}.

(** The loop that groups the shifts by [date_key]. *)
Fixpoint group_loop (viz_shifts : list shift)
    (shifts_by_date : gmap string (list vshift)) : result (gmap string (list vshift)) :=
  match viz_shifts with
  | [] => Ok shifts_by_date
  | sh :: rest =>
      let date_key := Date.strftime_ymd (sh_date sh) in
      let bucket := default [] (shifts_by_date !! date_key) in
      match Str.split " - " (sh_time_window sh) with
      | [start_time; end_time] =>
          let v := {| v_layer := sh_layer_name sh; v_start := start_time;
                      v_end := end_time; v_person := sh_person sh;
                      v_date := sh_date sh |} in
          group_loop rest (<[date_key := (bucket ++ [v])%list]> shifts_by_date)
      | [] => Raise (ValueError "not enough values to unpack (expected 2, got 0)")
      | [_] => Raise (ValueError "not enough values to unpack (expected 2, got 1)")
      | _ => Raise (ValueError "too many values to unpack (expected 2)")
      end
  end.

Fixpoint times_of_shifts (shifts : list vshift) (all_times : list float)
  : result (list float) :=
  match shifts with
  | [] => Ok all_times
  | v :: rest =>
      let* a := time_to_y (v_start v) in
      let* b := time_to_y (v_end v) in
      times_of_shifts rest (all_times ++ [a; b])%list
  end.

Fixpoint times_of_dates (shifts_by_date : gmap string (list vshift))
    (dates : list string) (all_times : list float) : result (list float) :=
  match dates with
  | [] => Ok all_times
  | date_str :: rest =>
      match shifts_by_date !! date_str with
      | Some shifts =>
          let* all_times := times_of_shifts shifts all_times in
          times_of_dates shifts_by_date rest all_times
      | None => Raise (KeyError date_str)
      end
  end.

(** [sorted(shifts_by_date.keys())] *)
Definition sorted_keys (shifts_by_date : gmap string (list vshift)) : list string :=
  list_sort id Str.ltb (map_to_list shifts_by_date).*1.

(** [generate_visual_schedule] up to [min_time] and [max_time]: [None] when
    there is nothing to draw, else the two bounds of the time axis. *)
Definition axis_bounds (layer_shifts : list shift) (end_date : Date.datetime)
  : result (option (Z * Z)) :=
  let viz_end_date := end_date in
  let viz_shifts := List.filter (fun sh => sh_date sh <? viz_end_date) layer_shifts in
  match viz_shifts with
  | [] => Ok None
  | _ =>
      let* shifts_by_date := group_loop viz_shifts ∅ in
      let dates := sorted_keys shifts_by_date in
      let* all_times := times_of_dates shifts_by_date dates [] in
      let* lo := Flt.py_min all_times in
      let* min_time := Flt.to_int lo in
      let* hi := Flt.py_max all_times in
      let* max_time := Flt.to_int hi in
      Ok (Some (min_time, max_time + 1))
  end.

Definition one_shift (tw : string) : shift :=
  {| sh_date := Date.ymd2ord 2026 1 5; sh_layer_name := "Layer A";
     sh_time_window := tw; sh_person := "Alice"; sh_layer_idx := 0 |}.

(** ** Reference notions used to state the properties *)

(** The layer with every dummy flag cleared: the layer flag and the flag of
    each of its windows. *)
Definition clear_window (w : day_window) : day_window :=
  {| w_start := w_start w; w_end := w_end w; w_dummy := false |}.

Definition clear_dummies (layer : layer_config) : layer_config :=
  {| name := name layer; rotation_team := rotation_team layer; dummy := false;
     time_windows :=
       (fun tws : gmap string day_window => clear_window <$> tws) <$> time_windows layer;
     time_window := time_window layer; days := days layer |}.

(** The dummy flag the loop body reads for the entry of [day_name]. *)
Definition is_dummy_day (layer : layer_config) (day_name : string) : bool :=
  (day_times (default ∅ (time_windows layer))
     (default empty_window (time_window layer)) day_name).2.

(** The shift appended for the entry [e] met with the counter at [i], if
    one is appended. *)
Definition entry_shift (layer_name : string) (rotation_team : list string)
    (is_dummy_layer : bool) (tws : gmap string day_window)
    (old_time_window : day_window) (layer_idx : nat)
    (i : nat) (e : Date.datetime * string) : option shift :=
  match rotation_team !! (i mod length rotation_team)%nat with
  | Some person =>
      let '(start_time, end_time, is_dummy_day) :=
        day_times tws old_time_window e.2 in
      if negb is_dummy_layer && negb is_dummy_day then
        Some {| sh_date := e.1; sh_layer_name := layer_name;
                sh_time_window := window_text start_time end_time;
                sh_person := person; sh_layer_idx := layer_idx |}
      else None
  | None => None
  end.

Fixpoint entries_from (layer_name : string) (rotation_team : list string)
    (is_dummy_layer : bool) (tws : gmap string day_window)
    (old_time_window : day_window) (layer_idx : nat)
    (i : nat) (dates : list (Date.datetime * string)) : list shift :=
  match dates with
  | [] => []
  | e :: dates' =>
      option_list (entry_shift layer_name rotation_team is_dummy_layer tws
                     old_time_window layer_idx i e)
      ++ entries_from layer_name rotation_team is_dummy_layer tws
           old_time_window layer_idx (S i) dates'
  end%list.

(** The layer with its [time_windows] mapping replaced. *)
Definition set_time_windows (layer : layer_config) (tws : gmap string day_window)
  : layer_config :=
  {| name := name layer; rotation_team := rotation_team layer; dummy := dummy layer;
     time_windows := Some tws; time_window := time_window layer; days := days layer |}.

(** Ascending order of sort keys: by date, then by time-window string. *)
Definition key_le (a b : Date.datetime * string) : Prop :=
  a.1 < b.1 \/ (a.1 = b.1 /\ Str.ltb b.2 a.2 = false).

(** What one layer appends, starting from an empty list. *)
Definition layer_out (start_date end_date : Date.datetime) (layer_idx : nat)
    (il : string * layer_config) : list shift :=
  match process_layer start_date end_date layer_idx il.1 il.2 [] with
  | Ok out => out
  | Raise _ => []
  end.

(** [time_parts[0] if len(time_parts) > 0 else 'N/A'], the start time shown
    for a shift. *)
Definition shift_start (sh : shift) : string :=
  match Str.split " - " (sh_time_window sh) with
  | start_time :: _ => start_time
  | [] => "N/A"
  end.

(** [time_parts[1] if len(time_parts) > 1 else 'N/A'], the end time shown
    for a shift. *)
Definition shift_end (sh : shift) : string :=
  match Str.split " - " (sh_time_window sh) with
  | _ :: end_time :: _ => end_time
  | _ => "N/A"
  end.

Definition layer_long : layer_config :=
  {| name := Some "Long"; rotation_team := ["Alice"]; dummy := false;
     time_windows := Some {[ "monday" := window "08:00" "12:00" ]};
     time_window := None; days := [] |}.

Definition layer_short : layer_config :=
  {| name := Some "Short"; rotation_team := ["Bob"]; dummy := false;
     time_windows := Some {[ "monday" := window "08:00" "10:00" ]};
     time_window := None; days := [] |}.

Definition same_start : schedule_config :=
  {| sc_name := None; sc_description := None;
     sc_start_date := Some "2026-01-05"; sc_duration_months := None;
     layers := [("long", layer_long); ("short", layer_short)] |}.

(** The state of the colour loop after the persons [seen], in order, have
    been met: a colour for each of them and for nobody else, the counter
    equal to the number of distinct persons, and the person first met at
    position [j] coloured by the number of distinct persons met before. *)
Definition colored (seen : list string) (person_colors : gmap string string)
    (color_idx : nat) : Prop :=
  color_idx = size (list_to_set seen : gset string)
  /\ (forall p, is_Some (person_colors !! p) <-> p ∈ seen)
  /\ (forall j p, seen !! j = Some p -> p ∉ take j seen ->
        person_colors !! p
        = colors !! (size (list_to_set (take j seen) : gset string) mod length colors)%nat).

(** Every character of [s] satisfies [p]. *)
Fixpoint all_chars (p : ascii -> bool) (s : string) : bool :=
  match s with
  | EmptyString => true
  | String c s' => p c && all_chars p s'
  end.


(** The last character of [s] is white space. *)
Fixpoint ends_space (s : string) : bool :=
  match s with
  | EmptyString => false
  | String c EmptyString => Str.isspace c
  | String _ s' => ends_space s'
  end.

(** The second group of the match for a unit suffix. *)
Definition unit_of (u : string) : option ascii :=
  match u with
  | String c EmptyString => Some c
  | _ => None
  end.

(** ** What a run tells its caller

    Besides its result a Python call can print lines and issue warnings
    (the [warnings] module).  The script prints; it never warns. *)

Inductive event : Type :=
| Printed (line : string)
| Warned (category message : string).

(** The summary printed by [generate_oncall_calendar] before it returns. *)
Definition summary (output_file : string) (cfg : schedule_config) (c : calendar)
  : list event :=
  let days_covered := cal_end_date c - cal_start_date c in
  [ Printed ("✓ PagerDuty-style on-call schedule generated: " ++ output_file);
    Printed ("  - Schedule: " ++ cal_schedule_name c);
    Printed ("  - Period: " ++ Date.strftime_ymd (cal_start_date c) ++ " to "
               ++ Date.strftime_ymd (cal_end_date c)
               ++ " (" ++ Str.of_int days_covered ++ " days)");
    Printed ("  - Total layers: " ++ Str.of_int (Z.of_nat (length (layers cfg))));
    Printed ("  - Total team members: "
               ++ Str.of_int (Z.of_nat (size (cal_person_colors c))));
    Printed ("  - Total shifts: " ++ Str.of_int (Z.of_nat (length (cal_shifts c)))) ].

(** [generate_oncall_calendar] with what it prints: nothing is printed
    before an exception leaves it. *)
Definition run_oncall_calendar (output_file : string) (now : Date.datetime)
    (cfg : schedule_config)
    (start_date_override end_date_override : option Date.datetime)
  : list event * result calendar :=
  match generate_oncall_calendar now cfg start_date_override end_date_override with
  | Ok c => (summary output_file cfg c, Ok c)
  | Raise e => ([], Raise e)
  end.

Definition is_warning (ev : event) : bool :=
  match ev with
  | Warned _ _ => true
  | Printed _ => false
  end.

(** ** Clock times *)

(** The text [HH:MM]. *)
Definition clock (h m : Z) : string := Str.zfill 2 h ++ ":" ++ Str.zfill 2 m.

(** The float the script computes for the time [n] minutes after
    midnight. *)
Definition hour_float (n : Z) : float :=
  match hour_value (n / 60) (n mod 60) with
  | Ok f => f
  | Raise _ => PrimFloat.nan
  end.

Definition hour_table : list float :=
  map (fun n => hour_float (Z.of_nat n)) (seq 0 1440).

(** Every element is below all the later ones, for the comparison of
    floats. *)
Fixpoint increasing (l : list float) : bool :=
  match l with
  | [] => true
  | x :: r =>
      negb (PrimFloat.ltb x x)
      && forallb (fun y => PrimFloat.ltb x y && negb (PrimFloat.ltb y x)) r
      && increasing r
  end.

(** The float of minute [n] is computed without error and truncates to the
    hour [n / 60]. *)
Definition hour_ok (n : Z) : bool :=
  match hour_value (n / 60) (n mod 60) with
  | Ok f =>
      match Flt.to_int f with
      | Ok h => h =? n / 60
      | Raise _ => false
      end
  | Raise _ => false
  end.

(** The character [c] does not occur in [s]. *)
Definition free_of (c : ascii) (s : string) : bool :=
  all_chars (fun x => negb (Ascii.eqb x c)) s.

(** The two-digit text of [v] reads back as [v] and holds neither a colon
    nor a space. *)
Definition two_digit_ok (v : Z) : bool :=
  match Str.py_int (Str.zfill 2 v) with
  | Ok z => z =? v
  | Raise _ => false
  end
  && free_of ":" (Str.zfill 2 v) && free_of " " (Str.zfill 2 v).

(** A clock time of the day. *)
Definition valid_clock (t : Z * Z) : Prop := 0 <= t.1 < 24 /\ 0 <= t.2 < 60.

(** Minutes after midnight. *)
Definition minutes (t : Z * Z) : Z := 60 * t.1 + t.2.

(** A time of the day in minutes. *)
Definition day_minute (n : Z) : Prop := 0 <= n < 1440.

(** The start and end of [v] are read as the minutes [n1] and [n2]. *)
Definition vtimes (v : vshift) (n1 n2 : Z) : Prop :=
  time_to_y (v_start v) = Ok (hour_float n1)
  /\ time_to_y (v_end v) = Ok (hour_float n2)
  /\ day_minute n1 /\ day_minute n2.

(** The start and end minutes of clock-time windows, in order. *)
Definition window_minutes (ws : list ((Z * Z) * (Z * Z))) : list Z :=
  flat_map (fun w => [minutes w.1; minutes w.2]) ws.

(** The shift [sh] has the clock-time window [w]. *)
Definition clocked (sh : shift) (w : (Z * Z) * (Z * Z)) : Prop :=
  sh_time_window sh = window_text (clock w.1.1 w.1.2) (clock w.2.1 w.2.2)
  /\ valid_clock w.1 /\ valid_clock w.2.

(** The groups of [m] hold shifts whose times are read as minutes of [T],
    and every minute of [T] is the start or end of a grouped shift. *)
Definition grouped (m : gmap string (list vshift)) (T : list Z) : Prop :=
  (forall k vs v, m !! k = Some vs -> v ∈ vs ->
     exists n1 n2, vtimes v n1 n2 /\ n1 ∈ T /\ n2 ∈ T)
  /\ (forall t, t ∈ T ->
        exists k vs v n1 n2,
          m !! k = Some vs /\ v ∈ vs /\ vtimes v n1 n2 /\ (t = n1 \/ t = n2)).

(** Whole hours below and above a time given in minutes: the floor and the
    ceiling of its hour value. *)
Definition floor_hour (n : Z) : Z := n / 60.
Definition ceil_hour (n : Z) : Z := (n + 59) / 60.

(** ** Further notions for the properties of the pipeline *)

(** No dummy flag is set anywhere in the layer. *)
Definition no_dummy (layer : layer_config) : Prop :=
  dummy layer = false /\ forall day_name, is_dummy_day layer day_name = false.

Definition layer_whole_dummy : layer_config :=
  {| name := Some "Layer A"; rotation_team := ["Alice"; "Bob"]; dummy := true;
     time_windows := Some {[ "monday" := window "08:00" "10:30" ]};
     time_window := None; days := [] |}.

(** ** The rows of the workbook: the row loop of [generate_oncall_calendar] *)

(** [strftime('%A')] in the C locale. *)
Definition weekday_name (d : Date.datetime) : string :=
  nth (Z.to_nat (Date.weekday d))
    ["Monday"; "Tuesday"; "Wednesday"; "Thursday"; "Friday"; "Saturday"; "Sunday"] "".

(** The double quote character, as a string. *)
Definition dq : string := String (ascii_of_nat 34) EmptyString.

(** [f'=(D{row_num}-C{row_num})*24'] *)
Definition hours_formula (row_num : Z) : string :=
  "=(D" ++ Str.of_int row_num ++ "-C" ++ Str.of_int row_num ++ ")*24".

(** The formula of the seventh column: on call when [NOW()] lies between
    the start and the end of the row. *)
Definition oncall_formula (row_num : Z) : string :=
  "=IF(AND(NOW()>=A" ++ Str.of_int row_num ++ "+C" ++ Str.of_int row_num
  ++ ",NOW()<=A" ++ Str.of_int row_num ++ "+D" ++ Str.of_int row_num ++ "),"
  ++ dq ++ "On-Call" ++ dq ++ "," ++ dq ++ dq ++ ")".

(** The cells written for one shift, with the row they go to and the fill
    colour. *)
Record sheet_row : Type := {
  r_row : Z;
  r_date : Date.datetime;
  r_day : string;
  r_start : string;
  r_end : string;
  r_hours : string;
  r_person : string;
  r_status : string;
  r_fill : string
}.

(** The loop [for shift_date, layer_name, time_window, person, layer_idx in
    layer_shifts], with the variables it updates: the next row, the date of
    the previous shift, the colours given so far and their counter. *)
Fixpoint rows_loop (layer_shifts : list shift) (row : Z)
    (current_date : option Date.datetime) (person_colors : gmap string string)
    (color_idx : nat) (rows : list sheet_row)
  : result (list sheet_row * Z * gmap string string * nat) :=
  match layer_shifts with
  | [] => Ok (rows, row, person_colors, color_idx)
  | sh :: rest =>
      let row :=
        match current_date with
        | Some cd => if bool_decide (cd <> sh_date sh) then row + 1 else row
        | None => row
        end in
      let current_date := Some (sh_date sh) in
      let* (person_colors, color_idx) :=
        match person_colors !! sh_person sh with
        | Some _ => Ok (person_colors, color_idx)
        | None =>
            let* k := py_mod color_idx (length colors) in
            let* c := py_index colors k in
            Ok (<[sh_person sh := c]> person_colors, S color_idx)
        end in
      let* color :=
        match person_colors !! sh_person sh with
        | Some c => Ok c
        | None => Raise (KeyError (sh_person sh))
        end in
      let r := {| r_row := row; r_date := sh_date sh;
                  r_day := weekday_name (sh_date sh);
                  r_start := shift_start sh; r_end := shift_end sh;
                  r_hours := hours_formula row; r_person := sh_person sh;
                  r_status := oncall_formula row; r_fill := color |} in
      rows_loop rest (row + 1) current_date person_colors color_idx (rows ++ [r])%list
  end.

(** The data rows start at row 7, below the four title rows, a blank row
    and the column headers. *)
Definition start_data_row : Z := 7.

Definition sheet_rows (layer_shifts : list shift)
  : result (list sheet_row * Z * gmap string string * nat) :=
  rows_loop layer_shifts start_data_row None ∅ 0 [].


(** ** The dates of the command line: the first part of [main] *)

Record cli_args : Type := {
  arg_config : string;
  arg_start_date : option string;
  arg_end_date : option string;
  arg_generate_ics : bool
}.

(** How a part of [main] ends: [main] goes on with a value, it returns an
    exit code, or an exception leaves it. *)
Inductive stage (A : Type) : Type :=
| Goes (a : A)
| Returns (code : Z)
| Escapes (e : exn).
Arguments Goes {A} a.
Arguments Returns {A} code.
Arguments Escapes {A} e.

(** [if args.start_date:] is false for an option that is absent and for
    the empty string. *)
Definition truthy (o : option string) : option string :=
  match o with
  | Some (String c s) => Some (String c s)
  | _ => None
  end.

(** One [try] block of [main]: only [ValueError] is caught. *)
Definition resolve_option (now : Date.datetime) (label text : string)
    (reference : option Date.datetime) : list event * stage Date.datetime :=
  match parse_date_argument now text reference with
  | Ok d =>
      ([Printed ("  " ++ label ++ ": " ++ Date.strftime_ymd d ++ " (" ++ text ++ ")")],
       Goes d)
  | Raise (ValueError msg) => ([Printed ("Error: " ++ msg)], Returns 1)
  | Raise e => ([], Escapes e)
  end.

(** The two overrides [main] passes on, with what it prints on the way. *)
Definition main_dates (now : Date.datetime) (args : cli_args)
  : list event * stage (option Date.datetime * option Date.datetime) :=
  let '(out1, s1) :=
    match truthy (arg_start_date args) with
    | Some text =>
        match resolve_option now "Start date" text None with
        | (out, Goes d) => (out, Goes (Some d))
        | (out, Returns code) => (out, Returns code)
        | (out, Escapes e) => (out, Escapes e)
        end
    | None => ([], Goes None)
    end in
  match s1 with
  | Goes start_date =>
      match truthy (arg_end_date args) with
      | Some text =>
          let reference := default now start_date in
          match resolve_option now "End date" text (Some reference) with
          | (out2, Goes d) => ((out1 ++ out2)%list, Goes (start_date, Some d))
          | (out2, Returns code) => ((out1 ++ out2)%list, Returns code)
          | (out2, Escapes e) => ((out1 ++ out2)%list, Escapes e)
          end
      | None => (out1, Goes (start_date, None))
      end
  | Returns code => (out1, Returns code)
  | Escapes e => (out1, Escapes e)
  end.

(** ** The groups of the timeline: [generate_visual_schedule] *)

(** The key under which a shift is grouped. *)
Definition date_key (sh : shift) : string := Date.strftime_ymd (sh_date sh).

(** The dictionary stored for a shift whose window splits in two. *)
Definition vshift_of (sh : shift) : vshift :=
  {| v_layer := sh_layer_name sh; v_start := shift_start sh; v_end := shift_end sh;
     v_person := sh_person sh; v_date := sh_date sh |}.

(** The window of [sh] splits in exactly two parts at [" - "]. *)
Definition two_parts (sh : shift) : Prop :=
  exists a b, Str.split " - " (sh_time_window sh) = [a; b].

(** A layer whose only window has no times. *)
Definition layer_no_times : layer_config :=
  {| name := Some "Layer A"; rotation_team := ["Alice"; "Bob"]; dummy := false;
     time_windows :=
       Some {[ "monday" := {| w_start := None; w_end := None; w_dummy := false |} ]};
     time_window := None; days := [] |}.

Definition config_no_times : schedule_config :=
  {| sc_name := None; sc_description := None;
     sc_start_date := Some "2026-01-05"; sc_duration_months := None;
     layers := [("a", layer_no_times)] |}.
(** * Properties *)

(** ** Evaluations of the model on concrete inputs *)

Example split_window : Str.split " - " "08:00 - 10:30" = ["08:00"; "10:30"].
Proof. reflexivity. Qed.

Example split_trailing : Str.split " - " "08:00 - " = ["08:00"; ""].
Proof. reflexivity. Qed.

Example py_int_08 : Str.py_int "08" = Ok 8.
Proof. reflexivity. Qed.

Example py_int_NA :
  Str.py_int "N/A" = Raise (ValueError "invalid literal for int() with base 10: 'N/A'").
Proof. reflexivity. Qed.

Example ymd2ord_2026_01_05 : Date.ymd2ord 2026 1 5 = 739621.
Proof. reflexivity. Qed.

Example ord2ymd_739621 : Date.ord2ymd 739621 = (2026, 1, 5).
Proof. reflexivity. Qed.

Example weekday_2026_01_05 : Date.weekday (Date.ymd2ord 2026 1 5) = 0.
Proof. reflexivity. Qed.

Example maxordinal_is_9999_12_31 : Date.ymd2ord 9999 12 31 = Date.MAXORDINAL.
Proof. reflexivity. Qed.

Example strftime_2026_01_05 : Date.strftime_ymd 739621 = "2026-01-05".
Proof. reflexivity. Qed.

Example jan31_plus_one_month :
  Date.add_relativedelta (Date.ymd2ord 2026 1 31) 0 1 = Ok (Date.ymd2ord 2026 2 28).
Proof. reflexivity. Qed.

Example nov_plus_fourteen_months :
  Date.add_relativedelta (Date.ymd2ord 2026 11 30) 0 14 = Ok (Date.ymd2ord 2028 1 30).
Proof. reflexivity. Qed.

Example march_minus_three_months :
  Date.add_relativedelta (Date.ymd2ord 2026 3 31) 0 (-3) = Ok (Date.ymd2ord 2025 12 31).
Proof. reflexivity. Qed.

Example parse_today : parse_date_argument 739621 " Today " None = Ok 739621.
Proof. reflexivity. Qed.

Example parse_plus_2w :
  parse_date_argument 1 "+2W" (Some (Date.ymd2ord 2026 1 1)) = Ok (Date.ymd2ord 2026 1 15).
Proof. reflexivity. Qed.

Example parse_absolute : parse_date_argument 1 "2026-01-20" None = Ok (Date.ymd2ord 2026 1 20).
Proof. reflexivity. Qed.

Example parse_absolute_short : parse_date_argument 1 "2026-1-5" None = Ok (Date.ymd2ord 2026 1 5).
Proof. reflexivity. Qed.

Example parse_feb_30 :
  parse_date_argument 1 "2026-02-30" None = Raise (ValueError (invalid_date_message "2026-02-30")).
Proof. reflexivity. Qed.

Example parse_bad_unit :
  parse_date_argument 1 "+3x" None = Raise (ValueError (invalid_date_message "+3x")).
Proof. reflexivity. Qed.

Example two_layers_shifts :
  cal_shifts <$>
    (match generate_oncall_calendar 1 two_layers None (Some (Date.ymd2ord 2026 1 7)) with
     | Ok c => Some c
     | Raise _ => None
     end)
  = Some [ {| sh_date := Date.ymd2ord 2026 1 5; sh_layer_name := "Layer A";
              sh_time_window := "08:00 - 10:30"; sh_person := "Alice";
              sh_layer_idx := 0 |};
           {| sh_date := Date.ymd2ord 2026 1 6; sh_layer_name := "Layer B";
              sh_time_window := "08:00 - 10:30"; sh_person := "Carol";
              sh_layer_idx := 1 |} ].
Proof. vm_compute. reflexivity. Qed.

Example bounds_half_hours :
  axis_bounds [one_shift "08:30 - 17:45"] (Date.ymd2ord 2026 1 7) = Ok (Some (8, 18)).
Proof. vm_compute. reflexivity. Qed.

Example bounds_whole_hours :
  axis_bounds [one_shift "08:00 - 18:00"] (Date.ymd2ord 2026 1 7) = Ok (Some (8, 19)).
Proof. vm_compute. reflexivity. Qed.

Example bounds_not_available :
  axis_bounds [one_shift "N/A - 18:00"] (Date.ymd2ord 2026 1 7)
  = Raise (ValueError "invalid literal for int() with base 10: 'N/A'").
Proof. vm_compute. reflexivity. Qed.

(** ** The result monad *)

Lemma rbind_ok {A B : Type} (r : result A) (k : A -> result B) (b : B) :
  rbind r k = Ok b -> exists a, r = Ok a /\ k a = Ok b.
Proof. destruct r as [a|e]; simpl; [eauto | discriminate]. Qed.

(** ** Strings *)

Lemma string_app_cons (c : ascii) (s r : string) : String c s ++ r = String c (s ++ r).
Proof. reflexivity. Qed.

Lemma string_app_nil_l (s : string) : "" ++ s = s.
Proof. reflexivity. Qed.

Ltac str_simpl := rewrite ?string_app_cons, ?string_app_nil_l; simpl.

Lemma string_app_nil_r (s : string) : s ++ "" = s.
Proof. induction s as [|c s IH]; str_simpl; [done | by rewrite IH]. Qed.

Lemma string_app_assoc (a b c : string) : (a ++ b) ++ c = a ++ (b ++ c).
Proof. induction a as [|x a IH]; str_simpl; [done | by rewrite IH]. Qed.

Lemma prefix_app (s r : string) : String.prefix s (s ++ r) = true.
Proof.
  induction s as [|c s IH]; str_simpl; [by destruct r |].
  destruct (ascii_dec c c); [done | congruence].
Qed.





Lemma span_digits (ds rest : string) :
  all_chars Str.isdigit ds = true ->
  match rest with
  | String c _ => Str.isdigit c = false
  | EmptyString => True
  end ->
  Str.span Str.isdigit (ds ++ rest) = (ds, rest).
Proof.
  intros Hd Hr. induction ds as [|c ds IH]; str_simpl; simpl in Hd.
  - destruct rest as [|c r]; simpl; [done | by rewrite Hr].
  - apply andb_true_iff in Hd as [Hc Hd]. rewrite Hc, (IH Hd). done.
Qed.






(** ** Splitting *)

Lemma all_chars_app (p : ascii -> bool) (a b : string) :
  all_chars p (a ++ b) = all_chars p a && all_chars p b.
Proof.
  induction a as [|c a IH]; rewrite ?string_app_cons, ?string_app_nil_l; simpl;
    [done |].
  by rewrite IH, andb_assoc.
Qed.

Lemma split_go_free (c : ascii) (sep' y : string) :
  free_of c y = true ->
  forall cur, Str.split_go (String c sep') y 0 cur = [cur ++ y].
Proof.
  induction y as [|x y IH]; intros Hy cur; simpl in *.
  - by rewrite string_app_nil_r.
  - apply andb_true_iff in Hy as [Hx Hy]. apply negb_true_iff in Hx.
    destruct (ascii_dec c x) as [-> | _]; [by rewrite Ascii.eqb_refl in Hx |].
    rewrite (IH Hy), string_app_assoc. done.
Qed.

Lemma split_go_skip (sep a y cur : string) :
  Str.split_go sep (a ++ y) (String.length a) cur = Str.split_go sep y 0 cur.
Proof.
  induction a as [|x a IH]; rewrite ?string_app_cons, ?string_app_nil_l; simpl;
    [by destruct y | done].
Qed.

Lemma split_go_found (c : ascii) (sep' x y : string) :
  free_of c x = true ->
  forall cur,
    Str.split_go (String c sep') (x ++ String c sep' ++ y) 0 cur
    = (cur ++ x) :: Str.split_go (String c sep') y 0 "".
Proof.
  induction x as [|c0 x IH]; intros Hx cur;
    rewrite ?string_app_cons, ?string_app_nil_l.
  - cbn [Str.split_go]. rewrite <- (string_app_cons c sep' y), prefix_app.
    replace (String.length (String c sep') - 1)%nat with (String.length sep')
      by (simpl; lia).
    by rewrite split_go_skip, string_app_nil_r.
  - simpl in Hx. apply andb_true_iff in Hx as [Hc Hx]. apply negb_true_iff in Hc.
    cbn [Str.split_go String.prefix].
    destruct (ascii_dec c c0) as [-> | _]; [by rewrite Ascii.eqb_refl in Hc |].
    rewrite (IH Hx), string_app_assoc. done.
Qed.

Lemma split_free (c : ascii) (sep' x y : string) :
  free_of c x = true -> free_of c y = true ->
  Str.split (String c sep') (x ++ String c sep' ++ y) = [x; y].
Proof.
  intros Hx Hy. unfold Str.split.
  by rewrite split_go_found, split_go_free.
Qed.

(** ** Rotation *)

Lemma py_mod_pos (a b : nat) : b <> 0%nat -> py_mod a b = Ok (a mod b)%nat.
Proof. destruct b; [congruence | reflexivity]. Qed.

Lemma team_lookup_mod (team : list string) (i : nat) :
  team <> [] -> exists p, team !! (i mod length team)%nat = Some p.
Proof.
  intros Hne. apply lookup_lt_is_Some_2.
  apply Nat.mod_upper_bound. destruct team; simpl; [congruence | lia].
Qed.

Section AssignLoop.
Variables (layer_name : string) (team : list string) (dl : bool)
  (tws : gmap string day_window) (old : day_window) (layer_idx : nat).
Hypothesis team_nonempty : team <> [].

Lemma assign_loop_entries (dates : list (Date.datetime * string)) :
  forall (i : nat) (acc : list shift),
    assign_loop layer_name team dl tws old layer_idx i dates acc
    = Ok (acc ++ entries_from layer_name team dl tws old layer_idx i dates)%list.
Proof.
  induction dates as [|[d day] dates IH]; intros i acc; simpl.
  - by rewrite app_nil_r.
  - rewrite py_mod_pos by (destruct team; simpl; [congruence | lia]). simpl.
    destruct (team_lookup_mod team i team_nonempty) as [p Hp].
    unfold py_index, entry_shift. rewrite Hp. simpl.
    destruct (day_times tws old day) as [[st en] dd].
    rewrite IH. destruct (negb dl && negb dd); simpl.
    + by rewrite <- app_assoc.
    + done.
Qed.

Lemma elem_of_entries_from (dates : list (Date.datetime * string)) (s : shift) :
  forall i : nat,
    s ∈ entries_from layer_name team dl tws old layer_idx i dates <->
    exists j e, dates !! j = Some e /\
      entry_shift layer_name team dl tws old layer_idx (i + j) e = Some s.
Proof.
  induction dates as [|e0 dates IH]; intros i; simpl.
  - split; [intros H; by apply elem_of_nil in H | intros (j & e & H & _); done].
  - rewrite elem_of_app, IH. split.
    + intros [H | (j & e & Hj & He)].
      * exists 0%nat, e0. rewrite Nat.add_0_r. split; [done |].
        destruct (entry_shift _ _ _ _ _ _ i e0); simpl in H;
          [apply list_elem_of_singleton in H; by subst | by apply elem_of_nil in H].
      * exists (S j), e. split; [done |]. by rewrite Nat.add_succ_r.
    + intros (j & e & Hj & He). destruct j as [|j]; simpl in Hj.
      * left. injection Hj as ->. rewrite Nat.add_0_r in He. rewrite He.
        simpl. apply list_elem_of_singleton. done.
      * right. exists j, e. split; [done |]. by rewrite Nat.add_succ_r in He.
Qed.
End AssignLoop.

(** ** Enumerated dates *)

Lemma dates_loop_seqZ (fuel : nat) (active : gmap Z string) :
  forall current_date end_date : Z,
    (Z.to_nat (end_date - current_date) <= fuel)%nat ->
    dates_loop fuel active current_date end_date
    = omap (fun d => (fun n => (d, n)) <$> active !! Date.weekday d)
        (seqZ current_date (end_date - current_date)).
Proof.
  induction fuel as [|fuel IH]; intros cur e Hf; simpl.
  - rewrite seqZ_nil by lia. done.
  - destruct (Z.ltb_spec cur e) as [Hlt | Hge].
    + rewrite seqZ_cons by lia. simpl.
      rewrite IH by lia.
      replace (Z.pred (e - cur)) with (e - (cur + 1)) by lia.
      replace (Z.succ cur) with (cur + 1) by lia.
      destruct (active !! Date.weekday cur); done.
    + rewrite seqZ_nil by lia. done.
Qed.

Lemma generate_dates_seqZ (layer : layer_config) (start_date end_date : Z) :
  generate_dates_for_layer layer start_date end_date
  = omap (fun d => (fun n => (d, n)) <$> active_weekdays layer !! Date.weekday d)
      (seqZ start_date (end_date - start_date)).
Proof. unfold generate_dates_for_layer. by apply dates_loop_seqZ. Qed.

Lemma generate_dates_empty_range (layer : layer_config) (start_date end_date : Z) :
  end_date <= start_date -> generate_dates_for_layer layer start_date end_date = [].
Proof. intros H. rewrite generate_dates_seqZ, seqZ_nil by lia. done. Qed.

Lemma elem_of_generate_dates (layer : layer_config) (start_date end_date d : Z)
    (n : string) :
  (d, n) ∈ generate_dates_for_layer layer start_date end_date <->
  start_date <= d < end_date /\ active_weekdays layer !! Date.weekday d = Some n.
Proof.
  rewrite generate_dates_seqZ, list_elem_of_omap. split.
  - intros (x & Hx & Hm). apply elem_of_seqZ in Hx.
    destruct (active_weekdays layer !! Date.weekday x) eqn:E; simpl in Hm; [|done].
    injection Hm as -> ->. split; [lia | done].
  - intros [Hr Ha]. exists d. split; [apply elem_of_seqZ; lia |].
    rewrite Ha. done.
Qed.

(** The dates come out in strictly increasing order. *)
Lemma dates_loop_increasing (fuel : nat) (active : gmap Z string) :
  forall current_date end_date : Z,
    StronglySorted (fun a b : Date.datetime * string => a.1 < b.1)
      (dates_loop fuel active current_date end_date)
    /\ Forall (fun a : Date.datetime * string => current_date <= a.1)
         (dates_loop fuel active current_date end_date).
Proof.
  induction fuel as [|fuel IH]; intros cur e; simpl.
  - split; constructor.
  - destruct (cur <? e); [| split; constructor].
    destruct (IH (cur + 1) e) as [Hs Hl].
    assert (Hl' : Forall (fun a : Date.datetime * string => cur + 1 <= a.1)
                    (dates_loop fuel active (cur + 1) e)) by done.
    destruct (active !! Date.weekday cur).
    + split.
      * constructor; [done |]. eapply Forall_impl; [exact Hl' |]. simpl. lia.
      * constructor; [simpl; lia |]. eapply Forall_impl; [exact Hl' |]. simpl. lia.
    + split; [done |]. eapply Forall_impl; [exact Hl' |]. simpl. lia.
Qed.

Lemma generate_dates_increasing (layer : layer_config) (start_date end_date : Z) :
  StronglySorted (fun a b : Date.datetime * string => a.1 < b.1)
    (generate_dates_for_layer layer start_date end_date).
Proof. apply dates_loop_increasing. Qed.

(** A date sits at one position only. *)
Lemma sorted_dates_position (l : list (Date.datetime * string)) :
  StronglySorted (fun a b : Date.datetime * string => a.1 < b.1) l ->
  forall i j a b, l !! i = Some a -> l !! j = Some b -> a.1 = b.1 -> i = j.
Proof.
  induction 1 as [|x l Hs IH Hx]; intros i j a b Hi Hj Hab.
  - done.
  - rewrite Forall_forall in Hx.
    destruct i as [|i], j as [|j]; simpl in *.
    + done.
    + injection Hi as <-. apply list_elem_of_lookup_2, Hx in Hj. lia.
    + injection Hj as <-. apply list_elem_of_lookup_2, Hx in Hi. lia.
    + f_equal. eauto.
Qed.

(** ** Active weekdays *)

Lemma day_map_lookup (n : string) (i : Z) :
  day_map !! n = Some i <->
  (n, i) ∈ [("monday", 0); ("tuesday", 1); ("wednesday", 2); ("thursday", 3);
            ("friday", 4); ("saturday", 5); ("sunday", 6)].
Proof.
  unfold day_map. rewrite <- elem_of_list_to_map; [done |].
  apply (bool_decide_unpack _). vm_compute. done.
Qed.

Lemma day_map_inj (n n' : string) (i : Z) :
  day_map !! n = Some i -> day_map !! n' = Some i -> n = n'.
Proof.
  rewrite !day_map_lookup. intros H H'.
  repeat (apply elem_of_cons in H as [H | H]; [injection H as -> -> |]);
    try (by apply elem_of_nil in H);
    repeat (apply elem_of_cons in H' as [H' | H']; [by simplify_eq |]);
    by apply elem_of_nil in H'.
Qed.

Lemma day_map_range (n : string) (i : Z) : day_map !! n = Some i -> 0 <= i < 7.
Proof.
  rewrite day_map_lookup. intros H.
  repeat (apply elem_of_cons in H as [H | H]; [injection H as -> ->; lia |]).
  by apply elem_of_nil in H.
Qed.

Lemma active_fold_lookup (keys : list string) :
  forall (acc : gmap Z string) (i : Z) (n : string),
    (forall i n, acc !! i = Some n -> day_map !! n = Some i) ->
    foldl active_step acc keys !! i = Some n <->
    acc !! i = Some n \/ (n ∈ Str.lower <$> keys /\ day_map !! n = Some i).
Proof.
  induction keys as [|day keys IH]; intros acc i n Hacc; simpl.
  - split; [by left | intros [H | [H _]]; [done | by apply elem_of_nil in H]].
  - assert (Hinv : forall i n, active_step acc day !! i = Some n -> day_map !! n = Some i).
    { intros i' n'. unfold active_step.
      destruct (day_map !! Str.lower day) as [i0|] eqn:E; [| apply Hacc].
      rewrite lookup_insert. case_decide as Hd; [| apply Hacc].
      intros [= <-]. by subst. }
    rewrite (IH _ i n Hinv). rewrite elem_of_cons. unfold active_step.
    destruct (day_map !! Str.lower day) as [i0|] eqn:E.
    + rewrite lookup_insert. case_decide as Hd.
      * subst i0. split.
        -- intros [[= <-] | [H1 H2]]; [right; split; [by left | done] |].
           right. split; [by right | done].
        -- intros [H | [[-> | H1] H2]].
           ++ left. f_equal. eapply day_map_inj; [exact E | by apply Hacc].
           ++ by left.
           ++ right. done.
      * split.
        -- intros [H | [H1 H2]]; [by left | right; split; [by right | done]].
        -- intros [H | [[-> | H1] H2]]; [by left | congruence | right; done].
    + split.
      * intros [H | [H1 H2]]; [by left | right; split; [by right | done]].
      * intros [H | [[-> | H1] H2]]; [by left | congruence | right; done].
Qed.

Lemma active_of_keys_lookup (keys : list string) (i : Z) (n : string) :
  active_of_keys keys !! i = Some n <->
  n ∈ Str.lower <$> keys /\ day_map !! n = Some i.
Proof.
  unfold active_of_keys.
  rewrite active_fold_lookup by (intros ? ?; rewrite lookup_empty; done).
  rewrite lookup_empty. split; [intros [H | H]; [done | exact H] | by right].
Qed.

(** Two lists of keys with the same lower-cased weekday names give the same
    map. *)
Lemma active_of_keys_ext (keys keys' : list string) :
  (forall n i, day_map !! n = Some i ->
     n ∈ Str.lower <$> keys <-> n ∈ Str.lower <$> keys') ->
  active_of_keys keys = active_of_keys keys'.
Proof.
  intros H. apply map_eq. intros i. apply option_eq. intros n.
  rewrite !active_of_keys_lookup. split; intros [H1 H2]; split; try done;
    by apply (H n i H2).
Qed.

Lemma elem_of_map_keys (tw : gmap string day_window) (k : string) :
  k ∈ (map_to_list tw).*1 <-> is_Some (tw !! k).
Proof.
  rewrite list_elem_of_fmap. split.
  - intros ([k' w] & -> & H). apply elem_of_map_to_list in H. eauto.
  - intros [w H]. exists (k, w). split; [done | by apply elem_of_map_to_list].
Qed.

Lemma active_weekdays_lookup (layer : layer_config) (i : Z) (n : string) :
  active_weekdays layer !! i = Some n <->
  day_map !! n = Some i /\
  exists key, Str.lower key = n /\
    match time_windows layer with
    | Some tw => is_Some (tw !! key)
    | None => key ∈ days layer
    end.
Proof.
  unfold active_weekdays. destruct (time_windows layer) as [tw|];
    rewrite active_of_keys_lookup, list_elem_of_fmap.
  - split.
    + intros [(k & -> & Hk) Hd]. split; [done |]. exists k. split; [done |].
      by apply elem_of_map_keys.
    + intros [Hd (k & <- & Hk)]. split; [| done]. exists k. split; [done |].
      by apply elem_of_map_keys.
  - split.
    + intros [(k & -> & Hk) Hd]. eauto.
    + intros [Hd (k & <- & Hk)]. eauto.
Qed.

(** ** Dummy flags and the rotation *)

Lemma active_weekdays_clear (layer : layer_config) :
  active_weekdays (clear_dummies layer) = active_weekdays layer.
Proof.
  unfold active_weekdays, clear_dummies. simpl.
  destruct (time_windows layer) as [tw|]; simpl; [| done].
  apply active_of_keys_ext. intros n i _.
  rewrite !list_elem_of_fmap.
  split; intros (k & -> & Hk); exists k; (split; [done |]);
    apply elem_of_map_keys; apply elem_of_map_keys in Hk;
    rewrite ?lookup_fmap, ?fmap_is_Some in *; done.
Qed.

Lemma generate_dates_clear (layer : layer_config) (start_date end_date : Z) :
  generate_dates_for_layer (clear_dummies layer) start_date end_date
  = generate_dates_for_layer layer start_date end_date.
Proof. unfold generate_dates_for_layer. by rewrite active_weekdays_clear. Qed.

Lemma time_windows_clear (layer : layer_config) :
  default ∅ (time_windows (clear_dummies layer))
  = clear_window <$> default ∅ (time_windows layer).
Proof. simpl. destruct (time_windows layer); simpl; [done | by rewrite fmap_empty]. Qed.

Lemma day_times_clear (tws : gmap string day_window) (old : day_window) (day : string) :
  day_times (clear_window <$> tws) old day
  = ((day_times tws old day).1, false).
Proof.
  unfold day_times. rewrite lookup_fmap. by destruct (tws !! day).
Qed.

Section Entries.
Variables (layer_name : string) (team : list string) (dl : bool)
  (tws : gmap string day_window) (old : day_window) (layer_idx : nat).
Hypothesis team_nonempty : team <> [].

(** With the flags cleared every entry yields a shift; with the flags as
    they are, the same shift or none. *)
Lemma entry_shift_clear (i : nat) (e : Date.datetime * string) :
  exists s,
    entry_shift layer_name team false (clear_window <$> tws) old layer_idx i e = Some s
    /\ sh_date s = e.1
    /\ team !! (i mod length team)%nat = Some (sh_person s)
    /\ sh_time_window s
       = window_text (day_times tws old e.2).1.1 (day_times tws old e.2).1.2
    /\ entry_shift layer_name team dl tws old layer_idx i e
       = if negb dl && negb (day_times tws old e.2).2 then Some s else None.
Proof.
  destruct (team_lookup_mod team i team_nonempty) as [p Hp].
  unfold entry_shift. rewrite Hp, day_times_clear.
  destruct (day_times tws old e.2) as [[st en] dd] eqn:E. simpl.
  eexists. split; [reflexivity |]. simpl. split_and!; reflexivity.
Qed.

Lemma entries_clear_lookup (dates : list (Date.datetime * string)) :
  forall (i j : nat) (e : Date.datetime * string),
    dates !! j = Some e ->
    entries_from layer_name team false (clear_window <$> tws) old layer_idx i dates !! j
    = entry_shift layer_name team false (clear_window <$> tws) old layer_idx (i + j) e.
Proof.
  induction dates as [|e0 dates IH]; intros i j e Hj; [done |]. simpl.
  destruct (entry_shift_clear i e0) as (s0 & Hs0 & _). rewrite Hs0. simpl.
  destruct j as [|j]; simpl in *.
  - injection Hj as <-. by rewrite Nat.add_0_r, Hs0.
  - rewrite Nat.add_succ_r. by apply IH.
Qed.

Lemma entries_clear_length (dates : list (Date.datetime * string)) :
  forall i : nat,
    length (entries_from layer_name team false (clear_window <$> tws) old
              layer_idx i dates) = length dates.
Proof.
  induction dates as [|e0 dates IH]; intros i; [done |]. simpl.
  destruct (entry_shift_clear i e0) as (s0 & -> & _). simpl. by rewrite IH.
Qed.

Lemma entries_sublist_clear (dates : list (Date.datetime * string)) :
  forall i : nat,
    entries_from layer_name team dl tws old layer_idx i dates
    `sublist_of`
    entries_from layer_name team false (clear_window <$> tws) old layer_idx i dates.
Proof.
  induction dates as [|e0 dates IH]; intros i; [done |]. simpl.
  destruct (entry_shift_clear i e0) as (s0 & -> & _ & _ & _ & ->).
  destruct (negb dl && negb _); simpl.
  - by apply sublist_skip.
  - by apply sublist_cons.
Qed.
End Entries.

Lemma process_layer_no_team (start_date end_date : Z) (layer_idx : nat)
    (layer_id : string) (layer : layer_config) (acc : list shift) :
  rotation_team layer = [] ->
  process_layer start_date end_date layer_idx layer_id layer acc = Ok acc.
Proof. intros H. unfold process_layer. by rewrite H. Qed.

Lemma process_layer_entries (start_date end_date : Z) (layer_idx : nat)
    (layer_id : string) (layer : layer_config) (acc : list shift) :
  rotation_team layer <> [] ->
  process_layer start_date end_date layer_idx layer_id layer acc
  = Ok (acc ++ entries_from (default layer_id (name layer)) (rotation_team layer)
                 (dummy layer) (default ∅ (time_windows layer))
                 (default empty_window (time_window layer)) layer_idx 0
                 (generate_dates_for_layer layer start_date end_date))%list.
Proof.
  intros Hne. unfold process_layer.
  destruct (rotation_team layer) as [|p team] eqn:E; [done |].
  by apply assign_loop_entries.
Qed.

(** C1. For a layer with a non-empty team: with every dummy flag cleared the
    layer yields one shift per enumerated date, the shift at position [i]
    being on the [i]-th date with person [team[i mod len(team)]]; with the
    flags as configured it yields a sublist of those same shifts, namely the
    ones whose layer and day are not dummy.  So the counter runs over every
    enumerated date and dropping a dummy date changes nobody's assignment. *)
Theorem rotation_by_position (start_date end_date : Z) (layer_idx : nat)
    (layer_id : string) (layer : layer_config) (acc : list shift) :
  rotation_team layer <> [] ->
  let dates := generate_dates_for_layer layer start_date end_date in
  let team := rotation_team layer in
  exists out full : list shift,
    process_layer start_date end_date layer_idx layer_id layer acc
      = Ok (acc ++ out)%list
    /\ process_layer start_date end_date layer_idx layer_id (clear_dummies layer) acc
      = Ok (acc ++ full)%list
    /\ length full = length dates
    /\ (forall i e, dates !! i = Some e ->
          exists s, full !! i = Some s /\ sh_date s = e.1 /\
            team !! (i mod length team)%nat = Some (sh_person s))
    /\ out `sublist_of` full
    /\ (forall i e s, dates !! i = Some e -> full !! i = Some s ->
          s ∈ out <-> dummy layer = false /\ is_dummy_day layer e.2 = false)
    /\ (forall s, s ∈ out ->
          exists i e, dates !! i = Some e /\ sh_date s = e.1 /\
            team !! (i mod length team)%nat = Some (sh_person s)).
Proof.
  intros Hne dates team.
  set (nm := default layer_id (name layer)).
  set (tws := default ∅ (time_windows layer)).
  set (old := default empty_window (time_window layer)).
  exists (entries_from nm team (dummy layer) tws old layer_idx 0 dates),
    (entries_from nm team false (clear_window <$> tws) old layer_idx 0 dates).
  assert (Hfull : forall i e, dates !! i = Some e ->
            exists s,
              entries_from nm team false (clear_window <$> tws) old layer_idx 0 dates !! i
                = Some s
              /\ sh_date s = e.1
              /\ team !! (i mod length team)%nat = Some (sh_person s)
              /\ entry_shift nm team (dummy layer) tws old layer_idx i e
                 = if negb (dummy layer) && negb (day_times tws old e.2).2
                   then Some s else None).
  { intros i e Hi.
    destruct (entry_shift_clear nm team (dummy layer) tws old layer_idx Hne i e)
      as (s & Hs & Hd & Hp & _ & Hdl).
    exists s. rewrite (entries_clear_lookup nm team (dummy layer) tws old layer_idx Hne dates 0 i e Hi).
    done. }
  assert (Hout : forall s,
            s ∈ entries_from nm team (dummy layer) tws old layer_idx 0 dates ->
            exists i e, dates !! i = Some e /\
              entries_from nm team false (clear_window <$> tws) old layer_idx 0 dates !! i
                = Some s
              /\ dummy layer = false /\ (day_times tws old e.2).2 = false).
  { intros s Hs. apply elem_of_entries_from in Hs as (j & e & Hj & He).
    simpl in He. destruct (Hfull j e Hj) as (s' & Hs' & _ & _ & Hdl).
    rewrite Hdl in He. exists j, e.
    destruct (dummy layer), ((day_times tws old e.2).2); simpl in He; try done.
    injection He as <-. done. }
  split_and!.
  - by apply process_layer_entries.
  - rewrite process_layer_entries by done.
    rewrite generate_dates_clear, time_windows_clear. done.
  - by apply (entries_clear_length nm team (dummy layer)).
  - intros i e Hi. destruct (Hfull i e Hi) as (s & ? & ? & ? & _). eauto.
  - by apply entries_sublist_clear.
  - intros i e s Hi Hs. split.
    + intros Hin. destruct (Hout s Hin) as (j & e' & Hj & Hs' & Hd1 & Hd2).
      destruct (Hfull i e Hi) as (s1 & Hs1 & Hdate1 & _).
      destruct (Hfull j e' Hj) as (s2 & Hs2 & Hdate2 & _).
      assert (i = j) as <-.
      { eapply (sorted_dates_position dates); [apply generate_dates_increasing | done..|].
        rewrite <- Hdate1, <- Hdate2. congruence. }
      assert (e' = e) as -> by congruence. done.
    + intros [Hd1 Hd2]. apply elem_of_entries_from.
      exists i, e. split; [done |]. simpl.
      destruct (Hfull i e Hi) as (s1 & Hs1 & _ & _ & Hdl).
      rewrite Hdl. unfold is_dummy_day in Hd2. fold tws old in Hd2.
      rewrite Hd1, Hd2. simpl. congruence.
  - intros s Hin. destruct (Hout s Hin) as (j & e & Hj & Hs & _).
    destruct (Hfull j e Hj) as (s1 & Hs1 & ? & ? & _).
    exists j, e. assert (s1 = s) as <- by congruence. done.
Qed.

Lemma rotation_by_position_witness :
  rotation_team layer_A <> [] /\
  exists out : list shift,
    process_layer (Date.ymd2ord 2026 1 5) (Date.ymd2ord 2026 1 20) 0 "a" layer_A []
    = Ok out /\
    forall s, s ∈ out ->
      exists i e,
        generate_dates_for_layer layer_A (Date.ymd2ord 2026 1 5) (Date.ymd2ord 2026 1 20)
          !! i = Some e /\
        sh_date s = e.1 /\
        rotation_team layer_A !! (i mod length (rotation_team layer_A))%nat
          = Some (sh_person s).
Proof.
  assert (H : rotation_team layer_A <> []) by discriminate.
  split; [exact H |].
  destruct (rotation_by_position (Date.ymd2ord 2026 1 5) (Date.ymd2ord 2026 1 20)
              0 "a" layer_A [] H) as (out & full & H1 & _ & _ & _ & _ & _ & H7).
  exists out. split; [exact H1 | exact H7].
Defined.

(** C4. A layer whose rotation team is empty leaves the list of shifts as
    it was, for every date range, and returns normally: the modulo by the
    team size is never reached, and the loop over the layers goes on with
    the next layer. *)
Theorem empty_team_no_shifts (start_date end_date : Z) (layer_idx : nat)
    (layer_id : string) (layer : layer_config) (acc : list shift) :
  rotation_team layer = [] ->
  process_layer start_date end_date layer_idx layer_id layer acc = Ok acc
  /\ forall rest,
       layers_loop start_date end_date layer_idx ((layer_id, layer) :: rest) acc
       = layers_loop start_date end_date (S layer_idx) rest acc.
Proof.
  intros H.
  assert (Hp : process_layer start_date end_date layer_idx layer_id layer acc = Ok acc).
  { unfold process_layer. by rewrite H. }
  split; [exact Hp |].
  intros rest. cbn [layers_loop]. by rewrite Hp.
Qed.

Lemma empty_team_no_shifts_witness :
  rotation_team layer_nobody = [] /\
  process_layer (Date.ymd2ord 2026 1 5) (Date.ymd2ord 2026 1 20) 0 "a" layer_nobody []
  = Ok [].
Proof.
  split; [reflexivity |].
  apply (empty_team_no_shifts (Date.ymd2ord 2026 1 5) (Date.ymd2ord 2026 1 20)
           0 "a" layer_nobody [] eq_refl).
Defined.

(** Without the guard the first entry would divide by zero. *)
Example unguarded_loop_raises :
  assign_loop "Layer A" [] false ∅ empty_window 0 0 [(Date.ymd2ord 2026 1 5, "monday")] []
  = Raise (ZeroDivisionError "integer modulo by zero").
Proof. reflexivity. Qed.




(** ** Unrecognised weekday keys *)

Lemma day_map_lower (n : string) (i : Z) : day_map !! n = Some i -> Str.lower n = n.
Proof.
  rewrite day_map_lookup. intros H.
  repeat (apply elem_of_cons in H as [H | H]; [by simplify_eq |]).
  by apply elem_of_nil in H.
Qed.

Lemma entries_from_ext (layer_name : string) (team : list string) (dl : bool)
    (tws tws' : gmap string day_window) (old : day_window) (layer_idx : nat)
    (dates : list (Date.datetime * string)) :
  (forall e, e ∈ dates -> tws !! e.2 = tws' !! e.2) ->
  forall i : nat,
    entries_from layer_name team dl tws old layer_idx i dates
    = entries_from layer_name team dl tws' old layer_idx i dates.
Proof.
  induction dates as [|e0 dates IH]; intros H i; [done |]. simpl.
  rewrite IH by (intros e He; apply H; by right).
  unfold entry_shift, day_times. rewrite (H e0) by by left. done.
Qed.

(** C9. A key of [time_windows] whose lower-cased form is not one of the
    seven weekday names changes nothing: the layer enumerates the same
    dates and appends the same shifts with or without it, no error is
    raised, and every enumerated pair carries the weekday name of its date,
    a name that comes from a recognised key. *)
Theorem unknown_weekday_key_ignored (start_date end_date : Z) (layer_idx : nat)
    (layer_id : string) (layer : layer_config) (acc : list shift)
    (tws : gmap string day_window) (k : string) (w : day_window) :
  time_windows layer = Some tws ->
  day_map !! Str.lower k = None ->
  let layer' := set_time_windows layer (<[k := w]> tws) in
  generate_dates_for_layer layer' start_date end_date
    = generate_dates_for_layer layer start_date end_date
  /\ process_layer start_date end_date layer_idx layer_id layer' acc
    = process_layer start_date end_date layer_idx layer_id layer acc
  /\ (exists out, process_layer start_date end_date layer_idx layer_id layer' acc
                  = Ok (acc ++ out)%list)
  /\ (forall d n,
        (d, n) ∈ generate_dates_for_layer layer' start_date end_date <->
        start_date <= d < end_date /\ day_map !! n = Some (Date.weekday d) /\
        exists key, key <> k /\ Str.lower key = n /\ is_Some (tws !! key)).
Proof.
  intros Htw Hk layer'.
  assert (Hact : active_weekdays layer' = active_weekdays layer).
  { unfold active_weekdays, layer'. simpl. rewrite Htw.
    apply active_of_keys_ext. intros n i Hn. rewrite !list_elem_of_fmap.
    split; intros (key & -> & Hkey); exists key; (split; [done |]);
      apply elem_of_map_keys; apply elem_of_map_keys in Hkey.
    - rewrite lookup_insert_ne in Hkey; [done |]. intros <-. congruence.
    - rewrite lookup_insert_ne; [done |]. intros <-. congruence. }
  assert (Hdates : generate_dates_for_layer layer' start_date end_date
                   = generate_dates_for_layer layer start_date end_date).
  { unfold generate_dates_for_layer. by rewrite Hact. }
  assert (Hproc : process_layer start_date end_date layer_idx layer_id layer' acc
                  = process_layer start_date end_date layer_idx layer_id layer acc).
  { destruct (rotation_team layer) as [|p team] eqn:Hteam.
    - rewrite !process_layer_no_team; done.
    - rewrite !process_layer_entries by (simpl; congruence).
      rewrite Hdates. simpl. rewrite Htw. simpl. f_equal. f_equal.
      apply entries_from_ext. intros [d n] He. simpl.
      apply elem_of_generate_dates in He as [_ He].
      apply active_weekdays_lookup in He as [Hn _].
      rewrite lookup_insert_ne; [done |]. intros <-.
      rewrite (day_map_lower _ _ Hn) in Hk. congruence. }
  split_and!; [done | done | |].
  - rewrite Hproc. destruct (rotation_team layer) as [|p team] eqn:Hteam.
    + exists []. rewrite process_layer_no_team by done. by rewrite app_nil_r.
    + eexists. apply process_layer_entries. congruence.
  - intros d n. rewrite Hdates, elem_of_generate_dates, active_weekdays_lookup, Htw.
    split.
    + intros (Hr & Hn & key & Hkey & Hs). split; [lia |]. split; [done |].
      exists key. split_and!; try done. intros ->. congruence.
    + intros (Hr & Hn & key & _ & Hkey & Hs). split; [lia |]. split; [done |]. eauto.
Qed.

Lemma unknown_weekday_key_ignored_witness :
  generate_dates_for_layer
    (set_time_windows layer_A
       (<["someday" := window "08:00" "10:30"]> {[ "monday" := window "08:00" "10:30" ]}))
    (Date.ymd2ord 2026 1 5) (Date.ymd2ord 2026 1 20)
  = generate_dates_for_layer layer_A (Date.ymd2ord 2026 1 5) (Date.ymd2ord 2026 1 20).
Proof.
  apply (unknown_weekday_key_ignored (Date.ymd2ord 2026 1 5) (Date.ymd2ord 2026 1 20)
           0 "a" layer_A [] {[ "monday" := window "08:00" "10:30" ]}
           "someday" (window "08:00" "10:30")).
  - reflexivity.
  - vm_compute. reflexivity.
Defined.

(** ** Order of strings and of sort keys *)

Lemma str_ltb_irrefl (s : string) : Str.ltb s s = false.
Proof.
  induction s as [|c s IH]; simpl; [done |].
  rewrite Z.ltb_irrefl. done.
Qed.

Lemma str_ltb_asym (a : string) :
  forall b, Str.ltb a b = true -> Str.ltb b a = false.
Proof.
  induction a as [|x a IH]; intros [|y b]; simpl; try done.
  destruct (Z.ltb_spec (Str.code x) (Str.code y)),
    (Z.ltb_spec (Str.code y) (Str.code x)); try done; try lia.
  apply IH.
Qed.

Lemma str_ltb_negtrans (a : string) :
  forall b c, Str.ltb b a = false -> Str.ltb c b = false -> Str.ltb c a = false.
Proof.
  induction a as [|x a IH]; intros [|y b] [|z c]; simpl; try done.
  destruct (Z.ltb_spec (Str.code y) (Str.code x)),
    (Z.ltb_spec (Str.code x) (Str.code y)),
    (Z.ltb_spec (Str.code z) (Str.code y)),
    (Z.ltb_spec (Str.code y) (Str.code z)),
    (Z.ltb_spec (Str.code z) (Str.code x)),
    (Z.ltb_spec (Str.code x) (Str.code z)); try done; try lia.
  apply IH.
Qed.

Lemma key_lt_irrefl (k : Date.datetime * string) : key_lt k k = false.
Proof. unfold key_lt. rewrite Z.eqb_refl. apply str_ltb_irrefl. Qed.

Lemma key_lt_asym (a b : Date.datetime * string) :
  key_lt a b = true -> key_lt b a = false.
Proof.
  unfold key_lt.
  destruct (Z.eqb_spec a.1 b.1), (Z.eqb_spec b.1 a.1); try lia.
  apply str_ltb_asym.
Qed.

Lemma key_lt_negtrans (a b c : Date.datetime * string) :
  key_lt b a = false -> key_lt c b = false -> key_lt c a = false.
Proof.
  unfold key_lt.
  destruct (Z.eqb_spec b.1 a.1), (Z.eqb_spec c.1 b.1), (Z.eqb_spec c.1 a.1);
    try lia; rewrite ?Z.ltb_ge; try lia.
  apply str_ltb_negtrans.
Qed.

(** ** The stable sort *)

Section StableSortProps.
Context {A K : Type} `{EqDecision K} (key : A -> K) (lt : K -> K -> bool).

Lemma insert_stable_perm (x : A) (l : list A) :
  insert_stable key lt x l ≡ₚ x :: l.
Proof.
  induction l as [|y l IH]; simpl; [done |].
  destruct (lt (key y) (key x)); [| done].
  rewrite IH. apply perm_swap.
Qed.

Lemma list_sort_perm (l : list A) : list_sort key lt l ≡ₚ l.
Proof.
  induction l as [|x l IH]; simpl; [done |].
  rewrite insert_stable_perm. by constructor.
Qed.

Hypothesis lt_irrefl : forall a, lt a a = false.

Lemma insert_stable_filter (k : K) (x : A) (l : list A) :
  filter (fun y => key y = k) (insert_stable key lt x l)
  = filter (fun y => key y = k) (x :: l).
Proof.
  induction l as [|y l IH]; simpl; [done |].
  destruct (lt (key y) (key x)) eqn:E; [| done].
  rewrite !filter_cons, IH, filter_cons.
  repeat case_decide; try done.
  replace (key y) with (key x) in E by congruence. by rewrite lt_irrefl in E.
Qed.

(** Stability: the elements of any one key come out in the order in
    which they went in. *)
Lemma list_sort_stable (k : K) (l : list A) :
  filter (fun y => key y = k) (list_sort key lt l) = filter (fun y => key y = k) l.
Proof.
  induction l as [|x l IH]; simpl; [done |].
  rewrite insert_stable_filter, !filter_cons, IH. done.
Qed.

Hypothesis lt_asym : forall a b, lt a b = true -> lt b a = false.
Hypothesis lt_negtrans :
  forall a b c, lt b a = false -> lt c b = false -> lt c a = false.

Let ordered (a b : A) : Prop := lt (key b) (key a) = false.

Lemma insert_stable_sorted (x : A) (l : list A) :
  StronglySorted ordered l -> StronglySorted ordered (insert_stable key lt x l).
Proof.
  induction 1 as [|y l Hs IH Hy]; simpl.
  - repeat constructor.
  - destruct (lt (key y) (key x)) eqn:E.
    + constructor; [done |].
      rewrite insert_stable_perm. constructor; [| done].
      by apply lt_asym.
    + constructor; [by constructor |].
      constructor; [done |].
      eapply Forall_impl; [exact Hy |]. intros z Hz. unfold ordered in *.
      by apply (lt_negtrans _ (key y)).
Qed.

Lemma list_sort_sorted (l : list A) : StronglySorted ordered (list_sort key lt l).
Proof.
  induction l as [|x l IH]; simpl; [constructor |].
  by apply insert_stable_sorted.
Qed.
End StableSortProps.

(** ** Aggregation *)

Lemma process_layer_out (start_date end_date : Z) (layer_idx : nat)
    (layer_id : string) (layer : layer_config) (acc : list shift) :
  process_layer start_date end_date layer_idx layer_id layer acc
  = Ok (acc ++ layer_out start_date end_date layer_idx (layer_id, layer))%list.
Proof.
  unfold layer_out. simpl.
  destruct (rotation_team layer) as [|p team] eqn:Hteam.
  - rewrite !process_layer_no_team by done. by rewrite app_nil_r.
  - rewrite !process_layer_entries by congruence. done.
Qed.

Lemma layers_loop_concat (start_date end_date : Z)
    (layers_config : list (string * layer_config)) :
  forall (layer_idx : nat) (acc : list shift),
    layers_loop start_date end_date layer_idx layers_config acc
    = Ok (acc ++ concat (imap (fun i il => layer_out start_date end_date (layer_idx + i) il)
                           layers_config))%list.
Proof.
  induction layers_config as [|[id layer] ls IH]; intros idx acc; simpl.
  - by rewrite app_nil_r.
  - rewrite process_layer_out. simpl. rewrite IH, <- app_assoc, Nat.add_0_r.
    do 4 f_equal. apply imap_ext. intros i il _. simpl. f_equal. lia.
Qed.

Lemma strongly_sorted_weaken {A : Type} (R R' : A -> A -> Prop) (l : list A) :
  (forall a b, R a b -> R' a b) -> StronglySorted R l -> StronglySorted R' l.
Proof.
  intros HR. induction 1 as [|x l Hs IH Hx]; constructor; [done |].
  eapply Forall_impl; [exact Hx | auto].
Qed.

Lemma key_lt_false_le (a b : Date.datetime * string) :
  key_lt b a = false <-> key_le a b.
Proof.
  unfold key_lt, key_le. destruct (Z.eqb_spec b.1 a.1) as [E | E].
  - split; [intros H; right; split; [lia | done] | intros [H | [_ H]]; [lia | done]].
  - rewrite Z.ltb_ge. split; [intros H; left; lia | intros [H | [H _]]; lia].
Qed.

(** C2, as the code has it.  The schedule is the concatenation, in
    declaration order, of what each layer yields, sorted by ascending date
    and then by ascending time-window string (the text ["start - end"], not
    the start time alone); the sort is stable, so shifts with the same date
    and the same time-window string keep their input order. *)
Theorem schedule_sorted_by_date_and_window (now : Date.datetime) (cfg : schedule_config)
    (start_date_override end_date_override : option Date.datetime) (c : calendar) :
  generate_oncall_calendar now cfg start_date_override end_date_override = Ok c ->
  exists per_layer : list (list shift),
    length per_layer = length (layers cfg)
    /\ (forall i id layer, layers cfg !! i = Some (id, layer) ->
          exists out, per_layer !! i = Some out /\
            process_layer (cal_start_date c) (cal_end_date c) i id layer [] = Ok out)
    /\ cal_shifts c ≡ₚ concat per_layer
    /\ StronglySorted (fun a b => key_le (shift_key a) (shift_key b)) (cal_shifts c)
    /\ (forall k, filter (fun s => shift_key s = k) (cal_shifts c)
                  = filter (fun s => shift_key s = k) (concat per_layer)).
Proof.
  unfold generate_oncall_calendar. intros H.
  apply rbind_ok in H as ([s e] & Hrange & H).
  destruct (layers cfg) as [|l0 ls] eqn:Hl; [done |].
  apply rbind_ok in H as (shifts & Hloop & H).
  apply rbind_ok in H as ([pc n] & Hcol & H). injection H as <-. simpl.
  rewrite layers_loop_concat in Hloop. injection Hloop as <-. simpl.
  exists (imap (fun i il => layer_out s e i il) (l0 :: ls)). split_and!.
  - by rewrite length_imap.
  - intros i id layer Hi. exists (layer_out s e i (id, layer)).
    rewrite list_lookup_imap, Hi. split; [done |].
    rewrite process_layer_out. done.
  - apply list_sort_perm.
  - eapply strongly_sorted_weaken;
      [| apply (list_sort_sorted shift_key key_lt key_lt_asym key_lt_negtrans)].
    intros a b Hab. by apply key_lt_false_le.
  - intros k. apply (list_sort_stable shift_key key_lt key_lt_irrefl).
Qed.

Lemma schedule_sorted_by_date_and_window_witness :
  exists (c : calendar) (per_layer : list (list shift)),
    generate_oncall_calendar 1 two_layers None (Some (Date.ymd2ord 2026 1 7)) = Ok c
    /\ cal_shifts c ≡ₚ concat per_layer
    /\ StronglySorted (fun a b => key_le (shift_key a) (shift_key b)) (cal_shifts c).
Proof.
  destruct (generate_oncall_calendar 1 two_layers None (Some (Date.ymd2ord 2026 1 7)))
    as [c|e] eqn:E; [| vm_compute in E; discriminate E].
  destruct (schedule_sorted_by_date_and_window 1 two_layers None
              (Some (Date.ymd2ord 2026 1 7)) c E) as (per_layer & _ & _ & H3 & H4 & _).
  exists c, per_layer. split; [reflexivity |]. split; [exact H3 | exact H4].
Defined.

(** C2, as stated, fails: the two layers below share the date and the start
    time ["08:00"]; the first declared one ends later, and the sort puts it
    second. *)
Lemma same_start_order_not_kept :
  exists (c : calendar) (a b : shift),
    generate_oncall_calendar 1 same_start None (Some (Date.ymd2ord 2026 1 6)) = Ok c
    /\ layers_loop (Date.ymd2ord 2026 1 5) (Date.ymd2ord 2026 1 6) 0 (layers same_start) []
       = Ok [a; b]
    /\ sh_date a = sh_date b
    /\ shift_start a = shift_start b
    /\ cal_shifts c = [b; a]
    /\ a <> b.
Proof.
  eexists _, _, _. split_and!; [vm_compute; reflexivity | vm_compute; reflexivity | ..];
    try reflexivity.
  discriminate.
Qed.

(** ** Colours *)

Lemma colors_lookup_mod (i : nat) : exists c, colors !! (i mod length colors)%nat = Some c.
Proof.
  apply lookup_lt_is_Some_2. apply Nat.mod_upper_bound. simpl. lia.
Qed.

Lemma colored_empty : colored [] ∅ 0.
Proof.
  split_and!.
  - done.
  - intros p. rewrite lookup_empty. split; [by intros [? ?] | by intros ?%elem_of_nil].
  - intros j p H. done.
Qed.

Lemma colored_seen_again (seen : list string) (pc : gmap string string) (n : nat)
    (p : string) :
  colored seen pc n -> is_Some (pc !! p) -> colored (seen ++ [p]) pc n.
Proof.
  intros (Hn & Hdom & Hcol) Hp. assert (Hin : p ∈ seen) by by apply Hdom.
  split_and!.
  - rewrite Hn, list_to_set_app_L. simpl.
    rewrite union_empty_r_L, (union_comm_L _ {[p]}), subseteq_union_1_L; [done |].
    apply singleton_subseteq_l. by rewrite elem_of_list_to_set.
  - intros q. rewrite Hdom, elem_of_app, list_elem_of_singleton.
    split; [by left | intros [? | ->]; done].
  - intros j q Hj Hq.
    destruct (decide (j < length seen)%nat) as [Hlt | Hge].
    + rewrite lookup_app_l in Hj by done.
      rewrite take_app_le in Hq |- * by lia. by apply Hcol.
    + rewrite lookup_app_r in Hj by lia.
      apply list_lookup_singleton_Some in Hj as [Hj <-].
      exfalso. apply Hq. replace j with (length seen) by lia.
      rewrite take_app_length. done.
Qed.

Lemma colored_new (seen : list string) (pc : gmap string string) (n : nat)
    (p c : string) :
  colored seen pc n -> pc !! p = None ->
  colors !! (n mod length colors)%nat = Some c ->
  colored (seen ++ [p]) (<[p := c]> pc) (S n).
Proof.
  intros (Hn & Hdom & Hcol) Hp Hc.
  assert (Hnin : p ∉ seen).
  { intros Hin. apply Hdom in Hin as [? ?]. congruence. }
  split_and!.
  - rewrite Hn, list_to_set_app_L. simpl. rewrite size_union.
    + rewrite union_empty_r_L, size_singleton. lia.
    + rewrite union_empty_r_L. apply disjoint_singleton_r.
      by rewrite elem_of_list_to_set.
  - intros q. rewrite elem_of_app, list_elem_of_singleton, <- Hdom.
    rewrite lookup_insert. case_decide as Hd.
    + subst. split; [by right | done].
    + split; [by left | intros [? | ->]; done].
  - intros j q Hj Hq.
    destruct (decide (j < length seen)%nat) as [Hlt | Hge].
    + rewrite lookup_app_l in Hj by done.
      rewrite take_app_le in Hq |- * by lia.
      rewrite lookup_insert_ne.
      * by apply Hcol.
      * intros <-. apply Hnin. by eapply list_elem_of_lookup_2.
    + rewrite lookup_app_r in Hj by lia.
      apply list_lookup_singleton_Some in Hj as [Hj <-].
      replace j with (length seen) by lia.
      rewrite take_app_length, lookup_insert_eq, <- Hn. done.
Qed.

Lemma color_loop_colored (shifts : list shift) :
  forall (seen : list string) (pc : gmap string string) (n : nat),
    colored seen pc n ->
    exists pc' n',
      color_loop shifts pc n = Ok (pc', n')
      /\ colored (seen ++ (sh_person <$> shifts)) pc' n'.
Proof.
  induction shifts as [|sh shifts IH]; intros seen pc n Hinv.
  - exists pc, n. simpl. by rewrite app_nil_r.
  - rewrite fmap_cons, cons_middle, app_assoc. cbn [color_loop].
    destruct (pc !! sh_person sh) as [c0|] eqn:E.
    + apply IH. apply colored_seen_again; [done | by rewrite E].
    + rewrite py_mod_pos by (simpl; lia). cbn [rbind].
      destruct (colors_lookup_mod n) as [c Hc].
      unfold py_index. rewrite Hc. cbn [rbind].
      apply IH. by apply colored_new.
Qed.

(** C7. The colours returned with a schedule depend only on the order in
    which persons first appear in it: a person first met at position [j] of
    the sorted shifts, with [k] distinct persons before, gets
    [colors[k mod len(colors)]]; exactly the persons of the schedule are
    coloured. *)
Theorem colors_by_first_appearance (now : Date.datetime) (cfg : schedule_config)
    (start_date_override end_date_override : option Date.datetime) (c : calendar) :
  generate_oncall_calendar now cfg start_date_override end_date_override = Ok c ->
  let persons := sh_person <$> cal_shifts c in
  (forall j p, persons !! j = Some p -> p ∉ take j persons ->
     cal_person_colors c !! p
     = colors !! (size (list_to_set (take j persons) : gset string) mod length colors)%nat)
  /\ (forall p, is_Some (cal_person_colors c !! p) <-> p ∈ persons)
  /\ color_loop (cal_shifts c) ∅ 0
     = Ok (cal_person_colors c, size (list_to_set persons : gset string)).
Proof.
  unfold generate_oncall_calendar. intros H.
  apply rbind_ok in H as ([s e] & Hrange & H).
  destruct (layers cfg) as [|l0 ls] eqn:Hl; [done |].
  apply rbind_ok in H as (shifts & Hloop & H).
  apply rbind_ok in H as ([pc n] & Hcol & H). injection H as <-. simpl.
  destruct (color_loop_colored (sort_shifts shifts) [] ∅ 0%nat colored_empty)
    as (pc' & n' & Hrun & Hn & Hdom & Hk).
  rewrite Hcol in Hrun. injection Hrun as <- <-. simpl in *.
  split_and!; [done | done |]. by rewrite Hcol, Hn.
Qed.

Lemma colors_by_first_appearance_witness :
  exists c : calendar,
    generate_oncall_calendar 1 two_layers None (Some (Date.ymd2ord 2026 1 7)) = Ok c
    /\ forall p, is_Some (cal_person_colors c !! p) <-> p ∈ sh_person <$> cal_shifts c.
Proof.
  destruct (generate_oncall_calendar 1 two_layers None (Some (Date.ymd2ord 2026 1 7)))
    as [c|e] eqn:E; [| vm_compute in E; discriminate E].
  destruct (colors_by_first_appearance 1 two_layers None
              (Some (Date.ymd2ord 2026 1 7)) c E) as (_ & H2 & _).
  exists c. split; [reflexivity | exact H2].
Defined.

Example two_layers_colors :
  (fun c => (cal_person_colors c !! "Alice", cal_person_colors c !! "Carol")) <$>
    (match generate_oncall_calendar 1 two_layers None (Some (Date.ymd2ord 2026 1 7)) with
     | Ok c => Some c
     | Raise _ => None
     end)
  = Some (Some "E8F5E9", Some "E3F2FD").
Proof. vm_compute. reflexivity. Qed.

(** ** The pattern of relative expressions *)

Lemma relative_match_grammar (ds u : string) :
  ds <> "" -> all_chars Str.isdigit ds = true -> u ∈ [""; "d"; "w"; "m"; "y"] ->
  relative_match ("+" ++ ds ++ u) = Some (ds, unit_of u).
Proof.
  intros Hne Hd Hu. rewrite string_app_cons, string_app_nil_l.
  unfold relative_match.
  rewrite span_digits; [| done |].
  - destruct ds as [|c ds]; [done |].
    repeat (apply elem_of_cons in Hu as [-> | Hu]; [reflexivity |]).
    by apply elem_of_nil in Hu.
  - repeat (apply elem_of_cons in Hu as [-> | Hu]; [done |]).
    by apply elem_of_nil in Hu.
Qed.





(** ** Calendar arithmetic *)

Lemma int_of_digits_fold (l : list ascii) :
  forall acc, 0 <= acc -> Forall (fun c => Str.isdigit c = true) l ->
    0 <= fold_left (fun acc c => 10 * acc + Str.digit_val c) l acc.
Proof.
  induction l as [|c l IH]; intros acc Hacc Hl; simpl; [done |].
  apply Forall_cons in Hl as [Hc Hl]. apply IH; [| done].
  unfold Str.isdigit in Hc. unfold Str.digit_val.
  apply andb_true_iff in Hc as [H1%Z.leb_le H2%Z.leb_le]. clear IH Hl. lia.
Qed.

Lemma all_chars_Forall (p : ascii -> bool) (s : string) :
  all_chars p s = true -> Forall (fun c => p c = true) (list_ascii_of_string s).
Proof.
  induction s as [|c s IH]; simpl; [constructor |].
  intros [Hc Hs]%andb_true_iff. constructor; auto.
Qed.

Lemma int_of_digits_nonneg (ds : string) :
  all_chars Str.isdigit ds = true -> 0 <= Str.int_of_digits ds.
Proof.
  intros H. apply int_of_digits_fold; [done | by apply all_chars_Forall].
Qed.

Lemma month_bounds (d : Date.datetime) : 1 <= Date.month d <= 12.
Proof.
  unfold Date.month, Date.ord2ymd.
  set (n400 := (d - 1) mod Date.DI400Y).
  set (n100 := n400 mod Date.DI100Y).
  set (n4 := n100 mod Date.DI4Y).
  set (n := n4 mod 365).
  assert (Hn : 0 <= n < 365) by (apply Z.mod_pos_bound; lia).
  destruct ((n4 / 365 =? 4) || (n400 / Date.DI100Y =? 4)); [simpl; lia |].
  set (leap := (n4 / 365 =? 3) && _).
  clearbody n leap n4 n100 n400.
  rewrite Z.shiftr_div_pow2 by lia. change (2 ^ 5) with 32.
  assert (Hm : 1 <= (n + 50) / 32 <= 12).
  { pose proof (Z.div_mod (n + 50) 32 ltac:(lia)).
    pose proof (Z.mod_pos_bound (n + 50) 32 ltac:(lia)). lia. }
  assert (Hcases : (n + 50) / 32 = 1 \/ 2 <= (n + 50) / 32 <= 12) by lia.
  destruct Hcases as [-> | Hge].
  - change (Date.tab Date.DAYS_BEFORE_MONTH 1) with 0.
    destruct (Z.ltb_spec n (0 + (if (2 <? 1) && leap then 1 else 0))) as [Hlt | _];
      cbn [fst snd]; [| lia].
    rewrite andb_false_l in Hlt. lia.
  - destruct (n <? _); cbn [fst snd]; lia.
Qed.

(** Adding [n >= 0] months moves the month cyclically, carries into the
    year, and clamps the day to the length of the month reached. *)
Lemma add_months_closed_form (d : Date.datetime) (n : Z) :
  0 <= n ->
  Date.add_relativedelta d 0 n
  = let y := Date.year d + (Date.month d - 1 + n) / 12 in
    let m := (Date.month d - 1 + n) mod 12 + 1 in
    Date.replace_ymd y m (Z.min (Date.days_in_month y m) (Date.day d)).
Proof.
  intros Hn. unfold Date.add_relativedelta.
  pose proof (month_bounds d) as Hm.
  rewrite Z.abs_eq by done.
  assert (Hs : n / 12 * Z.sgn n = n / 12 /\ n mod 12 * Z.sgn n = n mod 12).
  { destruct (Z.eq_dec n 0) as [-> | Hne]; [done |].
    rewrite Z.sgn_pos by lia. lia. }
  destruct Hs as [-> ->].
  pose proof (Z.mod_pos_bound n 12 ltac:(lia)) as Hr.
  pose proof (Z.div_mod n 12 ltac:(lia)) as Hq.
  assert (Hsplit : Date.month d - 1 + n
                   = 12 * (n / 12) + (Date.month d - 1 + n mod 12)) by lia.
  destruct (Z.ltb_spec 12 (Date.month d + n mod 12)) as [Hgt | Hle].
  - assert (Hdiv : (Date.month d - 1 + n) / 12 = n / 12 + 1).
    { symmetry. apply (Z.div_unique _ 12 _ (Date.month d - 1 + n mod 12 - 12)); lia. }
    assert (Hmod : (Date.month d - 1 + n) mod 12 = Date.month d - 1 + n mod 12 - 12).
    { symmetry. apply (Z.mod_unique _ 12 (n / 12 + 1)); lia. }
    simpl. rewrite Hdiv, Hmod.
    replace (Date.year d + (0 + n / 12) + 1) with (Date.year d + (n / 12 + 1)) by lia.
    replace (Date.month d - 1 + n mod 12 - 12 + 1) with (Date.month d + n mod 12 - 12) by lia.
    done.
  - destruct (Z.ltb_spec (Date.month d + n mod 12) 1) as [Hlt | _]; [lia |].
    assert (Hdiv : (Date.month d - 1 + n) / 12 = n / 12).
    { symmetry. apply (Z.div_unique _ 12 _ (Date.month d - 1 + n mod 12)); lia. }
    assert (Hmod : (Date.month d - 1 + n) mod 12 = Date.month d - 1 + n mod 12).
    { symmetry. apply (Z.mod_unique _ 12 (n / 12)); lia. }
    simpl. rewrite Hdiv, Hmod.
    replace (Date.year d + (0 + n / 12)) with (Date.year d + n / 12) by lia.
    replace (Date.month d - 1 + n mod 12 + 1) with (Date.month d + n mod 12) by lia.
    done.
Qed.

(** Adding [n >= 0] years keeps month and day, but for the clamp of
    29 February. *)
Lemma add_years_closed_form (d : Date.datetime) (n : Z) :
  0 <= n ->
  Date.add_relativedelta d n 0
  = let y := Date.year d + n in
    Date.replace_ymd y (Date.month d)
      (Z.min (Date.days_in_month y (Date.month d)) (Date.day d)).
Proof.
  intros Hn. unfold Date.add_relativedelta.
  pose proof (month_bounds d) as Hm. cbv zeta.
  replace (Z.abs 0 / 12 * Z.sgn 0) with 0 by reflexivity.
  replace (Z.abs 0 mod 12 * Z.sgn 0) with 0 by reflexivity.
  rewrite !Z.add_0_r.
  destruct (Z.ltb_spec 12 (Date.month d)); [lia |].
  destruct (Z.ltb_spec (Date.month d) 1); [lia |]. done.
Qed.

Lemma add_days_in_range (d : Date.datetime) (n : Z) :
  0 <= n -> 0 < d -> d + n <= Date.MAXORDINAL ->
  (let* delta := Date.timedelta_days n in Date.add_days d delta) = Ok (d + n).
Proof.
  intros Hn Hd Hmax. unfold Date.timedelta_days, Date.add_days, Date.MAXORDINAL in *.
  destruct (Z.leb_spec (Z.abs n) 999999999); [| lia]. simpl.
  destruct (Z.ltb_spec 0 (d + n)); [| lia].
  destruct (Z.leb_spec (d + n) 3652059); [done | lia].
Qed.

Lemma add_weeks_in_range (d : Date.datetime) (n : Z) :
  0 <= n -> 0 < d -> d + 7 * n <= Date.MAXORDINAL ->
  (let* delta := Date.timedelta_weeks n in Date.add_days d delta) = Ok (d + 7 * n).
Proof.
  intros Hn Hd Hmax. unfold Date.timedelta_weeks. apply add_days_in_range; lia.
Qed.

(** The year of a date is positive, and so is its day. *)
Lemma year_lower (d : Date.datetime) : 0 < d -> 1 <= Date.year d.
Proof.
  intros Hd. unfold Date.year, Date.ord2ymd.
  assert (H400 : 0 <= (d - 1) / Date.DI400Y) by (apply Z.div_pos; [lia | done]).
  set (r400 := (d - 1) mod Date.DI400Y).
  assert (Hr400 : 0 <= r400) by (apply Z.mod_pos_bound; done).
  assert (H100 : 0 <= r400 / Date.DI100Y) by (apply Z.div_pos; [lia | done]).
  set (r100 := r400 mod Date.DI100Y).
  assert (Hr100 : 0 <= r100) by (apply Z.mod_pos_bound; done).
  assert (H4 : 0 <= r100 / Date.DI4Y) by (apply Z.div_pos; [lia | done]).
  set (r4 := r100 mod Date.DI4Y).
  assert (Hr4 : 0 <= r4) by (apply Z.mod_pos_bound; done).
  assert (H1 : 0 <= r4 / 365) by (apply Z.div_pos; [lia | done]).
  destruct ((r4 / 365 =? 4) || (r400 / Date.DI100Y =? 4)) eqn:E.
  - cbn [fst]. apply orb_true_iff in E as [E%Z.eqb_eq | E%Z.eqb_eq]; lia.
  - destruct (_ <? _); cbn [fst]; lia.
Qed.

Lemma day_lower (d : Date.datetime) : 1 <= Date.day d.
Proof.
  unfold Date.day, Date.ord2ymd.
  set (n400 := (d - 1) mod Date.DI400Y).
  set (n100 := n400 mod Date.DI100Y).
  set (n4 := n100 mod Date.DI4Y).
  set (n := n4 mod 365).
  assert (Hn : 0 <= n < 365) by (apply Z.mod_pos_bound; lia).
  destruct ((n4 / 365 =? 4) || (n400 / Date.DI100Y =? 4)); [simpl; lia |].
  set (leap := (n4 / 365 =? 3) && _).
  clearbody n leap n4 n100 n400.
  rewrite Z.shiftr_div_pow2 by lia. change (2 ^ 5) with 32.
  pose proof (Z.div_mod (n + 50) 32 ltac:(lia)) as Hdm.
  pose proof (Z.mod_pos_bound (n + 50) 32 ltac:(lia)) as Hmb.
  set (month := (n + 50) / 32) in *.
  assert (Hm : 1 <= month <= 12) by lia.
  clearbody month.
  destruct (Z.ltb_spec n (Date.tab Date.DAYS_BEFORE_MONTH month
                           + (if (2 <? month) && leap then 1 else 0)))
    as [Hlt | Hge]; cbn [snd]; [| lia].
  assert (Hcases : month = 1 \/ month = 2 \/ month = 3 \/ month = 4 \/ month = 5
                   \/ month = 6 \/ month = 7 \/ month = 8 \/ month = 9
                   \/ month = 10 \/ month = 11 \/ month = 12) by lia.
  destruct Hcases as [-> | [-> | [-> | [-> | [-> | [-> | [-> | [-> | [-> | [-> | [-> | ->]]]]]]]]]]];
    destruct leap;
    match type of Hlt with
    | _ < ?e => let v := eval vm_compute in e in change e with v in Hlt
    end;
    match goal with
    | |- 1 <= _ - ?e + 1 => let v := eval vm_compute in e in change e with v
    end; lia.
Qed.

Lemma days_in_month_lower (y m : Z) : 1 <= m <= 12 -> 28 <= Date.days_in_month y m.
Proof.
  intros Hm. unfold Date.days_in_month.
  destruct ((m =? 2) && Date.is_leap y); [lia |].
  assert (Hcases : m = 1 \/ m = 2 \/ m = 3 \/ m = 4 \/ m = 5 \/ m = 6 \/ m = 7
                   \/ m = 8 \/ m = 9 \/ m = 10 \/ m = 11 \/ m = 12) by lia.
  destruct Hcases as [-> | [-> | [-> | [-> | [-> | [-> | [-> | [-> | [-> | [-> | [-> | ->]]]]]]]]]]];
    vm_compute; discriminate.
Qed.

Lemma make_ok (y m d : Z) :
  Date.MINYEAR <= y <= Date.MAXYEAR -> 1 <= m <= 12 -> 1 <= d <= Date.days_in_month y m ->
  Date.make y m d = Ok (Date.ymd2ord y m d).
Proof.
  intros Hy Hm Hd. unfold Date.make.
  destruct (Z.leb_spec Date.MINYEAR y); [| lia].
  destruct (Z.leb_spec y Date.MAXYEAR); [| lia].
  destruct (Z.leb_spec 1 m); [| lia]. destruct (Z.leb_spec m 12); [| lia].
  destruct (Z.leb_spec 1 d); [| lia].
  destruct (Z.leb_spec d (Date.days_in_month y m)); [| lia]. done.
Qed.

(** Within the years of the calendar [replace] builds the date with the
    day it is given, once clamped to the month. *)
Lemma replace_clamped (y m d : Z) :
  Date.MINYEAR <= y <= Date.MAXYEAR -> 1 <= m <= 12 -> 1 <= d ->
  Date.replace_ymd y m (Z.min (Date.days_in_month y m) d)
  = Ok (Date.ymd2ord y m (Z.min (Date.days_in_month y m) d)).
Proof.
  intros Hy Hm Hd. unfold Date.replace_ymd.
  unfold Date.MINYEAR, Date.MAXYEAR in Hy.
  destruct (Z.leb_spec (- 2 ^ 63) y); [| lia].
  destruct (Z.ltb_spec y (2 ^ 63)); [| lia]. cbn [andb negb].
  destruct (Z.ltb_spec 2147483647 y); [lia |].
  destruct (Z.ltb_spec y (-2147483648)); [lia |].
  apply make_ok; [done | done |].
  pose proof (days_in_month_lower y m Hm). lia.
Qed.

(** ** Integer literals *)

Lemma isdigit_not_space (c : ascii) : Str.isdigit c = true -> Str.isspace c = false.
Proof. destruct c as [[] [] [] [] [] [] [] []]; vm_compute; congruence. Qed.

Lemma digits_ends (ds : string) :
  all_chars Str.isdigit ds = true -> ends_space ds = false.
Proof.
  induction ds as [|c ds IH]; [done |]. simpl.
  intros [Hc Hd]%andb_true_iff. destruct ds as [|c' ds']; [| by apply IH].
  by apply isdigit_not_space.
Qed.

Lemma rstrip_id (s : string) : ends_space s = false -> Str.rstrip s = s.
Proof.
  induction s as [|c s IH]; [done |]. simpl. destruct s as [|c' s'].
  - simpl. by intros ->.
  - intros H. by rewrite IH.
Qed.

Lemma strip_digits (ds : string) :
  all_chars Str.isdigit ds = true -> Str.strip ds = ds.
Proof.
  intros Hd. unfold Str.strip.
  assert (Str.lstrip ds = ds) as ->.
  { destruct ds as [|c r]; [done |]. simpl in *.
    apply andb_true_iff in Hd as [Hc _]. by rewrite (isdigit_not_space c Hc). }
  apply rstrip_id. by apply digits_ends.
Qed.

Lemma span_all (p : ascii -> bool) (s : string) :
  all_chars p s = true -> Str.span p s = (s, "").
Proof.
  induction s as [|c s IH]; [done |]. simpl.
  intros [Hc Hs]%andb_true_iff. by rewrite Hc, IH.
Qed.

Lemma all_chars_impl (p q : ascii -> bool) (s : string) :
  (forall c, p c = true -> q c = true) -> all_chars p s = true -> all_chars q s = true.
Proof.
  intros Hpq. induction s as [|c s IH]; [done |]. simpl.
  intros [Hc Hs]%andb_true_iff. by rewrite (Hpq c Hc), IH.
Qed.

Lemma int_body_digits (s : string) :
  all_chars Str.isdigit s = true ->
  forall acc b, s <> "" \/ b = true ->
    Str.int_body s acc b
    = Some (fold_left (fun acc c => 10 * acc + Str.digit_val c) (list_ascii_of_string s) acc).
Proof.
  induction s as [|c s IH]; intros Hd acc b Hb.
  - destruct Hb as [Hb | ->]; done.
  - simpl in Hd. apply andb_true_iff in Hd as [Hc Hd]. simpl. rewrite Hc.
    apply IH; [done | by right].
Qed.

Lemma count_digits_all (s : string) :
  all_chars Str.isdigit s = true -> Str.count_digits s = Z.of_nat (String.length s).
Proof.
  unfold Str.count_digits. intros Hd. f_equal.
  induction s as [|c s IH]; [done |]. simpl in *.
  apply andb_true_iff in Hd as [Hc Hd]. rewrite Hc. simpl. by rewrite IH.
Qed.

(** [int] of a string of digits: the number they denote, unless there are
    more than 4300 of them. *)
Lemma py_int_digits (ds : string) :
  ds <> "" -> all_chars Str.isdigit ds = true ->
  Str.py_int ds
  = if Str.MAX_STR_DIGITS <? Z.of_nat (String.length ds)
    then Raise (ValueError (Str.digit_limit_message (Z.of_nat (String.length ds))))
    else Ok (Str.int_of_digits ds).
Proof.
  intros Hne Hd.
  assert (Hbody : forall bad, Str.int_unsigned bad ds
            = if Str.MAX_STR_DIGITS <? Z.of_nat (String.length ds)
              then Raise (ValueError (Str.digit_limit_message (Z.of_nat (String.length ds))))
              else Ok (Str.int_of_digits ds)).
  { intros bad. unfold Str.int_unsigned.
    rewrite span_all by (eapply all_chars_impl; [| exact Hd]; by intros c ->).
    rewrite (int_body_digits ds Hd) by by left.
    rewrite (count_digits_all ds Hd). by destruct (_ <? _). }
  unfold Str.py_int. rewrite (strip_digits ds Hd).
  destruct ds as [|c r]; [done |].
  assert (Hc : Str.isdigit c = true) by (simpl in Hd; by apply andb_true_iff in Hd as [? _]).
  destruct c as [[] [] [] [] [] [] [] []]; try (vm_compute in Hc; discriminate Hc);
    apply Hbody.
Qed.

(** ** Date expressions *)

Lemma relative_not_today (t : string) (g : string * option ascii) :
  relative_match t = Some g -> String.eqb t "today" = false.
Proof.
  intros H. destruct (String.eqb_spec t "today") as [-> | _]; [| done].
  vm_compute in H. discriminate H.
Qed.

Lemma parse_relative (now : Date.datetime) (s : string)
    (reference_date : option Date.datetime) (ds u : string) :
  ds <> "" -> all_chars Str.isdigit ds = true -> u ∈ [""; "d"; "w"; "m"; "y"] ->
  Str.lower (Str.strip s) = "+" ++ ds ++ u ->
  Z.of_nat (String.length ds) <= Str.MAX_STR_DIGITS ->
  let ref := default now reference_date in
  let n := Str.int_of_digits ds in
  parse_date_argument now s reference_date
  = if bool_decide (u = "" \/ u = "d") then
      let* delta := Date.timedelta_days n in Date.add_days ref delta
    else if bool_decide (u = "w") then
      let* delta := Date.timedelta_weeks n in Date.add_days ref delta
    else if bool_decide (u = "m") then Date.add_relativedelta ref 0 n
    else Date.add_relativedelta ref n 0.
Proof.
  intros Hne Hd Hu Ht Hlen ref n. unfold parse_date_argument. rewrite Ht.
  pose proof (relative_match_grammar ds u Hne Hd Hu) as Hm.
  rewrite (relative_not_today _ _ Hm), Hm, (py_int_digits ds Hne Hd).
  destruct (Z.ltb_spec Str.MAX_STR_DIGITS (Z.of_nat (String.length ds))); [lia |].
  cbn [rbind].
  repeat (apply elem_of_cons in Hu as [-> | Hu]; [reflexivity |]).
  by apply elem_of_nil in Hu.
Qed.

(** An amount of more than 4300 digits is refused by [int], whatever the
    unit. *)
Lemma parse_relative_too_long (now : Date.datetime) (s : string)
    (reference_date : option Date.datetime) (ds u : string) :
  ds <> "" -> all_chars Str.isdigit ds = true -> u ∈ [""; "d"; "w"; "m"; "y"] ->
  Str.lower (Str.strip s) = "+" ++ ds ++ u ->
  Str.MAX_STR_DIGITS < Z.of_nat (String.length ds) ->
  parse_date_argument now s reference_date
  = Raise (ValueError (Str.digit_limit_message (Z.of_nat (String.length ds)))).
Proof.
  intros Hne Hd Hu Ht Hlen. unfold parse_date_argument. rewrite Ht.
  pose proof (relative_match_grammar ds u Hne Hd Hu) as Hm.
  rewrite (relative_not_today _ _ Hm), Hm, (py_int_digits ds Hne Hd).
  destruct (Z.ltb_spec Str.MAX_STR_DIGITS (Z.of_nat (String.length ds))); [done | lia].
Qed.

(** C5, amended.  A relative expression [+N], [+Nd], [+Nw], [+Nm] or [+Ny]
    (after trimming and lower-casing) whose amount has at most 4300 digits
    resolves to the reference date plus [N] days or [7 N] days, when that
    day is not after 9999-12-31, and to the reference date moved by [N]
    calendar months or years, when the year reached is not after 9999:
    months and years move the (year, month) pair and clamp the day to the
    length of the month reached.  From 2026-01-01, [+1m] gives 2026-02-01
    and [+1y] gives 2027-01-01. *)
Theorem relative_expression_resolves (now : Date.datetime) (s : string)
    (reference_date : option Date.datetime) (ds : string) :
  ds <> "" -> all_chars Str.isdigit ds = true ->
  Z.of_nat (String.length ds) <= Str.MAX_STR_DIGITS ->
  let ref := default now reference_date in
  let n := Str.int_of_digits ds in
  let t := Str.lower (Str.strip s) in
  0 < ref ->
  (t = "+" ++ ds \/ t = "+" ++ ds ++ "d" ->
     ref + n <= Date.MAXORDINAL ->
     parse_date_argument now s reference_date = Ok (ref + n))
  /\ (t = "+" ++ ds ++ "w" ->
     ref + 7 * n <= Date.MAXORDINAL ->
     parse_date_argument now s reference_date = Ok (ref + 7 * n))
  /\ (t = "+" ++ ds ++ "m" ->
     let y := Date.year ref + (Date.month ref - 1 + n) / 12 in
     let m := (Date.month ref - 1 + n) mod 12 + 1 in
     y <= Date.MAXYEAR ->
     parse_date_argument now s reference_date
     = Ok (Date.ymd2ord y m (Z.min (Date.days_in_month y m) (Date.day ref))))
  /\ (t = "+" ++ ds ++ "y" ->
     let y := Date.year ref + n in
     y <= Date.MAXYEAR ->
     parse_date_argument now s reference_date
     = Ok (Date.ymd2ord y (Date.month ref)
             (Z.min (Date.days_in_month y (Date.month ref)) (Date.day ref))))
  /\ parse_date_argument now "+1m" (Some (Date.ymd2ord 2026 1 1))
     = Ok (Date.ymd2ord 2026 2 1)
  /\ parse_date_argument now "+1y" (Some (Date.ymd2ord 2026 1 1))
     = Ok (Date.ymd2ord 2027 1 1).
Proof.
  intros Hne Hd Hlen ref n t Href.
  pose proof (int_of_digits_nonneg ds Hd) as Hn.
  pose proof (year_lower ref Href) as Hy1.
  pose proof (month_bounds ref) as Hm1.
  pose proof (day_lower ref) as Hd1.
  split_and!.
  - intros [Ht | Ht] Hmax.
    + rewrite (parse_relative now s reference_date ds "" Hne Hd);
        [| repeat constructor | by rewrite string_app_nil_r | done].
      by apply add_days_in_range.
    + rewrite (parse_relative now s reference_date ds "d" Hne Hd);
        [| repeat constructor | done | done].
      by apply add_days_in_range.
  - intros Ht Hmax.
    rewrite (parse_relative now s reference_date ds "w" Hne Hd);
      [| repeat constructor | done | done].
    by apply add_weeks_in_range.
  - intros Ht y m Hy.
    rewrite (parse_relative now s reference_date ds "m" Hne Hd);
      [| repeat constructor | done | done].
    simpl. rewrite add_months_closed_form by done. cbv zeta.
    subst y m. fold n in Hy |- *.
    apply replace_clamped; [| | done].
    + split; [| done]. unfold Date.MINYEAR.
      assert (0 <= (Date.month ref - 1 + n) / 12) by (apply Z.div_pos; lia).
      lia.
    + pose proof (Z.mod_pos_bound (Date.month ref - 1 + n) 12 ltac:(lia)). lia.
  - intros Ht y Hy.
    rewrite (parse_relative now s reference_date ds "y" Hne Hd);
      [| repeat constructor | done | done].
    simpl. rewrite add_years_closed_form by done. cbv zeta.
    subst y. fold n in Hy |- *.
    apply replace_clamped; [| done | done].
    split; [unfold Date.MINYEAR; lia | done].
  - reflexivity.
  - reflexivity.
Qed.

Lemma relative_expression_resolves_witness :
  parse_date_argument 1 " +10D " (Some (Date.ymd2ord 2026 1 1))
  = Ok (Date.ymd2ord 2026 1 1 + 10).
Proof.
  apply (relative_expression_resolves 1 " +10D " (Some (Date.ymd2ord 2026 1 1)) "10").
  - discriminate.
  - reflexivity.
  - vm_compute. discriminate.
  - reflexivity.
  - right. reflexivity.
  - vm_compute. discriminate.
Defined.

(** C5, as stated, fails for an amount of more than 4300 digits: the
    expression below is [+0...01d] with 4300 zeros; it is of the relative
    grammar and its amount is 1, but [int] refuses it, so that no date is
    returned. *)
Lemma long_amount_not_resolved :
  let ds := Str.zeros 4300 ++ "1" in
  let s := "+" ++ ds ++ "d" in
  relative_match s = Some (ds, Some "d"%char)
  /\ Str.int_of_digits ds = 1
  /\ parse_date_argument 1 s (Some (Date.ymd2ord 2026 1 1))
     = Raise (ValueError (Str.digit_limit_message 4301))
  /\ parse_date_argument 1 s (Some (Date.ymd2ord 2026 1 1))
     <> Ok (Date.ymd2ord 2026 1 1 + 1).
Proof.
  split_and!.
  - vm_compute. reflexivity.
  - vm_compute. reflexivity.
  - vm_compute. reflexivity.
  - vm_compute. discriminate.
Qed.





(** ** Empty date ranges *)

Lemma layers_loop_empty_range (start_date end_date : Z)
    (layers_config : list (string * layer_config)) :
  end_date <= start_date ->
  forall (layer_idx : nat) (acc : list shift),
    layers_loop start_date end_date layer_idx layers_config acc = Ok acc.
Proof.
  intros Hr. induction layers_config as [|[id layer] ls IH]; intros idx acc; simpl;
    [done |].
  assert (Hp : process_layer start_date end_date idx id layer acc = Ok acc).
  { destruct (rotation_team layer) as [|p team] eqn:Hteam.
    - by apply process_layer_no_team.
    - rewrite process_layer_entries by congruence.
      rewrite generate_dates_empty_range by done. simpl. by rewrite app_nil_r. }
  rewrite Hp. simpl. apply IH.
Qed.

(** C3, as the code has it.  When the computed range has [end <= start]
    and the configuration has a layer, no warning is issued: the range is
    returned as it is, no layer enumerates a date, and the run completes
    with an empty schedule, printing its usual summary. *)
Theorem empty_range_no_warning (output_file : string) (now : Date.datetime)
    (cfg : schedule_config)
    (start_date_override end_date_override : option Date.datetime)
    (start_date end_date : Date.datetime) :
  calculate_date_range now cfg start_date_override end_date_override
    = Ok (start_date, end_date) ->
  end_date <= start_date ->
  layers cfg <> [] ->
  exists c : calendar,
    run_oncall_calendar output_file now cfg start_date_override end_date_override
      = (summary output_file cfg c, Ok c)
    /\ cal_shifts c = []
    /\ cal_start_date c = start_date /\ cal_end_date c = end_date
    /\ Forall (fun ev => is_warning ev = false) (summary output_file cfg c)
    /\ (forall layer, generate_dates_for_layer layer start_date end_date = [])
    /\ axis_bounds (cal_shifts c) (cal_end_date c) = Ok None.
Proof.
  intros Hrange Hle Hlayers.
  unfold run_oncall_calendar, generate_oncall_calendar. rewrite Hrange. cbn [rbind].
  destruct (layers cfg) as [|l0 ls] eqn:Hl; [done |]. cbv beta iota.
  rewrite layers_loop_empty_range by done. simpl.
  eexists. split; [reflexivity |]. simpl. split_and!; try reflexivity.
  - repeat constructor.
  - intros layer. by apply generate_dates_empty_range.
Qed.

Lemma empty_range_no_warning_witness :
  exists c : calendar,
    run_oncall_calendar "two_layers.xlsx" 1 two_layers None (Some (Date.ymd2ord 2026 1 5))
      = (summary "two_layers.xlsx" two_layers c, Ok c)
    /\ cal_shifts c = [].
Proof.
  destruct (empty_range_no_warning "two_layers.xlsx" 1 two_layers None
              (Some (Date.ymd2ord 2026 1 5))
              (Date.ymd2ord 2026 1 5) (Date.ymd2ord 2026 1 5))
    as (c & H1 & H2 & _).
  - reflexivity.
  - vm_compute. discriminate.
  - discriminate.
  - exists c. split; [exact H1 | exact H2].
Defined.

(** C3, as stated, fails: the range below is empty, the run returns, and
    among the events it produced there is no warning. *)
Lemma empty_range_warning_absent :
  exists (events : list event) (c : calendar),
    run_oncall_calendar "two_layers.xlsx" 1 two_layers None (Some (Date.ymd2ord 2026 1 5))
      = (events, Ok c)
    /\ cal_end_date c <= cal_start_date c
    /\ forall category message, Warned category message ∉ events.
Proof.
  eexists _, _. split; [vm_compute; reflexivity |]. split; [vm_compute; discriminate |].
  intros category message Hin.
  repeat (apply elem_of_cons in Hin as [Hin | Hin]; [discriminate Hin |]).
  by apply elem_of_nil in Hin.
Qed.

(** ** The floats of clock times *)

Lemma hour_table_increasing : increasing hour_table = true.
Proof. vm_compute. reflexivity. Qed.

Lemma hour_table_ok : forallb hour_ok (seqZ 0 1440) = true.
Proof. vm_compute. reflexivity. Qed.

Lemma increasing_lookup (l : list float) :
  increasing l = true ->
  forall (i j : nat) (x y : float),
    l !! i = Some x -> l !! j = Some y ->
    PrimFloat.ltb x y = bool_decide (i < j)%nat.
Proof.
  induction l as [|z l IH]; intros Hinc i j x y Hi Hj; [done |].
  simpl in Hinc. apply andb_true_iff in Hinc as [Hinc Hrest].
  apply andb_true_iff in Hinc as [Hzz Hall].
  apply negb_true_iff in Hzz. rewrite forallb_forall in Hall.
  destruct i as [|i], j as [|j]; simpl in Hi, Hj.
  - injection Hi as <-. injection Hj as <-. done.
  - injection Hi as <-. apply list_elem_of_lookup_2, list_elem_of_In, Hall in Hj.
    apply andb_true_iff in Hj as [-> _]. symmetry. apply bool_decide_eq_true. lia.
  - injection Hj as <-. apply list_elem_of_lookup_2, list_elem_of_In, Hall in Hi.
    apply andb_true_iff in Hi as [_ Hi]. apply negb_true_iff in Hi. rewrite Hi.
    symmetry. apply bool_decide_eq_false. lia.
  - rewrite (IH Hrest i j x y Hi Hj). apply bool_decide_ext. lia.
Qed.

Lemma hour_table_lookup (n : Z) :
  0 <= n < 1440 -> hour_table !! Z.to_nat n = Some (hour_float n).
Proof.
  intros Hn. unfold hour_table.
  change (map ?f ?l) with (f <$> l).
  rewrite list_lookup_fmap, lookup_seq_lt by lia. simpl. f_equal. f_equal. lia.
Qed.

Lemma hour_float_ltb (a b : Z) :
  0 <= a < 1440 -> 0 <= b < 1440 ->
  PrimFloat.ltb (hour_float a) (hour_float b) = (a <? b).
Proof.
  intros Ha Hb.
  rewrite (increasing_lookup hour_table hour_table_increasing
             (Z.to_nat a) (Z.to_nat b) _ _
             (hour_table_lookup a Ha) (hour_table_lookup b Hb)).
  destruct (Z.ltb_spec a b).
  - apply bool_decide_eq_true. lia.
  - apply bool_decide_eq_false. lia.
Qed.

Lemma hour_float_ok (n : Z) :
  0 <= n < 1440 ->
  hour_value (n / 60) (n mod 60) = Ok (hour_float n)
  /\ Flt.to_int (hour_float n) = Ok (n / 60).
Proof.
  intros Hn. pose proof hour_table_ok as H. rewrite forallb_forall in H.
  assert (Hin : In n (seqZ 0 1440)) by (apply list_elem_of_In, elem_of_seqZ; lia).
  specialize (H n Hin). unfold hour_ok, hour_float in *.
  destruct (hour_value (n / 60) (n mod 60)) as [f|]; [| done].
  destruct (Flt.to_int f) as [h|]; [| done].
  apply Z.eqb_eq in H as ->. done.
Qed.

(** ** Reading clock times *)

Lemma two_digit_table : forallb two_digit_ok (seqZ 0 60) = true.
Proof. vm_compute. reflexivity. Qed.

Lemma two_digit_facts (v : Z) :
  0 <= v < 60 ->
  Str.py_int (Str.zfill 2 v) = Ok v
  /\ free_of ":" (Str.zfill 2 v) = true /\ free_of " " (Str.zfill 2 v) = true.
Proof.
  intros Hv. pose proof two_digit_table as H. rewrite forallb_forall in H.
  assert (Hin : In v (seqZ 0 60)) by (apply list_elem_of_In, elem_of_seqZ; lia).
  specialize (H v Hin). unfold two_digit_ok in H.
  apply andb_true_iff in H as [H H3]. apply andb_true_iff in H as [H H2].
  destruct (Str.py_int (Str.zfill 2 v)) as [z|]; [| done].
  apply Z.eqb_eq in H as ->. done.
Qed.

Lemma clock_free_of_space (t : Z * Z) :
  valid_clock t -> free_of " " (clock t.1 t.2) = true.
Proof.
  intros [Hh Hm]. unfold clock, free_of. rewrite !all_chars_app.
  destruct (two_digit_facts t.1 ltac:(lia)) as (_ & _ & H1).
  destruct (two_digit_facts t.2 ltac:(lia)) as (_ & _ & H2).
  unfold free_of in H1, H2. by rewrite H1, H2.
Qed.

Lemma time_to_y_clock (t : Z * Z) :
  valid_clock t -> time_to_y (clock t.1 t.2) = Ok (hour_float (minutes t)).
Proof.
  intros [Hh Hm]. unfold time_to_y, clock.
  destruct (two_digit_facts t.1 ltac:(lia)) as (Hi1 & Hc1 & _).
  destruct (two_digit_facts t.2 ltac:(lia)) as (Hi2 & Hc2 & _).
  rewrite (split_free ":" "") by done. rewrite Hi1, Hi2. cbn [rbind].
  destruct (hour_float_ok (minutes t)) as [Hv _]; [unfold minutes; lia |].
  unfold minutes in *.
  replace ((60 * t.1 + t.2) / 60) with t.1 in Hv
    by (apply (Z.div_unique _ 60 _ t.2); lia).
  replace ((60 * t.1 + t.2) mod 60) with t.2 in Hv
    by (apply (Z.mod_unique _ 60 t.1); lia).
  done.
Qed.

Lemma split_window_text (a b : Z * Z) :
  valid_clock a -> valid_clock b ->
  Str.split " - " (window_text (clock a.1 a.2) (clock b.1 b.2))
  = [clock a.1 a.2; clock b.1 b.2].
Proof.
  intros Ha Hb. unfold window_text.
  apply (split_free " " "- "); by apply clock_free_of_space.
Qed.

(** ** Minimum and maximum *)

Lemma hour_float_inj (a b : Z) :
  day_minute a -> day_minute b -> hour_float a = hour_float b -> a = b.
Proof.
  intros Ha Hb Heq.
  pose proof (hour_float_ltb a b Ha Hb) as H1.
  pose proof (hour_float_ltb b a Hb Ha) as H2.
  pose proof (hour_float_ltb a a Ha Ha) as H3.
  rewrite <- Heq in H1, H2. rewrite H3 in H1, H2. lia.
Qed.

Lemma foldl_min_hour (l : list Z) :
  forall n, day_minute n -> Forall day_minute l ->
    foldl (fun cur item => if PrimFloat.ltb item cur then item else cur)
      (hour_float n) (hour_float <$> l)
    = hour_float (foldl Z.min n l).
Proof.
  induction l as [|a l IH]; intros n Hn Hl; [done |].
  apply Forall_cons in Hl as [Ha Hl]. simpl.
  rewrite hour_float_ltb by done.
  destruct (Z.ltb_spec a n).
  - rewrite Z.min_r by lia. by apply IH.
  - rewrite Z.min_l by lia. by apply IH.
Qed.

Lemma foldl_max_hour (l : list Z) :
  forall n, day_minute n -> Forall day_minute l ->
    foldl (fun cur item => if PrimFloat.ltb cur item then item else cur)
      (hour_float n) (hour_float <$> l)
    = hour_float (foldl Z.max n l).
Proof.
  induction l as [|a l IH]; intros n Hn Hl; [done |].
  apply Forall_cons in Hl as [Ha Hl]. simpl.
  rewrite hour_float_ltb by done.
  destruct (Z.ltb_spec n a).
  - rewrite Z.max_r by lia. by apply IH.
  - rewrite Z.max_l by lia. by apply IH.
Qed.

Lemma foldl_min_least (l : list Z) :
  forall n, foldl Z.min n l ∈ n :: l /\ forall t, t ∈ n :: l -> foldl Z.min n l <= t.
Proof.
  induction l as [|a l IH]; intros n; simpl.
  - split; [by left | intros t ?%list_elem_of_singleton; lia].
  - destruct (IH (Z.min n a)) as [Hin Hle]. split.
    + apply elem_of_cons in Hin as [Hin | Hin]; [| by do 2 right].
      rewrite Hin. destruct (Z.min_spec n a) as [[_ ->] | [_ ->]];
        [by left | right; by left].
    + intros t Ht.
      assert (Hm : foldl Z.min (Z.min n a) l <= Z.min n a) by (apply Hle; by left).
      apply elem_of_cons in Ht as [-> | Ht]; [lia |].
      apply elem_of_cons in Ht as [-> | Ht]; [lia |].
      apply Hle. by right.
Qed.

Lemma foldl_max_greatest (l : list Z) :
  forall n, foldl Z.max n l ∈ n :: l /\ forall t, t ∈ n :: l -> t <= foldl Z.max n l.
Proof.
  induction l as [|a l IH]; intros n; simpl.
  - split; [by left | intros t ?%list_elem_of_singleton; lia].
  - destruct (IH (Z.max n a)) as [Hin Hle]. split.
    + apply elem_of_cons in Hin as [Hin | Hin]; [| by do 2 right].
      rewrite Hin. destruct (Z.max_spec n a) as [[_ ->] | [_ ->]];
        [right; by left | by left].
    + intros t Ht.
      assert (Hm : Z.max n a <= foldl Z.max (Z.max n a) l) by (apply Hle; by left).
      apply elem_of_cons in Ht as [-> | Ht]; [lia |].
      apply elem_of_cons in Ht as [-> | Ht]; [lia |].
      apply Hle. by right.
Qed.

(** The bounds computed from the floats of a non-empty list of minutes. *)
Lemma bounds_of_minutes (l : list Z) :
  l <> [] -> Forall day_minute l ->
  exists lo hi,
    lo ∈ l /\ hi ∈ l /\ (forall t, t ∈ l -> lo <= t <= hi)
    /\ (let* lo' := Flt.py_min (hour_float <$> l) in
        let* min_time := Flt.to_int lo' in
        let* hi' := Flt.py_max (hour_float <$> l) in
        let* max_time := Flt.to_int hi' in
        Ok (Some (min_time, max_time + 1)))
       = Ok (Some (lo / 60, hi / 60 + 1)).
Proof.
  intros Hne Hl. destruct l as [|n l]; [done |].
  apply Forall_cons in Hl as [Hn Hl].
  destruct (foldl_min_least l n) as [Hlo1 Hlo2].
  destruct (foldl_max_greatest l n) as [Hhi1 Hhi2].
  exists (foldl Z.min n l), (foldl Z.max n l). split_and!; [done | done | |].
  - intros t Ht. split; [by apply Hlo2 | by apply Hhi2].
  - assert (Hall : Forall day_minute (n :: l)) by by constructor.
    rewrite Forall_forall in Hall.
    rewrite fmap_cons. unfold Flt.py_min, Flt.py_max. cbn [rbind].
    rewrite foldl_min_hour, foldl_max_hour by done.
    destruct (hour_float_ok (foldl Z.min n l) (Hall _ Hlo1)) as [_ ->].
    destruct (hour_float_ok (foldl Z.max n l) (Hall _ Hhi1)) as [_ ->].
    done.
Qed.

(** ** Grouping by date and collecting the times *)

Lemma vtimes_unique (v : vshift) (n1 n2 n1' n2' : Z) :
  vtimes v n1 n2 -> vtimes v n1' n2' -> n1 = n1' /\ n2 = n2'.
Proof.
  intros (H1 & H2 & ? & ?) (H1' & H2' & ? & ?).
  rewrite H1 in H1'. rewrite H2 in H2'.
  injection H1' as H1'. injection H2' as H2'.
  split; by apply hour_float_inj.
Qed.

Lemma times_of_shifts_ok (P : Z -> Prop) (vs : list vshift) :
  (forall v, v ∈ vs -> exists n1 n2, vtimes v n1 n2 /\ P n1 /\ P n2) ->
  forall acc, exists l',
    times_of_shifts vs acc = Ok (acc ++ (hour_float <$> l'))%list
    /\ Forall (fun t => day_minute t /\ P t) l'
    /\ (forall v n1 n2, v ∈ vs -> vtimes v n1 n2 -> n1 ∈ l' /\ n2 ∈ l').
Proof.
  induction vs as [|v vs IH]; intros Hvs acc.
  - exists []. simpl. rewrite app_nil_r. split_and!; [done | constructor |].
    intros v n1 n2 Hv. by apply elem_of_nil in Hv.
  - destruct (Hvs v ltac:(by left)) as (n1 & n2 & Hv & Hp1 & Hp2).
    destruct (IH (fun v' Hv' => Hvs v' ltac:(by right))
                 (acc ++ [hour_float n1; hour_float n2])%list)
      as (l' & Hrun & Hall & Hin).
    exists (n1 :: n2 :: l'). split_and!.
    + cbn [times_of_shifts]. destruct Hv as (-> & -> & _). cbn [rbind].
      rewrite Hrun, <- app_assoc. done.
    + destruct Hv as (_ & _ & ? & ?).
      constructor; [by split | constructor; [by split | done]].
    + intros v' m1 m2 Hv' Ht. apply elem_of_cons in Hv' as [-> | Hv'].
      * destruct (vtimes_unique _ _ _ _ _ Hv Ht) as [<- <-].
        split; [by left | right; by left].
      * destruct (Hin v' m1 m2 Hv' Ht). split; by do 2 right.
Qed.

Lemma times_of_dates_ok (P : Z -> Prop) (m : gmap string (list vshift))
    (dates : list string) :
  (forall k vs v, m !! k = Some vs -> v ∈ vs ->
     exists n1 n2, vtimes v n1 n2 /\ P n1 /\ P n2) ->
  (forall k, k ∈ dates -> is_Some (m !! k)) ->
  forall acc, exists l',
    times_of_dates m dates acc = Ok (acc ++ (hour_float <$> l'))%list
    /\ Forall (fun t => day_minute t /\ P t) l'
    /\ (forall k vs v n1 n2, k ∈ dates -> m !! k = Some vs -> v ∈ vs ->
          vtimes v n1 n2 -> n1 ∈ l' /\ n2 ∈ l').
Proof.
  intros Hm. induction dates as [|k dates IH]; intros Hdom acc.
  - exists []. simpl. rewrite app_nil_r. split_and!; [done | constructor |].
    intros k vs v n1 n2 Hk. by apply elem_of_nil in Hk.
  - destruct (Hdom k ltac:(by left)) as [vs Hk].
    destruct (times_of_shifts_ok P vs (fun v => Hm k vs v Hk) acc)
      as (l1 & Hrun1 & Hall1 & Hin1).
    destruct (IH (fun k' Hk' => Hdom k' ltac:(by right))
                 (acc ++ (hour_float <$> l1))%list)
      as (l2 & Hrun2 & Hall2 & Hin2).
    exists (l1 ++ l2)%list. split_and!.
    + cbn [times_of_dates]. rewrite Hk, Hrun1. cbn [rbind].
      rewrite Hrun2, fmap_app, app_assoc. done.
    + by apply Forall_app.
    + intros k' vs' v n1 n2 Hk' Hlook Hv Ht.
      apply elem_of_cons in Hk' as [-> | Hk'].
      * assert (vs' = vs) as -> by congruence.
        destruct (Hin1 v n1 n2 Hv Ht). split; apply elem_of_app; by left.
      * destruct (Hin2 k' vs' v n1 n2 Hk' Hlook Hv Ht).
        split; apply elem_of_app; by right.
Qed.

Lemma elem_of_sorted_keys (m : gmap string (list vshift)) (k : string) :
  k ∈ sorted_keys m <-> is_Some (m !! k).
Proof.
  unfold sorted_keys. rewrite list_sort_perm, list_elem_of_fmap. split.
  - intros ([k' vs] & -> & H). apply elem_of_map_to_list in H. eauto.
  - intros [vs H]. exists (k, vs). split; [done | by apply elem_of_map_to_list].
Qed.

Lemma grouped_empty : grouped ∅ [].
Proof.
  split.
  - intros k vs v H. by rewrite lookup_empty in H.
  - intros t H. by apply elem_of_nil in H.
Qed.

Lemma grouped_insert (m : gmap string (list vshift)) (T : list Z) (key : string)
    (v : vshift) (n1 n2 : Z) :
  grouped m T -> vtimes v n1 n2 ->
  grouped (<[key := (default [] (m !! key) ++ [v])%list]> m) (T ++ [n1; n2])%list.
Proof.
  intros [G1 G2] Hv. split.
  - intros k vs v0 Hk Hv0. rewrite lookup_insert in Hk. case_decide as Hd.
    + injection Hk as <-. apply elem_of_app in Hv0 as [Hv0 | Hv0].
      * destruct (m !! key) as [bucket|] eqn:E; simpl in Hv0;
          [| by apply elem_of_nil in Hv0].
        destruct (G1 key bucket v0 E Hv0) as (m1 & m2 & ? & ? & ?).
        exists m1, m2. split_and!; [done | | ]; apply elem_of_app; by left.
      * apply list_elem_of_singleton in Hv0 as ->.
        exists n1, n2. split_and!; [done | | ]; apply elem_of_app; right;
          [by left | right; by left].
    + destruct (G1 k vs v0 Hk Hv0) as (m1 & m2 & ? & ? & ?).
      exists m1, m2. split_and!; [done | | ]; apply elem_of_app; by left.
  - intros t Ht. apply elem_of_app in Ht as [Ht | Ht].
    + destruct (G2 t Ht) as (k & vs & v0 & m1 & m2 & Hk & Hv0 & Hvt & Hor).
      destruct (decide (key = k)) as [-> | Hne].
      * exists k, (vs ++ [v])%list, v0, m1, m2. split_and!; try done.
        -- rewrite lookup_insert_eq, Hk. done.
        -- apply elem_of_app. by left.
      * exists k, vs, v0, m1, m2. split_and!; try done.
        by rewrite lookup_insert_ne.
    + exists key, (default [] (m !! key) ++ [v])%list, v, n1, n2. split_and!.
      * by rewrite lookup_insert_eq.
      * apply elem_of_app. right. by left.
      * done.
      * apply elem_of_cons in Ht as [-> | Ht]; [by left |].
        apply list_elem_of_singleton in Ht as ->. by right.
Qed.

Lemma clocked_vtimes (sh : shift) (w : (Z * Z) * (Z * Z)) (v : vshift) :
  valid_clock w.1 -> valid_clock w.2 ->
  v_start v = clock w.1.1 w.1.2 -> v_end v = clock w.2.1 w.2.2 ->
  vtimes v (minutes w.1) (minutes w.2).
Proof.
  intros H1 H2 Hs He. unfold vtimes. rewrite Hs, He.
  rewrite !time_to_y_clock by done.
  destruct H1 as [? ?], H2 as [? ?]. unfold day_minute, minutes. split_and!; try done; lia.
Qed.

Lemma group_loop_ok (viz : list shift) (ws : list ((Z * Z) * (Z * Z))) :
  Forall2 clocked viz ws ->
  forall m T, grouped m T ->
    exists m', group_loop viz m = Ok m' /\ grouped m' (T ++ window_minutes ws)%list.
Proof.
  induction 1 as [|sh w viz ws (Htw & Hv1 & Hv2) Hrest IH]; intros m T Hg.
  - exists m. simpl. by rewrite app_nil_r.
  - cbn [group_loop]. rewrite Htw, split_window_text by done.
    set (v := {| v_layer := sh_layer_name sh; v_start := clock w.1.1 w.1.2;
                 v_end := clock w.2.1 w.2.2; v_person := sh_person sh;
                 v_date := sh_date sh |}).
    assert (Hvt : vtimes v (minutes w.1) (minutes w.2)) by by apply (clocked_vtimes sh).
    destruct (IH _ _ (grouped_insert m T (Date.strftime_ymd (sh_date sh)) v _ _ Hg Hvt))
      as (m' & Hrun & Hg').
    exists m'. split; [exact Hrun |].
    unfold window_minutes in *. simpl. by rewrite <- app_assoc in Hg'.
Qed.

(** C8, as the code has it.  For a non-empty set of shifts to draw whose
    windows are clock times [HH:MM - HH:MM], the lower bound of the axis is
    the hour of the earliest start or end (its hour value floored) and the
    upper bound is the hour of the latest one plus one: the ceiling of its
    hour value when that is not a whole hour, one more than it otherwise. *)
Theorem axis_bounds_of_clock_windows (layer_shifts : list shift)
    (end_date : Date.datetime) (ws : list ((Z * Z) * (Z * Z))) :
  let viz_shifts := List.filter (fun sh => sh_date sh <? end_date) layer_shifts in
  viz_shifts <> [] ->
  Forall2 clocked viz_shifts ws ->
  exists lo hi : Z,
    lo ∈ window_minutes ws /\ hi ∈ window_minutes ws
    /\ (forall t, t ∈ window_minutes ws -> lo <= t <= hi)
    /\ axis_bounds layer_shifts end_date
       = Ok (Some (floor_hour lo, floor_hour hi + 1))
    /\ (hi mod 60 <> 0 -> floor_hour hi + 1 = ceil_hour hi)
    /\ (hi mod 60 = 0 -> floor_hour hi + 1 = ceil_hour hi + 1).
Proof.
  intros viz Hne Hclk. unfold ceil_hour, floor_hour.
  set (T := window_minutes ws).
  destruct (group_loop_ok viz ws Hclk ∅ [] grouped_empty) as (m & Hgroup & G1 & G2).
  simpl in G1, G2. fold T in G1, G2.
  destruct (times_of_dates_ok (fun t => t ∈ T) m (sorted_keys m) G1
              (fun k Hk => proj1 (elem_of_sorted_keys m k) Hk) [])
    as (l' & Htimes & Hall & Hin).
  assert (Hsub : forall t, t ∈ T -> t ∈ l').
  { intros t Ht. destruct (G2 t Ht) as (k & vs & v & n1 & n2 & Hk & Hv & Hvt & Hor).
    assert (Hkey : k ∈ sorted_keys m) by (apply elem_of_sorted_keys; eauto).
    destruct (Hin k vs v n1 n2 Hkey Hk Hv Hvt). by destruct Hor as [-> | ->]. }
  assert (HT : T <> []).
  { unfold T. destruct Hclk as [|sh w viz' ws' _ _]; [done |]. done. }
  assert (Hl' : l' <> []).
  { destruct T as [|t T'] eqn:ET; [done |].
    intros ->. specialize (Hsub t ltac:(by left)). by apply elem_of_nil in Hsub. }
  destruct (bounds_of_minutes l' Hl') as (lo & hi & Hlo & Hhi & Hbetween & Hbounds).
  { eapply Forall_impl; [exact Hall |]. by intros t [? _]. }
  rewrite Forall_forall in Hall.
  exists lo, hi. split_and!.
  - by apply Hall.
  - by apply Hall.
  - intros t Ht. by apply Hbetween, Hsub.
  - unfold axis_bounds. fold viz.
    destruct viz as [|sh viz'] eqn:Eviz; [done |].
    rewrite Hgroup. cbn [rbind]. rewrite Htimes. cbn [rbind].
    rewrite app_nil_l. exact Hbounds.
  - intros Hm.
    pose proof (Z.div_mod hi 60 ltac:(lia)). pose proof (Z.mod_pos_bound hi 60 ltac:(lia)).
    apply (Z.div_unique _ 60 _ (hi mod 60 - 1)); lia.
  - intros Hm.
    pose proof (Z.div_mod hi 60 ltac:(lia)).
    assert ((hi + 59) / 60 = hi / 60); [| lia].
    symmetry. apply (Z.div_unique _ 60 _ 59); lia.
Qed.

Lemma axis_bounds_of_clock_windows_witness :
  exists lo hi : Z,
    axis_bounds [one_shift "08:30 - 17:45"] (Date.ymd2ord 2026 1 7)
    = Ok (Some (floor_hour lo, floor_hour hi + 1))
    /\ forall t, t ∈ window_minutes [((8, 30), (17, 45))] -> lo <= t <= hi.
Proof.
  destruct (axis_bounds_of_clock_windows [one_shift "08:30 - 17:45"]
              (Date.ymd2ord 2026 1 7) [((8, 30), (17, 45))])
    as (lo & hi & _ & _ & H3 & H4 & _).
  - discriminate.
  - constructor; [| constructor].
    split; [reflexivity |]. split; split; simpl; lia.
  - exists lo, hi. split; [exact H4 | exact H3].
Defined.

(** C8, as stated, fails when the latest time is a whole hour: the shift
    below runs from 08:00 (minute 480) to 18:00 (minute 1080); the ceiling
    of the maximum is 18, and the upper bound is 19. *)
Lemma whole_hour_maximum_not_ceiled :
  clocked (one_shift "08:00 - 18:00") ((8, 0), (18, 0))
  /\ window_minutes [((8, 0), (18, 0))] = [480; 1080]
  /\ axis_bounds [one_shift "08:00 - 18:00"] (Date.ymd2ord 2026 1 7) = Ok (Some (8, 19))
  /\ axis_bounds [one_shift "08:00 - 18:00"] (Date.ymd2ord 2026 1 7)
     <> Ok (Some (floor_hour 480, ceil_hour 1080)).
Proof.
  split_and!.
  - split; [reflexivity |]. split; split; simpl; lia.
  - reflexivity.
  - vm_compute. reflexivity.
  - vm_compute. discriminate.
Qed.

(** * Further properties of the pipeline *)

(** ** Enumeration *)

(** The pairs a layer enumerates come in strictly increasing order of
    date; a pair [(d, n)] is enumerated exactly when [d] lies in
    [[start, end)], [n] is the name of its weekday, and some configured key
    lower-cases to [n]. *)
Theorem enumerated_dates_chronological (layer : layer_config)
    (start_date end_date : Date.datetime) :
  let dates := generate_dates_for_layer layer start_date end_date in
  StronglySorted (fun a b : Date.datetime * string => a.1 < b.1) dates
  /\ (forall d n,
        (d, n) ∈ dates <->
        start_date <= d < end_date
        /\ day_map !! n = Some (Date.weekday d)
        /\ exists key, Str.lower key = n /\
             match time_windows layer with
             | Some tw => is_Some (tw !! key)
             | None => key ∈ days layer
             end).
Proof.
  intros dates. split; [apply generate_dates_increasing |].
  intros d n. unfold dates.
  rewrite elem_of_generate_dates, active_weekdays_lookup. tauto.
Qed.

(** ** Dummy layers and the shifts of a schedule *)

Lemma entries_from_dummy_layer (layer_name : string) (team : list string)
    (tws : gmap string day_window) (old : day_window) (layer_idx : nat)
    (dates : list (Date.datetime * string)) :
  forall i, entries_from layer_name team true tws old layer_idx i dates = [].
Proof.
  induction dates as [|e dates IH]; intros i; [done |]. simpl.
  rewrite IH. unfold entry_shift.
  destruct (team !! (i mod length team)%nat); [| done].
  by destruct (day_times tws old e.2) as [[? ?] ?].
Qed.

(** A layer marked dummy as a whole appends nothing, whatever its team,
    its windows and the date range. *)
Theorem dummy_layer_no_shifts (start_date end_date : Date.datetime) (layer_idx : nat)
    (layer_id : string) (layer : layer_config) (acc : list shift) :
  dummy layer = true ->
  process_layer start_date end_date layer_idx layer_id layer acc = Ok acc.
Proof.
  intros Hd. destruct (rotation_team layer) as [|p team] eqn:Hteam.
  - by apply process_layer_no_team.
  - rewrite process_layer_entries by congruence.
    rewrite Hd, entries_from_dummy_layer. by rewrite app_nil_r.
Qed.





(** ** Sorting again *)

Lemma list_sort_of_sorted {A K : Type} (key : A -> K) (lt : K -> K -> bool)
    (l : list A) :
  StronglySorted (fun a b => lt (key b) (key a) = false) l ->
  list_sort key lt l = l.
Proof.
  induction 1 as [|x l Hs IH Hx]; [done |]. simpl. rewrite IH.
  destruct l as [|y l']; [done |]. simpl.
  apply Forall_cons in Hx as [Hy _]. by rewrite Hy.
Qed.

(** Sorting a schedule that is already sorted changes nothing: the sort is
    idempotent. *)
Theorem sort_shifts_idempotent (layer_shifts : list shift) :
  sort_shifts (sort_shifts layer_shifts) = sort_shifts layer_shifts.
Proof.
  unfold sort_shifts. apply list_sort_of_sorted.
  apply (list_sort_sorted shift_key key_lt key_lt_asym key_lt_negtrans).
Qed.

Lemma dummy_layer_no_shifts_witness :
  process_layer (Date.ymd2ord 2026 1 5) (Date.ymd2ord 2026 1 20) 0 "a"
    layer_whole_dummy [] = Ok [].
Proof.
  apply (dummy_layer_no_shifts (Date.ymd2ord 2026 1 5) (Date.ymd2ord 2026 1 20)
           0 "a" layer_whole_dummy [] eq_refl).
Defined.

(** ** Rotation without dummy flags *)

Lemma entries_from_no_dummy (layer_name : string) (team : list string)
    (tws : gmap string day_window) (old : day_window) (layer_idx : nat)
    (dates : list (Date.datetime * string)) :
  team <> [] ->
  (forall e, e ∈ dates -> (day_times tws old e.2).2 = false) ->
  forall i,
    entries_from layer_name team false tws old layer_idx i dates
    = entries_from layer_name team false (clear_window <$> tws) old layer_idx i dates.
Proof.
  intros Hne. induction dates as [|e dates IH]; intros Hd i; [done |]. simpl.
  rewrite IH by (intros e' He'; apply Hd; by right).
  destruct (entry_shift_clear layer_name team false tws old layer_idx Hne i e)
    as (s & -> & _ & _ & _ & ->).
  rewrite (Hd e) by by left. done.
Qed.

Lemma process_layer_no_dummy (start_date end_date : Date.datetime) (layer_idx : nat)
    (layer_id : string) (layer : layer_config) (out : list shift) :
  rotation_team layer <> [] -> no_dummy layer ->
  process_layer start_date end_date layer_idx layer_id layer [] = Ok out ->
  let dates := generate_dates_for_layer layer start_date end_date in
  length out = length dates
  /\ forall i e, dates !! i = Some e ->
       exists sh, out !! i = Some sh /\ sh_date sh = e.1
         /\ rotation_team layer !! (i mod length (rotation_team layer))%nat
            = Some (sh_person sh).
Proof.
  intros Hne [Hdl Hdd] Hrun dates.
  rewrite process_layer_entries in Hrun by done. injection Hrun as <-.
  rewrite Hdl.
  rewrite entries_from_no_dummy; [| done | intros e _; apply Hdd].
  split.
  - by apply (entries_clear_length _ _ false).
  - intros i e Hi.
    rewrite (entries_clear_lookup _ _ false _ _ _ Hne dates 0 i e Hi).
    destruct (entry_shift_clear (default layer_id (name layer)) (rotation_team layer)
                false (default ∅ (time_windows layer))
                (default empty_window (time_window layer)) layer_idx Hne i e)
      as (s & Hs & Hd & Hp & _).
    exists s. done.
Qed.

(** Without dummy flags a layer yields one shift per enumerated date, in
    the order of the dates, and the assignment is cyclic: the shifts at
    positions [i] and [i + len(team)] have the same person. *)
Theorem rotation_is_cyclic (start_date end_date : Date.datetime) (layer_idx : nat)
    (layer_id : string) (layer : layer_config) (out : list shift) :
  rotation_team layer <> [] -> no_dummy layer ->
  process_layer start_date end_date layer_idx layer_id layer [] = Ok out ->
  sh_date <$> out = fst <$> generate_dates_for_layer layer start_date end_date
  /\ forall i a b,
       out !! i = Some a -> out !! (i + length (rotation_team layer))%nat = Some b ->
       sh_person a = sh_person b.
Proof.
  intros Hne Hnd Hrun.
  destruct (process_layer_no_dummy _ _ _ _ _ _ Hne Hnd Hrun) as [Hlen Hpos].
  split.
  - apply list_eq. intros i. rewrite !list_lookup_fmap.
    destruct (generate_dates_for_layer layer start_date end_date !! i) as [e|] eqn:He.
    + destruct (Hpos i e He) as (sh & -> & Hd & _). simpl. by rewrite Hd.
    + apply lookup_ge_None in He. rewrite <- Hlen in He.
      apply lookup_ge_None in He. by rewrite He.
  - intros i a b Ha Hb.
    assert (Hia : is_Some (generate_dates_for_layer layer start_date end_date !! i)).
    { apply lookup_lt_is_Some. rewrite <- Hlen. by eapply lookup_lt_Some. }
    assert (Hib : is_Some (generate_dates_for_layer layer start_date end_date
                             !! (i + length (rotation_team layer))%nat)).
    { apply lookup_lt_is_Some. rewrite <- Hlen. by eapply lookup_lt_Some. }
    destruct Hia as [ea Hea], Hib as [eb Heb].
    destruct (Hpos _ _ Hea) as (sa & Hsa & _ & Hpa).
    destruct (Hpos _ _ Heb) as (sb & Hsb & _ & Hpb).
    assert (sa = a) as -> by congruence. assert (sb = b) as -> by congruence.
    assert (Hmod : ((i + length (rotation_team layer)) mod length (rotation_team layer)
                    = i mod length (rotation_team layer))%nat).
    { rewrite <- (Nat.mul_1_l (length (rotation_team layer))) at 1.
      apply Nat.Div0.mod_add. }
    rewrite Hmod in Hpb. congruence.
Qed.

Lemma rotation_is_cyclic_witness :
  exists out,
    process_layer (Date.ymd2ord 2026 1 5) (Date.ymd2ord 2026 2 5) 0 "a" layer_A [] = Ok out
    /\ forall i a b, out !! i = Some a -> out !! (i + 2)%nat = Some b ->
         sh_person a = sh_person b.
Proof.
  destruct (process_layer (Date.ymd2ord 2026 1 5) (Date.ymd2ord 2026 2 5) 0 "a" layer_A [])
    as [out|e] eqn:E; [| vm_compute in E; discriminate E].
  exists out. split; [reflexivity |].
  apply (rotation_is_cyclic (Date.ymd2ord 2026 1 5) (Date.ymd2ord 2026 2 5) 0 "a"
           layer_A out).
  - discriminate.
  - split; [reflexivity |]. intros day_name. unfold is_dummy_day, day_times. simpl.
    destruct (decide (day_name = "monday")) as [-> | Hne].
    + reflexivity.
    + rewrite lookup_singleton_ne by congruence. reflexivity.
  - exact E.
Defined.

(** ** Fairness of the rotation *)

Lemma count_residue_step (k j n : nat) :
  (j < k)%nat ->
  ((S n + k - 1 - j) / k
   = (n + k - 1 - j) / k + (if decide (n mod k = j) then 1 else 0))%nat.
Proof.
  intros Hj.
  pose proof (Nat.div_mod_eq n k) as Hn.
  pose proof (Nat.mod_upper_bound n k ltac:(lia)) as Hr.
  set (q := (n / k)%nat) in *. set (r := (n mod k)%nat) in *.
  destruct (decide (r = j)) as [Hrj | Hrj].
  - rewrite <- (Nat.div_unique (S n + k - 1 - j) k (q + 1) 0) by (try lia; nia).
    rewrite <- (Nat.div_unique (n + k - 1 - j) k q (k - 1)) by (try lia; nia). lia.
  - destruct (decide (r < j)%nat).
    + rewrite <- (Nat.div_unique (S n + k - 1 - j) k q (r + k - j)) by (try lia; nia).
      rewrite <- (Nat.div_unique (n + k - 1 - j) k q (r + k - 1 - j)) by (try lia; nia). lia.
    + rewrite <- (Nat.div_unique (S n + k - 1 - j) k (q + 1) (r - j)) by (try lia; nia).
      rewrite <- (Nat.div_unique (n + k - 1 - j) k (q + 1) (r - j - 1)) by (try lia; nia).
      lia.
Qed.

Lemma count_residue (k j n : nat) :
  (j < k)%nat ->
  length (filter (fun i => (i mod k)%nat = j) (seq 0 n)) = ((n + k - 1 - j) / k)%nat.
Proof.
  intros Hj. induction n as [|n IH].
  - simpl. symmetry. apply Nat.div_small. lia.
  - rewrite seq_S, filter_app, length_app, IH, count_residue_step by done.
    simpl. rewrite filter_cons, filter_nil. by destruct (decide (n mod k = j)%nat).
Qed.

Lemma filter_fmap_length {A B : Type} (f : A -> B) (P : B -> Prop)
    `{forall x, Decision (P x)} (l : list A) :
  length (filter P (f <$> l)) = length (filter (fun x => P (f x)) l).
Proof.
  induction l as [|x l IH]; [done |]. rewrite fmap_cons, !filter_cons.
  destruct (decide (P (f x))); simpl; by rewrite IH.
Qed.

(** Without dummy flags and with a team of distinct members, the member at
    index [j] of a team of [k] gets [(n + k - 1 - j) / k] of the [n]
    enumerated dates: the shares of two members differ by one at most, the
    earlier members getting the extra shift. *)
Theorem rotation_is_fair (start_date end_date : Date.datetime) (layer_idx : nat)
    (layer_id : string) (layer : layer_config) (out : list shift)
    (j : nat) (p : string) :
  NoDup (rotation_team layer) -> no_dummy layer ->
  rotation_team layer !! j = Some p ->
  process_layer start_date end_date layer_idx layer_id layer [] = Ok out ->
  let n := length (generate_dates_for_layer layer start_date end_date) in
  let k := length (rotation_team layer) in
  length (filter (fun sh => sh_person sh = p) out) = ((n + k - 1 - j) / k)%nat
  /\ (n / k <= (n + k - 1 - j) / k <= n / k + 1)%nat.
Proof.
  intros Hnd Hno Hj Hrun n k.
  assert (Hne : rotation_team layer <> []) by (intros E; by rewrite E in Hj).
  assert (Hjk : (j < k)%nat) by by eapply lookup_lt_Some.
  destruct (process_layer_no_dummy _ _ _ _ _ _ Hne Hno Hrun) as [Hlen Hpos].
  fold n k in Hlen, Hpos. split.
  - rewrite <- (count_residue k j n Hjk).
    assert (Hpersons : sh_person <$> out
              = (fun i => default "" (rotation_team layer !! (i mod k)%nat)) <$> seq 0 n).
    { apply list_eq. intros i. rewrite !list_lookup_fmap.
      destruct (decide (i < n)%nat) as [Hi | Hi].
      - rewrite lookup_seq_lt by done. simpl.
        destruct (lookup_lt_is_Some_2
                    (generate_dates_for_layer layer start_date end_date) i Hi) as [e He].
        destruct (Hpos i e He) as (sh & -> & _ & ->). done.
      - rewrite lookup_seq_ge by lia. simpl.
        rewrite (proj2 (lookup_ge_None out i)) by lia. done. }
    transitivity (length (filter (fun q => q = p) (sh_person <$> out))).
    { by rewrite filter_fmap_length. }
    rewrite Hpersons, filter_fmap_length. f_equal.
    apply list_filter_iff. intros i. simpl.
    destruct (lookup_lt_is_Some_2 (rotation_team layer) (i mod k)%nat
                ltac:(apply Nat.mod_upper_bound; lia)) as [q Hq].
    rewrite Hq. simpl. split.
    + intros ->. eapply NoDup_lookup; eauto.
    + intros Hi. rewrite Hi in Hq. congruence.
  - split.
    + apply Nat.Div0.div_le_mono. lia.
    + transitivity ((n + 1 * k) / k)%nat; [apply Nat.Div0.div_le_mono; lia |].
      rewrite Nat.div_add by lia. lia.
Qed.

Lemma rotation_is_fair_witness :
  exists out,
    process_layer (Date.ymd2ord 2026 1 5) (Date.ymd2ord 2026 1 20) 0 "a" layer_A [] = Ok out
    /\ length (filter (fun sh => sh_person sh = "Alice") out)
       = ((length (generate_dates_for_layer layer_A (Date.ymd2ord 2026 1 5)
                     (Date.ymd2ord 2026 1 20)) + 2 - 1 - 0) / 2)%nat.
Proof.
  destruct (process_layer (Date.ymd2ord 2026 1 5) (Date.ymd2ord 2026 1 20) 0 "a" layer_A [])
    as [out|e] eqn:E; [| vm_compute in E; discriminate E].
  exists out. split; [reflexivity |].
  apply (rotation_is_fair (Date.ymd2ord 2026 1 5) (Date.ymd2ord 2026 1 20) 0 "a"
           layer_A out 0%nat "Alice").
  - apply (bool_decide_unpack _). vm_compute. exact I.
  - split; [reflexivity |]. intros day_name. unfold is_dummy_day, day_times. simpl.
    destruct (decide (day_name = "monday")) as [-> | Hne].
    + reflexivity.
    + rewrite lookup_singleton_ne by congruence. reflexivity.
  - reflexivity.
  - exact E.
Defined.

(** ** The rows of the workbook *)

Example sheet_rows_two_dates :
  match sheet_rows [one_shift "08:00 - 10:30"; one_shift "10:30 - 13:00";
                    {| sh_date := Date.ymd2ord 2026 1 6; sh_layer_name := "Layer B";
                       sh_time_window := "08:00 - 10:30"; sh_person := "Carol";
                       sh_layer_idx := 1 |}] with
  | Ok (rows, row, _, _) => (map r_row rows, row)
  | Raise _ => ([], 0)
  end = ([7; 8; 10], 11).
Proof. vm_compute. reflexivity. Qed.

Example oncall_formula_7 :
  oncall_formula 7
  = "=IF(AND(NOW()>=A7+C7,NOW()<=A7+D7)," ++ dq ++ "On-Call" ++ dq ++ "," ++ dq ++ dq ++ ")".
Proof. reflexivity. Qed.

(** The row a shift is written to, seen from the state of the loop. *)
Lemma rows_loop_spec (shifts : list shift) :
  forall (row : Z) (cd : option Date.datetime) (pc : gmap string string) (idx : nat)
         (rows : list sheet_row),
  exists (new : list sheet_row) (row' : Z) (pc' : gmap string string) (idx' : nat),
    rows_loop shifts row cd pc idx rows = Ok ((rows ++ new)%list, row', pc', idx')
    /\ color_loop shifts pc idx = Ok (pc', idx')
    /\ pc ⊆ pc'
    /\ length new = length shifts
    /\ (forall i sh, shifts !! i = Some sh ->
          exists r, new !! i = Some r
            /\ r_date r = sh_date sh /\ r_day r = weekday_name (sh_date sh)
            /\ r_start r = shift_start sh /\ r_end r = shift_end sh
            /\ r_person r = sh_person sh
            /\ r_hours r = hours_formula (r_row r)
            /\ r_status r = oncall_formula (r_row r)
            /\ pc' !! sh_person sh = Some (r_fill r))
    /\ (forall r, new !! 0%nat = Some r ->
          r_row r = match cd with
                    | Some d => if bool_decide (d = r_date r) then row else row + 1
                    | None => row
                    end)
    /\ (forall i r1 r2, new !! i = Some r1 -> new !! S i = Some r2 ->
          r_row r2 = r_row r1 + (if bool_decide (r_date r1 = r_date r2) then 1 else 2))
    /\ row' = match last new with Some r => r_row r + 1 | None => row end.
Proof.
  induction shifts as [|sh shifts IH]; intros row cd pc idx rows.
  - exists [], row, pc, idx. rewrite app_nil_r. split_and!; try done.
  - cbn [rows_loop color_loop]. cbv zeta.
    set (row0 := match cd with
                 | Some d => if bool_decide (d <> sh_date sh) then row + 1 else row
                 | None => row
                 end).
    assert (Hstep : exists pc1 idx1 c,
               match pc !! sh_person sh with
               | Some _ => Ok (pc, idx)
               | None =>
                   let* k := py_mod idx (length colors) in
                   let* c := py_index colors k in
                   Ok (<[sh_person sh := c]> pc, S idx)
               end = Ok (pc1, idx1)
               /\ pc1 !! sh_person sh = Some c /\ pc ⊆ pc1
               /\ color_loop shifts pc1 idx1
                  = match pc !! sh_person sh with
                    | Some _ => color_loop shifts pc idx
                    | None =>
                        let* k := py_mod idx (length colors) in
                        let* c := py_index colors k in
                        color_loop shifts (<[sh_person sh := c]> pc) (S idx)
                    end).
    { destruct (pc !! sh_person sh) as [c0|] eqn:E.
      - exists pc, idx, c0. done.
      - rewrite py_mod_pos by (simpl; lia). cbn [rbind].
        destruct (colors_lookup_mod idx) as [c Hc].
        unfold py_index. rewrite Hc. cbn [rbind].
        exists (<[sh_person sh := c]> pc), (S idx), c. split_and!; try done.
        + by rewrite lookup_insert_eq.
        + by apply insert_subseteq. }
    destruct Hstep as (pc1 & idx1 & c & -> & Hc & Hsub & Hcol). cbn [rbind].
    rewrite Hc. cbn [rbind]. rewrite <- Hcol.
    set (r := {| r_row := row0; r_date := sh_date sh; r_day := weekday_name (sh_date sh);
                 r_start := shift_start sh; r_end := shift_end sh;
                 r_hours := hours_formula row0; r_person := sh_person sh;
                 r_status := oncall_formula row0; r_fill := c |}).
    destruct (IH (row0 + 1) (Some (sh_date sh)) pc1 idx1 (rows ++ [r])%list)
      as (new & row' & pc' & idx' & Hrun & Hcl & Hsub' & Hlen & Hcells & Hfirst
          & Hnext & Hrow').
    exists (r :: new), row', pc', idx'.
    split_and!.
    + rewrite Hrun. by rewrite <- app_assoc.
    + done.
    + by etrans.
    + simpl. by rewrite Hlen.
    + intros [|i] sh' Hi.
      * injection Hi as <-. exists r. split_and!; try done.
        by eapply lookup_weaken.
      * by apply Hcells.
    + intros r' Hr'. injection Hr' as <-. simpl. unfold row0.
      destruct cd as [d|]; [| done].
      destruct (decide (d = sh_date sh)) as [Hd | Hd].
      * rewrite (bool_decide_eq_true_2 (d = sh_date sh)) by done.
        rewrite (bool_decide_eq_false_2 (d <> sh_date sh)) by (intros Hn; by apply Hn).
        done.
      * rewrite (bool_decide_eq_false_2 (d = sh_date sh)) by done.
        by rewrite (bool_decide_eq_true_2 (d <> sh_date sh)) by done.
    + intros [|i] r1 r2 H1 H2.
      * injection H1 as <-. simpl in H2. rewrite (Hfirst r2 H2). simpl.
        destruct (bool_decide (sh_date sh = r_date r2)); lia.
      * by apply (Hnext i).
    + rewrite Hrow'. destruct new as [|r' new']; [done |].
      change (last (r :: r' :: new')) with (last (r' :: new')).
      destruct (last (r' :: new')) eqn:El; [done |]. by apply last_None in El.
Qed.

Lemma sheet_rows_inv (shifts : list shift) :
  exists (rows : list sheet_row) (row : Z) (pc : gmap string string) (idx : nat),
    sheet_rows shifts = Ok (rows, row, pc, idx)
    /\ color_loop shifts ∅ 0 = Ok (pc, idx)
    /\ length rows = length shifts
    /\ (forall i sh, shifts !! i = Some sh ->
          exists r, rows !! i = Some r
            /\ r_date r = sh_date sh /\ r_day r = weekday_name (sh_date sh)
            /\ r_start r = shift_start sh /\ r_end r = shift_end sh
            /\ r_person r = sh_person sh
            /\ r_hours r = hours_formula (r_row r)
            /\ r_status r = oncall_formula (r_row r)
            /\ pc !! sh_person sh = Some (r_fill r))
    /\ (forall r, rows !! 0%nat = Some r -> r_row r = start_data_row)
    /\ (forall i r1 r2, rows !! i = Some r1 -> rows !! S i = Some r2 ->
          r_row r2 = r_row r1 + (if bool_decide (r_date r1 = r_date r2) then 1 else 2))
    /\ row = match last rows with Some r => r_row r + 1 | None => start_data_row end.
Proof.
  unfold sheet_rows.
  destruct (rows_loop_spec shifts start_data_row None ∅ 0 [])
    as (new & row & pc & idx & Hrun & Hcol & _ & Hlen & Hcells & Hfirst & Hnext & Hrow).
  exists new, row, pc, idx. rewrite app_nil_l in Hrun. done.
Qed.

Lemma fmap_eq_by_lookup {A B C : Type} (f : A -> C) (g : B -> C) (l : list A) (k : list B) :
  length l = length k ->
  (forall i b, k !! i = Some b -> exists a, l !! i = Some a /\ f a = g b) ->
  f <$> l = g <$> k.
Proof.
  intros Hlen H. apply list_eq. intros i. rewrite !list_lookup_fmap.
  destruct (k !! i) as [b|] eqn:Hb.
  - destruct (H i b Hb) as (a & -> & Ha). simpl. by rewrite Ha.
  - apply lookup_ge_None in Hb. rewrite <- Hlen in Hb.
    apply lookup_ge_None in Hb. by rewrite Hb.
Qed.

(** The row loop never fails: the colour it looks up for a person has just
    been given, and the palette index is always in range.  It writes one
    row per shift, in the order of the shifts, with the date, the English
    name of the weekday, the person and the two formulas of the row; the
    colours it leaves in [person_colors] are those of the colour loop. *)
Theorem sheet_rows_follow_shifts (layer_shifts : list shift) :
  exists (rows : list sheet_row) (row : Z) (person_colors : gmap string string)
         (color_idx : nat),
    sheet_rows layer_shifts = Ok (rows, row, person_colors, color_idx)
    /\ color_loop layer_shifts ∅ 0 = Ok (person_colors, color_idx)
    /\ r_date <$> rows = sh_date <$> layer_shifts
    /\ r_person <$> rows = sh_person <$> layer_shifts
    /\ r_start <$> rows = shift_start <$> layer_shifts
    /\ r_end <$> rows = shift_end <$> layer_shifts
    /\ Forall (fun r => r_day r = weekday_name (r_date r)
                        /\ r_hours r = hours_formula (r_row r)
                        /\ r_status r = oncall_formula (r_row r)) rows.
Proof.
  destruct (sheet_rows_inv layer_shifts)
    as (rows & row & pc & idx & Hrun & Hcol & Hlen & Hcells & _).
  exists rows, row, pc, idx. split_and!; try done.
  - apply fmap_eq_by_lookup; [done |]. intros i sh Hi.
    destruct (Hcells i sh Hi) as (r & Hr & H1 & _). eauto.
  - apply fmap_eq_by_lookup; [done |]. intros i sh Hi.
    destruct (Hcells i sh Hi) as (r & Hr & _ & _ & _ & _ & H1 & _). eauto.
  - apply fmap_eq_by_lookup; [done |]. intros i sh Hi.
    destruct (Hcells i sh Hi) as (r & Hr & _ & _ & H1 & _). eauto.
  - apply fmap_eq_by_lookup; [done |]. intros i sh Hi.
    destruct (Hcells i sh Hi) as (r & Hr & _ & _ & _ & H1 & _). eauto.
  - apply Forall_lookup. intros i r Hr.
    destruct (lookup_lt_is_Some_2 layer_shifts i) as [sh Hsh].
    { rewrite <- Hlen. by eapply lookup_lt_Some. }
    destruct (Hcells i sh Hsh) as (r' & Hr' & H1 & H2 & _ & _ & _ & H3 & H4 & _).
    assert (r' = r) as -> by congruence. rewrite H1. done.
Qed.

Lemma rows_increasing (rows : list sheet_row) :
  (forall i r1 r2, rows !! i = Some r1 -> rows !! S i = Some r2 ->
     r_row r1 < r_row r2) ->
  forall (k i : nat) r1 r2, rows !! i = Some r1 -> rows !! (i + S k)%nat = Some r2 ->
    r_row r1 < r_row r2.
Proof.
  intros Hstep. induction k as [|k IH]; intros i r1 r2 H1 H2.
  - apply (Hstep i); [done |]. by replace (S i) with (i + 1)%nat by lia.
  - destruct (lookup_lt_is_Some_2 rows (i + S k)%nat) as [rm Hm].
    { apply lookup_lt_Some in H2. lia. }
    specialize (IH i r1 rm H1 Hm).
    assert (r_row rm < r_row r2); [| lia].
    apply (Hstep (i + S k)%nat); [done |].
    by replace (S (i + S k)) with (i + S (S k))%nat by lia.
Qed.

(** The first shift goes to row 7.  A shift goes to the row after the
    previous one when both have the same date, and one row further, leaving
    a blank row, when the date changes; so no two shifts share a row.  The
    counter ends one past the last row written. *)
Theorem sheet_rows_numbering (layer_shifts : list shift) (rows : list sheet_row)
    (row : Z) (person_colors : gmap string string) (color_idx : nat) :
  sheet_rows layer_shifts = Ok (rows, row, person_colors, color_idx) ->
  (forall r, rows !! 0%nat = Some r -> r_row r = 7)
  /\ (forall i r1 r2, rows !! i = Some r1 -> rows !! S i = Some r2 ->
        r_row r2 = r_row r1 + (if bool_decide (r_date r1 = r_date r2) then 1 else 2))
  /\ (forall i j r1 r2, (i < j)%nat -> rows !! i = Some r1 -> rows !! j = Some r2 ->
        r_row r1 < r_row r2)
  /\ row = match last rows with Some r => r_row r + 1 | None => 7 end.
Proof.
  intros Hrun.
  destruct (sheet_rows_inv layer_shifts)
    as (rows' & row' & pc & idx & Hrun' & _ & _ & _ & Hfirst & Hnext & Hrow).
  rewrite Hrun in Hrun'. injection Hrun' as <- <- <- <-.
  split_and!; try done.
  intros i j r1 r2 Hij H1 H2.
  replace j with (i + S (j - i - 1))%nat in H2 by lia.
  apply (rows_increasing rows) with (k := (j - i - 1)%nat) (i := i); try done.
  intros i' a b Ha Hb. rewrite (Hnext i' a b Ha Hb).
  destruct (bool_decide (r_date a = r_date b)); lia.
Qed.

Lemma sheet_rows_numbering_witness :
  exists rows row person_colors color_idx,
    sheet_rows [one_shift "08:00 - 10:30"; one_shift "10:30 - 13:00"]
    = Ok (rows, row, person_colors, color_idx)
    /\ (forall r, rows !! 0%nat = Some r -> r_row r = 7)
    /\ row = match last rows with Some r => r_row r + 1 | None => 7 end.
Proof.
  destruct (sheet_rows [one_shift "08:00 - 10:30"; one_shift "10:30 - 13:00"])
    as [[[[rows row] pc] idx]|e] eqn:E; [| vm_compute in E; discriminate E].
  exists rows, row, pc, idx. split; [reflexivity |].
  destruct (sheet_rows_numbering _ rows row pc idx E) as (H1 & _ & _ & H4).
  split; [exact H1 | exact H4].
Defined.

(** ** Fill colours *)

Lemma color_loop_palette (shifts : list shift) :
  forall (pc : gmap string string) (idx : nat) (pc' : gmap string string) (idx' : nat),
    color_loop shifts pc idx = Ok (pc', idx') ->
    (forall p c, pc !! p = Some c -> c ∈ colors) ->
    forall p c, pc' !! p = Some c -> c ∈ colors.
Proof.
  induction shifts as [|sh shifts IH]; intros pc idx pc' idx' Hrun Hpc.
  - injection Hrun as <- <-. done.
  - cbn [color_loop] in Hrun.
    destruct (pc !! sh_person sh) as [c0|] eqn:E; [by eapply IH |].
    rewrite py_mod_pos in Hrun by (simpl; lia). cbn [rbind] in Hrun.
    destruct (colors_lookup_mod idx) as [c Hc].
    unfold py_index in Hrun. rewrite Hc in Hrun. cbn [rbind] in Hrun.
    eapply IH; [exact Hrun |].
    intros p c1 Hp. destruct (decide (p = sh_person sh)) as [-> | Hne].
    + rewrite lookup_insert_eq in Hp. injection Hp as <-.
      by eapply list_elem_of_lookup_2.
    + rewrite lookup_insert_ne in Hp by done. by eapply Hpc.
Qed.

(** Every row is filled with the colour that [person_colors] holds for its
    person at the end of the loop: a colour, once given, is never changed,
    so all the rows of one person have the same fill, and that fill is a
    colour of the palette. *)
Theorem sheet_rows_fill_by_person (layer_shifts : list shift) (rows : list sheet_row)
    (row : Z) (person_colors : gmap string string) (color_idx : nat) :
  sheet_rows layer_shifts = Ok (rows, row, person_colors, color_idx) ->
  (forall r, r ∈ rows ->
     person_colors !! r_person r = Some (r_fill r) /\ r_fill r ∈ colors)
  /\ (forall r1 r2, r1 ∈ rows -> r2 ∈ rows -> r_person r1 = r_person r2 ->
        r_fill r1 = r_fill r2).
Proof.
  intros Hrun.
  destruct (sheet_rows_inv layer_shifts)
    as (rows' & row' & pc & idx & Hrun' & Hcol & Hlen & Hcells & _).
  rewrite Hrun in Hrun'. injection Hrun' as <- <- <- <-.
  assert (Hfill : forall r, r ∈ rows -> person_colors !! r_person r = Some (r_fill r)).
  { intros r Hr. apply list_elem_of_lookup in Hr as [i Hi].
    destruct (lookup_lt_is_Some_2 layer_shifts i) as [sh Hsh].
    { rewrite <- Hlen. by eapply lookup_lt_Some. }
    destruct (Hcells i sh Hsh) as (r' & Hr' & _ & _ & _ & _ & Hp & _ & _ & Hf).
    assert (r' = r) as -> by congruence. by rewrite Hp. }
  split.
  - intros r Hr. split; [by apply Hfill |].
    eapply (color_loop_palette layer_shifts ∅ 0); [exact Hcol | | by apply Hfill].
    intros p c Hp. by rewrite lookup_empty in Hp.
  - intros r1 r2 H1 H2 Hp. apply Hfill in H1, H2. rewrite Hp in H1. congruence.
Qed.

Lemma sheet_rows_fill_by_person_witness :
  exists rows row person_colors color_idx,
    sheet_rows [one_shift "08:00 - 10:30"; one_shift "10:30 - 13:00"]
    = Ok (rows, row, person_colors, color_idx)
    /\ forall r, r ∈ rows ->
         person_colors !! r_person r = Some (r_fill r) /\ r_fill r ∈ colors.
Proof.
  destruct (sheet_rows [one_shift "08:00 - 10:30"; one_shift "10:30 - 13:00"])
    as [[[[rows row] pc] idx]|e] eqn:E; [| vm_compute in E; discriminate E].
  exists rows, row, pc, idx. split; [reflexivity |].
  exact (proj1 (sheet_rows_fill_by_person _ rows row pc idx E)).
Defined.

(** ** The times shown in a row *)





(** ** The dates of the command line *)

Lemma lower_strip_nonempty (s t : string) :
  Str.lower (Str.strip s) = String "+" t -> truthy (Some s) = Some s.
Proof. destruct s; [discriminate | reflexivity]. Qed.

Lemma resolve_option_ok (now : Date.datetime) (label text : string)
    (reference : option Date.datetime) (d : Date.datetime) :
  parse_date_argument now text reference = Ok d ->
  resolve_option now label text reference
  = ([Printed ("  " ++ label ++ ": " ++ Date.strftime_ymd d ++ " (" ++ text ++ ")")],
     Goes d).
Proof. intros H. unfold resolve_option. by rewrite H. Qed.

(** A relative [--end-date] of [N] days, [N] written with 4300 digits at
    most, counts from the start date when [--start-date] is given, whatever
    the current date, and from the current date when it is not: the start
    date of the configuration file plays no part in it. *)
Theorem end_date_counts_from_start (now : Date.datetime) (args : cli_args)
    (e ds : string) :
  arg_end_date args = Some e ->
  ds <> "" -> all_chars Str.isdigit ds = true ->
  Z.of_nat (String.length ds) <= Str.MAX_STR_DIGITS ->
  Str.lower (Str.strip e) = "+" ++ ds ++ "d" ->
  let n := Str.int_of_digits ds in
  (forall s d,
     arg_start_date args = Some s -> s <> "" ->
     parse_date_argument now s None = Ok d ->
     0 < d -> d + n <= Date.MAXORDINAL ->
     main_dates now args
     = ([Printed ("  Start date: " ++ Date.strftime_ymd d ++ " (" ++ s ++ ")");
         Printed ("  End date: " ++ Date.strftime_ymd (d + n) ++ " (" ++ e ++ ")")],
        Goes (Some d, Some (d + n))))
  /\ (truthy (arg_start_date args) = None ->
      0 < now -> now + n <= Date.MAXORDINAL ->
      main_dates now args
      = ([Printed ("  End date: " ++ Date.strftime_ymd (now + n) ++ " (" ++ e ++ ")")],
         Goes (None, Some (now + n)))).
Proof.
  intros He Hne Hd Hlen Ht n.
  assert (Hte : truthy (Some e) = Some e) by by eapply (lower_strip_nonempty e).
  assert (Hrel : forall ref, 0 < ref -> ref + n <= Date.MAXORDINAL ->
            parse_date_argument now e (Some ref) = Ok (ref + n)).
  { intros ref H1 H2.
    rewrite (parse_relative now e (Some ref) ds "d" Hne Hd)
      by (by repeat first [left | right] || done).
    simpl. by apply add_days_in_range; [apply int_of_digits_nonneg | |]. }
  split.
  - intros s d Hs Hsne Hp H1 H2. unfold main_dates. rewrite Hs, He, Hte.
    assert (truthy (Some s) = Some s) as -> by (by destruct s).
    rewrite (resolve_option_ok _ _ _ _ d Hp). simpl.
    by rewrite (resolve_option_ok _ _ _ _ (d + n) (Hrel d H1 H2)).
  - intros Hs H1 H2. unfold main_dates. rewrite Hs, He, Hte. simpl.
    by rewrite (resolve_option_ok _ _ _ _ (now + n) (Hrel now H1 H2)).
Qed.

Lemma end_date_counts_from_start_witness :
  main_dates 1 {| arg_config := "team.yaml"; arg_start_date := Some "2026-02-01";
                  arg_end_date := Some "+14d"; arg_generate_ics := false |}
  = ([Printed "  Start date: 2026-02-01 (2026-02-01)";
      Printed "  End date: 2026-02-15 (+14d)"],
     Goes (Some (Date.ymd2ord 2026 2 1), Some (Date.ymd2ord 2026 2 15))).
Proof.
  apply (proj1 (end_date_counts_from_start 1
                  {| arg_config := "team.yaml"; arg_start_date := Some "2026-02-01";
                     arg_end_date := Some "+14d"; arg_generate_ics := false |}
                  "+14d" "14" eq_refl ltac:(discriminate) eq_refl
                  ltac:(vm_compute; discriminate) eq_refl)
           "2026-02-01" (Date.ymd2ord 2026 2 1) eq_refl ltac:(discriminate) eq_refl).
  - vm_compute. reflexivity.
  - vm_compute. discriminate.
Defined.

(** ** Dates out of range *)

Lemma add_days_overflow (d n : Z) :
  0 <= n -> Date.MAXORDINAL < d + n ->
  exists msg,
    (let* delta := Date.timedelta_days n in Date.add_days d delta)
    = Raise (OverflowError msg).
Proof.
  intros Hn Hmax. unfold Date.timedelta_days, Date.add_days, Date.MAXORDINAL in *.
  destruct (Z.leb_spec (Z.abs n) 999999999).
  - cbn [rbind]. destruct (Z.ltb_spec 0 (d + n)); cbn [andb]; [| eauto].
    destruct (Z.leb_spec (d + n) 3652059); [lia | eauto].
  - destruct ((-2147483648 <=? n) && (n <=? 2147483647)); cbn [rbind]; eauto.
Qed.

Lemma replace_year_out_of_range (y m d : Z) :
  Date.MAXYEAR < y <= 2147483647 ->
  Date.replace_ymd y m d
  = Raise (ValueError ("year " ++ Str.of_int y ++ " is out of range")).
Proof.
  intros Hy. unfold Date.replace_ymd, Date.make, Date.MAXYEAR, Date.MINYEAR in *.
  destruct (Z.leb_spec (- 2 ^ 63) y); [| lia].
  destruct (Z.ltb_spec y (2 ^ 63)); [| lia]. cbn [andb negb].
  destruct (Z.ltb_spec 2147483647 y); [lia |].
  destruct (Z.ltb_spec y (-2147483648)); [lia |].
  destruct (Z.leb_spec 1 y); [| lia].
  destruct (Z.leb_spec y 9999); [lia | done].
Qed.

Lemma replace_year_overflow (y m d : Z) :
  2147483647 < y -> exists msg, Date.replace_ymd y m d = Raise (OverflowError msg).
Proof.
  intros Hy. unfold Date.replace_ymd.
  destruct (negb _); [eauto |].
  destruct (Z.ltb_spec 2147483647 y); [eauto | lia].
Qed.

(** How [main] ends on a relative [--start-date] that cannot be resolved.
    An amount of more than 4300 digits makes [int] raise [ValueError], which
    [main] reports before it returns 1.  Otherwise a number of days or
    weeks that leads past 9999-12-31 raises [OverflowError], which [main]
    does not catch; a number of months or years that leads to a year from
    10000 to 2147483647 raises [ValueError], reported as a year out of
    range before [main] returns 1, and one that leads to a later year
    raises [OverflowError], which [main] does not catch. *)
Theorem date_overflow_handling (now : Date.datetime) (args : cli_args) (s ds : string) :
  arg_start_date args = Some s ->
  ds <> "" -> all_chars Str.isdigit ds = true ->
  let n := Str.int_of_digits ds in
  let len := Z.of_nat (String.length ds) in
  let t := Str.lower (Str.strip s) in
  (forall u, u ∈ [""; "d"; "w"; "m"; "y"] -> t = "+" ++ ds ++ u ->
     Str.MAX_STR_DIGITS < len ->
     main_dates now args
     = ([Printed ("Error: " ++ Str.digit_limit_message len)], Returns 1))
  /\ (t = "+" ++ ds ++ "d" -> len <= Str.MAX_STR_DIGITS -> Date.MAXORDINAL < now + n ->
     exists msg, main_dates now args = ([], Escapes (OverflowError msg)))
  /\ (t = "+" ++ ds ++ "w" -> len <= Str.MAX_STR_DIGITS -> Date.MAXORDINAL < now + 7 * n ->
     exists msg, main_dates now args = ([], Escapes (OverflowError msg)))
  /\ (t = "+" ++ ds ++ "m" -> len <= Str.MAX_STR_DIGITS ->
      let y := Date.year now + (Date.month now - 1 + n) / 12 in
      (Date.MAXYEAR < y <= 2147483647 ->
       main_dates now args
       = ([Printed ("Error: year " ++ Str.of_int y ++ " is out of range")], Returns 1))
      /\ (2147483647 < y ->
          exists msg, main_dates now args = ([], Escapes (OverflowError msg))))
  /\ (t = "+" ++ ds ++ "y" -> len <= Str.MAX_STR_DIGITS ->
      let y := Date.year now + n in
      (Date.MAXYEAR < y <= 2147483647 ->
       main_dates now args
       = ([Printed ("Error: year " ++ Str.of_int y ++ " is out of range")], Returns 1))
      /\ (2147483647 < y ->
          exists msg, main_dates now args = ([], Escapes (OverflowError msg)))).
Proof.
  intros Hs Hne Hd n len t.
  pose proof (int_of_digits_nonneg ds Hd) as Hn. fold n in Hn.
  assert (Hposs : forall u, t = "+" ++ ds ++ u -> truthy (Some s) = Some s).
  { intros u Hu. by eapply (lower_strip_nonempty s). }
  split_and!.
  - intros u Hu Ht Hlen. unfold main_dates, resolve_option. rewrite Hs, (Hposs _ Ht).
    by rewrite (parse_relative_too_long now s None ds u Hne Hd Hu Ht Hlen).
  - intros Ht Hlen Hmax. unfold main_dates, resolve_option. rewrite Hs, (Hposs _ Ht).
    rewrite (parse_relative now s None ds "d" Hne Hd)
      by (by repeat first [left | right] || done).
    simpl. fold n. destruct (add_days_overflow now n Hn Hmax) as [msg ->]. eauto.
  - intros Ht Hlen Hmax. unfold main_dates, resolve_option. rewrite Hs, (Hposs _ Ht).
    rewrite (parse_relative now s None ds "w" Hne Hd)
      by (by repeat first [left | right] || done).
    simpl. fold n. unfold Date.timedelta_weeks.
    destruct (add_days_overflow now (7 * n) ltac:(lia) Hmax) as [msg ->]. eauto.
  - intros Ht Hlen y.
    assert (Hrun : parse_date_argument now s None
                   = Date.replace_ymd y ((Date.month now - 1 + n) mod 12 + 1)
                       (Z.min (Date.days_in_month y ((Date.month now - 1 + n) mod 12 + 1))
                          (Date.day now))).
    { rewrite (parse_relative now s None ds "m" Hne Hd)
        by (by repeat first [left | right] || done).
      simpl. fold n. by rewrite add_months_closed_form by done. }
    split.
    + intros Hy. unfold main_dates, resolve_option. rewrite Hs, (Hposs _ Ht), Hrun.
      by rewrite replace_year_out_of_range by done.
    + intros Hy. unfold main_dates, resolve_option. rewrite Hs, (Hposs _ Ht), Hrun.
      destruct (replace_year_overflow y ((Date.month now - 1 + n) mod 12 + 1)
                  (Z.min (Date.days_in_month y ((Date.month now - 1 + n) mod 12 + 1))
                     (Date.day now)) Hy) as [msg ->]. eauto.
  - intros Ht Hlen y.
    assert (Hrun : parse_date_argument now s None
                   = Date.replace_ymd y (Date.month now)
                       (Z.min (Date.days_in_month y (Date.month now)) (Date.day now))).
    { rewrite (parse_relative now s None ds "y" Hne Hd)
        by (by repeat first [left | right] || done).
      simpl. fold n. by rewrite add_years_closed_form by done. }
    split.
    + intros Hy. unfold main_dates, resolve_option. rewrite Hs, (Hposs _ Ht), Hrun.
      by rewrite replace_year_out_of_range by done.
    + intros Hy. unfold main_dates, resolve_option. rewrite Hs, (Hposs _ Ht), Hrun.
      destruct (replace_year_overflow y (Date.month now)
                  (Z.min (Date.days_in_month y (Date.month now)) (Date.day now)) Hy)
        as [msg ->]. eauto.
Qed.

Lemma date_overflow_handling_witness :
  (exists msg,
     main_dates (Date.ymd2ord 2026 1 5)
       {| arg_config := "team.yaml"; arg_start_date := Some "+9999999d";
          arg_end_date := None; arg_generate_ics := false |}
     = ([], Escapes (OverflowError msg))).
Proof.
  apply (proj1 (proj2 (date_overflow_handling (Date.ymd2ord 2026 1 5)
                  {| arg_config := "team.yaml"; arg_start_date := Some "+9999999d";
                     arg_end_date := None; arg_generate_ics := false |}
                  "+9999999d" "9999999" eq_refl ltac:(discriminate) eq_refl)) eq_refl).
  - vm_compute. discriminate.
  - vm_compute. reflexivity.
Defined.

(** ** The groups of the timeline *)

Lemma group_loop_step (sh : shift) (rest : list shift)
    (m m' : gmap string (list vshift)) :
  group_loop (sh :: rest) m = Ok m' ->
  two_parts sh
  /\ group_loop rest
       (<[date_key sh := (default [] (m !! date_key sh) ++ [vshift_of sh])%list]> m)
     = Ok m'.
Proof.
  cbn [group_loop]. cbv zeta. unfold vshift_of, shift_start, shift_end, two_parts.
  destruct (Str.split " - " (sh_time_window sh)) as [|a [|b [|c l]]]; try done.
  intros H. split; [by exists a, b | exact H].
Qed.

Lemma group_loop_buckets (l : list shift) :
  forall m m' : gmap string (list vshift),
    group_loop l m = Ok m' ->
    (forall sh, sh ∈ l -> two_parts sh)
    /\ (forall k, default [] (m' !! k)
                  = (default [] (m !! k)
                     ++ (vshift_of <$> filter (fun sh => date_key sh = k) l))%list)
    /\ (forall k, is_Some (m' !! k)
                  <-> is_Some (m !! k) \/ exists sh, sh ∈ l /\ date_key sh = k).
Proof.
  induction l as [|sh l IH]; intros m m' Hrun.
  - injection Hrun as <-. split_and!.
    + by intros sh ?%elem_of_nil.
    + intros k. by rewrite filter_nil, app_nil_r.
    + intros k. split; [by left |]. intros [H | (sh & ?%elem_of_nil & _)]; done.
  - apply group_loop_step in Hrun as [Htwo Hrun].
    destruct (IH _ _ Hrun) as (H1 & H2 & H3). split_and!.
    + intros sh' [-> | Hin]%elem_of_cons; [done | by apply H1].
    + intros k. rewrite H2, filter_cons.
      destruct (decide (date_key sh = k)) as [<- | Hne].
      * rewrite lookup_insert_eq. simpl. by rewrite <- app_assoc.
      * by rewrite lookup_insert_ne.
    + intros k. rewrite H3. destruct (decide (date_key sh = k)) as [<- | Hne].
      * rewrite lookup_insert_eq. split.
        -- intros _. right. exists sh. split; [by left | done].
        -- intros _. left. eauto.
      * rewrite lookup_insert_ne by done. split.
        -- intros [H | (sh' & Hin & Hk)]; [by left |].
           right. exists sh'. split; [by right | done].
        -- intros [H | (sh' & [-> | Hin]%elem_of_cons & Hk)]; [by left | done |].
           right. by exists sh'.
Qed.

Lemma group_loop_total (l : list shift) :
  (forall sh, sh ∈ l -> two_parts sh) ->
  forall m : gmap string (list vshift), exists m', group_loop l m = Ok m'.
Proof.
  induction l as [|sh l IH]; intros Hl m; [by exists m |].
  destruct (Hl sh ltac:(by left)) as (a & b & Hs).
  cbn [group_loop]. cbv zeta. rewrite Hs. apply IH.
  intros sh' Hin. apply Hl. by right.
Qed.

(** Grouping succeeds exactly when the window of every shift splits in two
    parts at [" - "].  The group of a key then holds the shifts whose date
    is printed as that key, in the order of the schedule, and there is a
    group for a key only if some shift has it. *)
Theorem shifts_grouped_by_date_key (viz_shifts : list shift) :
  ((exists m, group_loop viz_shifts ∅ = Ok m)
   <-> forall sh, sh ∈ viz_shifts -> two_parts sh)
  /\ forall m, group_loop viz_shifts ∅ = Ok m ->
       forall k,
         default [] (m !! k)
         = vshift_of <$> filter (fun sh => date_key sh = k) viz_shifts
         /\ (is_Some (m !! k) <-> exists sh, sh ∈ viz_shifts /\ date_key sh = k).
Proof.
  split.
  - split.
    + intros [m Hm]. by destruct (group_loop_buckets _ _ _ Hm) as [H _].
    + intros H. by apply group_loop_total.
  - intros m Hm k. destruct (group_loop_buckets _ _ _ Hm) as (_ & H2 & H3). split.
    + rewrite H2, lookup_empty. done.
    + rewrite H3, lookup_empty. split.
      * intros [[? H] | H]; done.
      * intros H. by right.
Qed.

Lemma shifts_grouped_by_date_key_witness :
  exists m,
    group_loop [one_shift "08:00 - 10:30"; one_shift "10:30 - 13:00"] ∅ = Ok m
    /\ default [] (m !! "2026-01-05")
       = [vshift_of (one_shift "08:00 - 10:30"); vshift_of (one_shift "10:30 - 13:00")].
Proof.
  destruct (group_loop [one_shift "08:00 - 10:30"; one_shift "10:30 - 13:00"] ∅)
    as [m|e] eqn:E; [| vm_compute in E; discriminate E].
  exists m. split; [reflexivity |].
  destruct (proj2 (shifts_grouped_by_date_key
                     [one_shift "08:00 - 10:30"; one_shift "10:30 - 13:00"])
              m E "2026-01-05") as [H _].
  exact H.
Defined.

(** ** Times that cannot be read *)

Lemma times_of_shifts_parsed (vs : list vshift) :
  forall acc l, times_of_shifts vs acc = Ok l ->
    forall v, v ∈ vs ->
      exists a b, time_to_y (v_start v) = Ok a /\ time_to_y (v_end v) = Ok b.
Proof.
  induction vs as [|v0 vs IH]; intros acc l Hrun v Hv; [by apply elem_of_nil in Hv |].
  cbn [times_of_shifts] in Hrun.
  apply rbind_ok in Hrun as (a & Ha & Hrun).
  apply rbind_ok in Hrun as (b & Hb & Hrun).
  apply elem_of_cons in Hv as [-> | Hv]; [by exists a, b |].
  by eapply IH.
Qed.

Lemma times_of_dates_parsed (m : gmap string (list vshift)) (dates : list string) :
  forall acc l, times_of_dates m dates acc = Ok l ->
    forall k vs v, k ∈ dates -> m !! k = Some vs -> v ∈ vs ->
      exists a b, time_to_y (v_start v) = Ok a /\ time_to_y (v_end v) = Ok b.
Proof.
  induction dates as [|k0 dates IH]; intros acc l Hrun k vs v Hk Hm Hv;
    [by apply elem_of_nil in Hk |].
  cbn [times_of_dates] in Hrun.
  destruct (m !! k0) as [vs0|] eqn:E0; [| done].
  apply rbind_ok in Hrun as (acc' & Hshifts & Hrun).
  apply elem_of_cons in Hk as [-> | Hk].
  - assert (vs0 = vs) as -> by congruence. by eapply times_of_shifts_parsed.
  - by eapply IH.
Qed.

Lemma time_to_y_not_available :
  time_to_y "N/A" = Raise (ValueError "invalid literal for int() with base 10: 'N/A'").
Proof. vm_compute. reflexivity. Qed.

Lemma elem_of_viz_shifts (layer_shifts : list shift) (end_date : Date.datetime)
    (sh : shift) :
  sh ∈ List.filter (fun sh => sh_date sh <? end_date) layer_shifts
  <-> sh ∈ layer_shifts /\ sh_date sh < end_date.
Proof.
  rewrite !list_elem_of_In, filter_In, Z.ltb_lt. done.
Qed.

(** The bounds of the time axis are computed only if the window of every
    shift before the end date splits in two parts that are both read as
    times.  A shift with a missing time, shown as [N/A], therefore makes
    the timeline fail, although the workbook shows it. *)
Theorem timeline_needs_readable_times (layer_shifts : list shift)
    (end_date : Date.datetime) :
  (forall bounds, axis_bounds layer_shifts end_date = Ok bounds ->
     forall sh, sh ∈ layer_shifts -> sh_date sh < end_date ->
       two_parts sh
       /\ exists a b, time_to_y (shift_start sh) = Ok a
                      /\ time_to_y (shift_end sh) = Ok b)
  /\ (forall sh, sh ∈ layer_shifts -> sh_date sh < end_date ->
        shift_start sh = "N/A" \/ shift_end sh = "N/A" ->
        exists e, axis_bounds layer_shifts end_date = Raise e).
Proof.
  assert (Hmain : forall bounds, axis_bounds layer_shifts end_date = Ok bounds ->
     forall sh, sh ∈ layer_shifts -> sh_date sh < end_date ->
       two_parts sh
       /\ exists a b, time_to_y (shift_start sh) = Ok a
                      /\ time_to_y (shift_end sh) = Ok b).
  { intros bounds Hrun sh Hin Hlt.
    assert (Hviz : sh ∈ List.filter (fun sh => sh_date sh <? end_date) layer_shifts)
      by by apply elem_of_viz_shifts.
    unfold axis_bounds in Hrun. cbv zeta in Hrun.
    destruct (List.filter (fun sh => sh_date sh <? end_date) layer_shifts)
      as [|sh0 viz] eqn:Ev; [by apply elem_of_nil in Hviz |].
    apply rbind_ok in Hrun as (m & Hgroup & Hrun).
    apply rbind_ok in Hrun as (all_times & Htimes & _).
    destruct (group_loop_buckets _ _ _ Hgroup) as (H1 & H2 & H3).
    split; [by apply H1 |].
    assert (Hk : is_Some (m !! date_key sh)).
    { apply H3. right. by exists sh. }
    destruct Hk as [vs Hvs].
    assert (Hv : vshift_of sh ∈ vs).
    { specialize (H2 (date_key sh)). rewrite Hvs, lookup_empty in H2. simpl in H2.
      rewrite H2. apply list_elem_of_fmap. exists sh. split; [done |].
      by apply list_elem_of_filter. }
    apply (times_of_dates_parsed m (sorted_keys m) [] all_times Htimes
             (date_key sh) vs (vshift_of sh)); [| done | done].
    apply elem_of_sorted_keys. by rewrite Hvs. }
  split; [exact Hmain |].
  intros sh Hin Hlt Hna.
  destruct (axis_bounds layer_shifts end_date) as [bounds|e] eqn:E; [| by exists e].
  destruct (Hmain bounds eq_refl sh Hin Hlt) as (_ & a & b & Ha & Hb).
  pose proof time_to_y_not_available as Hraise.
  destruct Hna as [Hna | Hna]; [rewrite Hna in Ha | rewrite Hna in Hb]; congruence.
Qed.

Lemma timeline_needs_readable_times_witness :
  exists c e,
    generate_oncall_calendar 1 config_no_times None (Some (Date.ymd2ord 2026 1 7)) = Ok c
    /\ length (cal_shifts c) = 1%nat
    /\ axis_bounds (cal_shifts c) (cal_end_date c) = Raise e.
Proof.
  destruct (generate_oncall_calendar 1 config_no_times None (Some (Date.ymd2ord 2026 1 7)))
    as [c|e0] eqn:E; [| vm_compute in E; discriminate E].
  assert (Hc : cal_shifts c
               = [{| sh_date := Date.ymd2ord 2026 1 5; sh_layer_name := "Layer A";
                     sh_time_window := "N/A - N/A"; sh_person := "Alice";
                     sh_layer_idx := 0 |}]
               /\ cal_end_date c = Date.ymd2ord 2026 1 7).
  { vm_compute in E. injection E as <-. split; reflexivity. }
  destruct Hc as [Hshifts Hend].
  destruct (proj2 (timeline_needs_readable_times (cal_shifts c) (cal_end_date c))
              {| sh_date := Date.ymd2ord 2026 1 5; sh_layer_name := "Layer A";
                 sh_time_window := "N/A - N/A"; sh_person := "Alice";
                 sh_layer_idx := 0 |}) as [e He].
  - rewrite Hshifts. by left.
  - rewrite Hend. vm_compute. reflexivity.
  - left. reflexivity.
  - exists c, e. split; [reflexivity |]. split; [by rewrite Hshifts | exact He].
Defined.
